(** * Currency and unit conversion engine of [proekt.py]

    A shallow embedding of the conversion core of [proekt.py]: the
    [ConversionResult] value object, the [UnitConverter] with its static
    factor table and affine temperature case, and the [CurrencyConverter]
    with its rate cache and remote fetch.

    Python [float] is IEEE 754 binary64, and so is Rocq's primitive [float]:
    every arithmetic step of the source is one primitive operation here, in
    the order the source evaluates it.  Python raises [ZeroDivisionError]
    where IEEE division would return an infinity or a NaN; [truediv] keeps
    that.  Strings are byte strings holding the UTF-8 encoding of the source
    literals, on which equality and substring tests agree with Python's.

    Pure code returns an [outcome]: a value or the exception raised.  The
    code that reads the clock, the cache file and the network runs in a
    state monad over the converter object and a [World].  The handlers of
    the window [ConverterGUI] run in a second state monad, over the
    converter and what the widgets show.  The definitions come first, then
    the words of the specification, then the properties and their instances
    on concrete data. *)

From Stdlib Require Import Floats String Ascii List ZArith Bool Lia.
Import ListNotations.

Set Warnings "-inexact-float,-register-all".

Local Open Scope string_scope.

(** ** Exceptions and outcomes *)

(** The exception classes the core can meet.  [JSONDecodeError] stands for
    both [json.JSONDecodeError] and the one of [requests]; [RequestException]
    for [requests.exceptions.RequestException] and its subclasses
    (connection errors, timeouts, [HTTPError]). *)
Inductive exn : Type :=
| ValueError (msg : string)
| KeyError (key : string)
| TypeError
| AttributeError
| ZeroDivisionError
| OSError
| JSONDecodeError
| RequestException.

Inductive outcome (A : Type) : Type :=
| Returns (a : A)
| Raises (e : exn).

Arguments Returns {A} a.
Arguments Raises {A} e.

Definition bind {A B : Type} (m : outcome A) (k : A -> outcome B) : outcome B :=
  match m with
  | Returns a => k a
  | Raises e => Raises e
  end.

Declare Scope py_scope.
Delimit Scope py_scope with py.
Notation "x <- m ;; k" := (bind m (fun x => k))
  (at level 61, m at next level, right associativity) : py_scope.

(** ** Dictionaries

    A [dict] keeps insertion order, which the source relies on when it scans
    [CONVERSION_FACTORS.items()] and when it lists [rates.keys()]. *)
Definition dict (A : Type) : Type := list (string * A).

Fixpoint dict_get {A : Type} (d : dict A) (k : string) : option A :=
  match d with
  | [] => None
  | (k', v) :: rest => if k' =? k then Some v else dict_get rest k
  end.

(** [k in d] *)
Definition dict_in {A : Type} (k : string) (d : dict A) : bool :=
  match dict_get d k with
  | Some _ => true
  | None => false
  end.

(** [d[k]] *)
Definition dict_getitem {A : Type} (d : dict A) (k : string) : outcome A :=
  match dict_get d k with
  | Some v => Returns v
  | None => Raises (KeyError k)
  end.

Definition dict_keys {A : Type} (d : dict A) : list string := map fst d.

(** ** Floats *)

(** [a / b] on Python floats. *)
Definition truediv (a b : float) : outcome float :=
  if (b =? 0)%float then Raises ZeroDivisionError else Returns (a / b)%float.

(** [math.isfinite]. *)
Definition isfinite (x : float) : bool :=
  negb (PrimFloat.is_nan x) && negb (PrimFloat.is_infinity x).

(** ** Time *)

(** A [datetime]: naive (no time zone), as [datetime.now()] returns it, or
    aware.  Wall-clock microseconds, and the UTC offset of an aware one. *)
Inductive datetime : Type :=
| Naive (us : Z)
| Aware (us : Z) (utcoffset : Z).

(** A [timedelta], in microseconds. *)
Definition timedelta : Type := Z.

Definition hours (h : Z) : timedelta := (h * 3600 * 1000000)%Z.

(** [a - b] on datetimes: mixing naive and aware raises [TypeError]. *)
Definition datetime_sub (a b : datetime) : outcome timedelta :=
  match a, b with
  | Naive x, Naive y => Returns (x - y)%Z
  | Aware x ox, Aware y oy => Returns ((x - ox) - (y - oy))%Z
  | _, _ => Raises TypeError
  end.

(** ** Constants *)

Definition API_KEY : string := "ce5a102264928bf6141e12264".
Definition BASE_CURRENCY : string := "RUB".
Definition CACHE_FILE : string := "exchange_rates_cache.json".
Definition CACHE_DURATION_HOURS : Z := 24.

(** ** ConversionResult *)

Record ConversionResult : Type := mkConversionResult {
  amount : float;
  from_unit : string;
  to_unit : string;
  result : float;
  timestamp : datetime;
  rate : option float
}.

(** ** UnitConverter *)

Module UnitConverter.

Local Open Scope float_scope.
Local Open Scope string_scope.

(** A value of the factor table: a scale factor to the base unit of the
    category, or the string that marks a temperature unit. *)
Inductive factor : Type :=
| Scale (f : float)
| Marker (name : string).

Definition CONVERSION_FACTORS : dict (dict factor) :=
  [ ("Длина",
      [ ("мм", Scale 0.001); ("см", Scale 0.01); ("м", Scale 1.0);
        ("км", Scale 1000.0); ("дюйм", Scale 0.0254); ("фут", Scale 0.3048);
        ("ярд", Scale 0.9144); ("миля", Scale 1609.34);
        ("морская миля", Scale 1852.0) ]);
    ("Масса",
      [ ("мг", Scale 0.000001); ("г", Scale 0.001); ("кг", Scale 1.0);
        ("т", Scale 1000.0); ("центнер", Scale 100.0);
        ("унция", Scale 0.0283495); ("фунт", Scale 0.453592);
        ("карат", Scale 0.0002) ]);
    ("Температура",
      [ ("°C", Marker "celsius"); ("°F", Marker "fahrenheit");
        ("K", Marker "kelvin") ]);
    ("Площадь",
      [ ("мм²", Scale 0.000001); ("см²", Scale 0.0001); ("м²", Scale 1.0);
        ("км²", Scale 1000000.0); ("га", Scale 10000.0);
        ("сотка", Scale 100.0); ("акр", Scale 4046.86);
        ("фут²", Scale 0.092903); ("дюйм²", Scale 0.00064516) ]);
    ("Скорость",
      [ ("м/с", Scale 1.0); ("км/ч", Scale 0.277778);
        ("миль/ч", Scale 0.44704); ("узлы", Scale 0.514444);
        ("фут/с", Scale 0.3048) ]);
    ("Объем",
      [ ("мл", Scale 0.001); ("л", Scale 1.0); ("м³", Scale 1000.0);
        ("см³", Scale 0.001); ("галлон US", Scale 3.78541);
        ("галлон UK", Scale 4.54609); ("пинта US", Scale 0.473176);
        ("пинта UK", Scale 0.568261); ("жидкая унция", Scale 0.0295735);
        ("баррель нефтяной", Scale 158.987) ]);
    ("Давление",
      [ ("Па", Scale 1.0); ("кПа", Scale 1000.0); ("МПа", Scale 1000000.0);
        ("бар", Scale 100000.0); ("атм", Scale 101325.0);
        ("мм рт.ст.", Scale 133.322); ("psi", Scale 6894.76) ]);
    ("Энергия",
      [ ("Дж", Scale 1.0); ("кДж", Scale 1000.0); ("МДж", Scale 1000000.0);
        ("ккал", Scale 4184.0); ("кал", Scale 4.184);
        ("кВт·ч", Scale 3600000.0); ("эВ", Scale 1.60218e-19) ]);
    ("Мощность",
      [ ("Вт", Scale 1.0); ("кВт", Scale 1000.0); ("МВт", Scale 1000000.0);
        ("л.с.", Scale 735.499); ("л.с. (англ.)", Scale 745.7) ]);
    ("Время",
      [ ("нс", Scale 1e-9); ("мкс", Scale 1e-6); ("мс", Scale 0.001);
        ("с", Scale 1.0); ("мин", Scale 60.0); ("ч", Scale 3600.0);
        ("день", Scale 86400.0); ("неделя", Scale 604800.0);
        ("месяц", Scale 2592000.0); ("год", Scale 31536000.0) ]) ].

(** The loop of [get_unit_type] over [items()]: the first category that
    holds the unit wins. *)
Fixpoint scan_unit_type (items : dict (dict factor)) (unit : string)
  : option string :=
  match items with
  | [] => None
  | (unit_type, units) :: rest =>
      if dict_in unit units then Some unit_type else scan_unit_type rest unit
  end.

Definition get_unit_type (unit : string) : option string :=
  scan_unit_type CONVERSION_FACTORS unit.

(** [not t] on an [Optional[str]]: [None] and the empty string are falsy. *)
Definition falsy (t : option string) : bool :=
  match t with
  | None => true
  | Some s => s =? ""
  end.

(** [a == b] on [Optional[str]]. *)
Definition type_eqb (a b : option string) : bool :=
  match a, b with
  | Some x, Some y => x =? y
  | None, None => true
  | _, _ => false
  end.

(** [str(t)] inside an f-string. *)
Definition show (t : option string) : string :=
  match t with
  | None => "None"
  | Some s => s
  end.

(** [CONVERSION_FACTORS[t]] *)
Definition factors_of (t : option string) : outcome (dict factor) :=
  match t with
  | Some unit_type => dict_getitem CONVERSION_FACTORS unit_type
  | None => Raises (KeyError "None")
  end.

(** A table value used as a number: a marker string under [*] or [/] with a
    float raises [TypeError]. *)
Definition number (v : factor) : outcome float :=
  match v with
  | Scale f => Returns f
  | Marker _ => Raises TypeError
  end.

Definition _convert_temperature (value : float) (from_unit to_unit : string)
  : outcome float :=
  (celsius <-
     (if from_unit =? "°C" then Returns value
      else if from_unit =? "°F" then Returns ((value - 32) * 5 / 9)
      else if from_unit =? "K" then Returns (value - 273.15)
      else Raises (ValueError ("Неизвестная единица температуры: " ++ from_unit))) ;;
   if to_unit =? "°C" then Returns celsius
   else if to_unit =? "°F" then Returns ((celsius * 9 / 5) + 32)
   else if to_unit =? "K" then Returns (celsius + 273.15)
   else Raises (ValueError ("Неизвестная единица температуры: " ++ to_unit)))%py.

Definition unknown_unit_message (from_unit to_unit : string) : string :=
  "Неизвестная единица измерения: " ++ from_unit ++ " или " ++ to_unit.

Definition incompatible_message (from_unit : string) (from_unit_type : option string)
  (to_unit : string) (to_unit_type : option string) : string :=
  "Несовместимые единицы: " ++ from_unit ++ " (" ++ show from_unit_type ++ ") и "
    ++ to_unit ++ " (" ++ show to_unit_type ++ ")".

(** [now] is the reading of [datetime.now()] taken for the timestamp. *)
Definition convert (now : datetime) (value : float) (from_unit to_unit : string)
  : outcome ConversionResult :=
  let from_unit_type := get_unit_type from_unit in
  let to_unit_type := get_unit_type to_unit in
  if falsy from_unit_type || falsy to_unit_type then
    Raises (ValueError (unknown_unit_message from_unit to_unit))
  else if negb (type_eqb from_unit_type to_unit_type) then
    Raises (ValueError
              (incompatible_message from_unit from_unit_type to_unit to_unit_type))
  else
    (result <-
       (if type_eqb from_unit_type (Some "Температура") then
          _convert_temperature value from_unit to_unit
        else
          factors <- factors_of from_unit_type ;;
          f_from <- dict_getitem factors from_unit ;;
          f_from <- number f_from ;;
          let value_in_base := value * f_from in
          f_to <- dict_getitem factors to_unit ;;
          f_to <- number f_to ;;
          truediv value_in_base f_to) ;;
     Returns {| amount := value; from_unit := from_unit; to_unit := to_unit;
                result := result; timestamp := now; rate := None |})%py.

(** The display names of the unit codes. *)
Definition UNIT_NAMES : dict string :=
  [ ("мм", "миллиметр"); ("см", "сантиметр"); ("м", "метр");
    ("км", "километр"); ("дюйм", "дюйм"); ("фут", "фут"); ("ярд", "ярд");
    ("миля", "миля"); ("морская миля", "морская миля");
    ("мг", "миллиграмм"); ("г", "грамм"); ("кг", "килограмм");
    ("т", "тонна"); ("центнер", "центнер"); ("унция", "унция");
    ("фунт", "фунт"); ("карат", "карат"); ("°C", "градус Цельсия");
    ("°F", "градус Фаренгейта"); ("K", "Кельвин");
    ("мм²", "квадратный миллиметр"); ("см²", "квадратный сантиметр");
    ("м²", "квадратный метр"); ("км²", "квадратный километр");
    ("га", "гектар"); ("сотка", "сотка"); ("акр", "акр");
    ("фут²", "квадратный фут"); ("дюйм²", "квадратный дюйм");
    ("м/с", "метр в секунду"); ("км/ч", "километр в час");
    ("миль/ч", "миля в час"); ("узлы", "узел"); ("фут/с", "фут в секунду");
    ("мл", "миллилитр"); ("л", "литр"); ("м³", "кубический метр");
    ("см³", "кубический сантиметр"); ("галлон US", "американский галлон");
    ("галлон UK", "английский галлон"); ("пинта US", "американская пинта");
    ("пинта UK", "английская пинта"); ("жидкая унция", "жидкая унция");
    ("баррель нефтяной", "нефтяной баррель"); ("Па", "Паскаль");
    ("кПа", "килоПаскаль"); ("МПа", "мегаПаскаль"); ("бар", "бар");
    ("атм", "атмосфера"); ("мм рт.ст.", "миллиметр ртутного столба");
    ("psi", "фунт-сила на квадратный дюйм"); ("Дж", "Джоуль");
    ("кДж", "килоДжоуль"); ("МДж", "мегаДжоуль"); ("ккал", "килокалория");
    ("кал", "калория"); ("кВт·ч", "киловатт-час"); ("эВ", "электронвольт");
    ("Вт", "Ватт"); ("кВт", "килоВатт"); ("МВт", "мегаВатт");
    ("л.с.", "лошадиная сила"); ("л.с. (англ.)", "лошадиная сила (англ.)");
    ("нс", "наносекунда"); ("мкс", "микросекунда"); ("мс", "миллисекунда");
    ("с", "секунда"); ("мин", "минута"); ("ч", "час"); ("день", "день");
    ("неделя", "неделя"); ("месяц", "месяц"); ("год", "год") ].

Definition get_available_units : dict (dict factor) := CONVERSION_FACTORS.

(** [UNIT_NAMES.get(unit_code, unit_code)] *)
Definition get_full_unit_name (unit_code : string) : string :=
  match dict_get UNIT_NAMES unit_code with
  | Some name => name
  | None => unit_code
  end.

End UnitConverter.

(** ** JSON values

    What [json.load] and [response.json()] return.  A number is kept at
    binary64 precision: an integer literal of the document stands here for
    the float Python converts it to when it meets a float operand. *)
Inductive json : Type :=
| JNull
| JBool (b : bool)
| JNumber (x : float)
| JString (s : string)
| JArray (items : list json)
| JObject (members : list (string * json)).

(** [bool(v)] *)
Definition truthy (v : json) : bool :=
  match v with
  | JNull => false
  | JBool b => b
  | JNumber x => negb (x =? 0)%float
  | JString s => negb (s =? "")
  | JArray items => match items with [] => false | _ :: _ => true end
  | JObject members => match members with [] => false | _ :: _ => true end
  end.

(** [k in v] for a string [k]: key of a dict, element of a list, substring
    of a string; anything else is not iterable. *)
Definition contains (k : string) (v : json) : outcome bool :=
  match v with
  | JObject members => Returns (dict_in k members)
  | JArray items =>
      Returns (existsb (fun e => match e with
                                 | JString s => s =? k
                                 | _ => false
                                 end) items)
  | JString s => Returns (match index 0 k s with Some _ => true | None => false end)
  | _ => Raises TypeError
  end.

(** [v[k]] for a string [k]. *)
Definition subscript (v : json) (k : string) : outcome json :=
  match v with
  | JObject members => dict_getitem members k
  | _ => Raises TypeError
  end.

(** [v.keys()] *)
Definition keys (v : json) : outcome (list string) :=
  match v with
  | JObject members => Returns (dict_keys members)
  | _ => Raises AttributeError
  end.

(** [v] as an operand of [*] or [/] with a float. *)
Definition operand (v : json) : outcome float :=
  match v with
  | JNumber x => Returns x
  | JBool b => Returns (if b then 1 else 0)%float
  | _ => Raises TypeError
  end.

(** [v == s] for a string [s]. *)
Definition equals_str (v : json) (s : string) : bool :=
  match v with
  | JString s' => s' =? s
  | _ => false
  end.

(** ** Library functions

    Functions of the Python library whose code is not part of the
    repository: [str.upper], [datetime.fromisoformat] and
    [datetime.isoformat]. *)
Class Library : Type := {
  upper : string -> string;
  fromisoformat : string -> outcome datetime;
  isoformat : datetime -> string
}.

(** ** The world around the converter *)

(** The file named [CACHE_FILE]: absent, or present with the value
    [json.load] reads from it ([None] when [open] or [json.load] raises:
    unreadable, not JSON). *)
Inductive file : Type :=
| Absent
| Present (content : option json).

(** What [requests.get] meets: no response at all (connection error,
    timeout), or a response with a status code and a body that is JSON or
    not. *)
Inductive reply : Type :=
| Unreachable
| Response (status_code : Z) (body : option json).

(** [cache] is the file named [CACHE_FILE] and [writable] tells whether it
    can be written.  [clock n] is the [n]-th reading of [datetime.now()], in
    microseconds; [ticks] counts the readings taken so far.  [network] is
    what a request to a URL meets.  [requests] lists the URLs contacted,
    newest first; [stdout] the messages printed (prefix and exception),
    newest first; printing is taken to succeed. *)
Record World : Type := mkWorld {
  cache : file;
  writable : bool;
  clock : nat -> Z;
  ticks : nat;
  network : string -> reply;
  requests : list string;
  stdout : list (string * exn)
}.

Module CurrencyConverter.

Local Open Scope float_scope.
Local Open Scope string_scope.

Record converter : Type := mkConverter {
  api_key : string;
  base_currency : string;
  rates : json;
  last_update : option datetime;
  api_url : string
}.

Definition __init__ (api_key base_currency : string) : converter :=
  {| api_key := api_key;
     base_currency := base_currency;
     rates := JObject [];
     last_update := None;
     api_url := "https://v6.exchangerate-api.com/v6/" ++ api_key ++ "/latest/"
                  ++ base_currency |}.

(** *** Stateful code: the object and the world, with exceptions *)

Record state : Type := mkState {
  self : converter;
  world : World
}.

Definition M (A : Type) : Type := state -> outcome A * state.

Definition ret {A : Type} (a : A) : M A := fun s => (Returns a, s).

Definition raise {A : Type} (e : exn) : M A := fun s => (Raises e, s).

Definition lift {A : Type} (o : outcome A) : M A := fun s => (o, s).

Definition mbind {A B : Type} (m : M A) (k : A -> M B) : M B :=
  fun s =>
    match m s with
    | (Returns a, s') => k a s'
    | (Raises e, s') => (Raises e, s')
    end.

Declare Scope io_scope.
Delimit Scope io_scope with io.
Notation "x <- m ;; k" := (mbind m (fun x => k))
  (at level 61, m at next level, right associativity) : io_scope.
Notation "m ;; k" := (mbind m (fun _ => k))
  (at level 61, right associativity) : io_scope.

(** [try: body except <catches> as e: handler e] *)
Definition try {A : Type} (body : M A) (catches : exn -> bool)
  (handler : exn -> M A) : M A :=
  fun s =>
    match body s with
    | (Raises e, s') => if catches e then handler e s' else (Raises e, s')
    | (Returns a, s') => (Returns a, s')
    end.

Definition get_self : M converter := fun s => (Returns (self s), s).

Definition set_rates (v : json) : M unit :=
  fun s =>
    let c := self s in
    (Returns tt,
     {| self := {| api_key := api_key c; base_currency := base_currency c;
                   rates := v; last_update := last_update c;
                   api_url := api_url c |};
        world := world s |}).

Definition set_last_update (t : datetime) : M unit :=
  fun s =>
    let c := self s in
    (Returns tt,
     {| self := {| api_key := api_key c; base_currency := base_currency c;
                   rates := rates c; last_update := Some t;
                   api_url := api_url c |};
        world := world s |}).

Definition with_world (f : World -> World) (s : state) : state :=
  {| self := self s; world := f (world s) |}.

(** [datetime.now()] *)
Definition now : M datetime :=
  fun s =>
    let w := world s in
    (Returns (Naive (clock w (ticks w))),
     with_world (fun w => {| cache := cache w; writable := writable w;
                             clock := clock w; ticks := S (ticks w);
                             network := network w; requests := requests w;
                             stdout := stdout w |}) s).

(** [print(f"{prefix}{e}")] *)
Definition print (prefix : string) (e : exn) : M unit :=
  fun s =>
    (Returns tt,
     with_world (fun w => {| cache := cache w; writable := writable w;
                             clock := clock w; ticks := ticks w;
                             network := network w; requests := requests w;
                             stdout := (prefix, e) :: stdout w |}) s).

(** [os.path.exists(CACHE_FILE)] *)
Definition exists_cache : M bool :=
  fun s =>
    (Returns (match cache (world s) with Absent => false | Present _ => true end), s).

(** [open(CACHE_FILE, 'r')] and [json.load] *)
Definition load_json : M json :=
  fun s =>
    match cache (world s) with
    | Present (Some data) => (Returns data, s)
    | Present None => (Raises JSONDecodeError, s)
    | Absent => (Raises OSError, s)
    end.

(** [open(CACHE_FILE, 'w')] and [json.dump] *)
Definition dump_json (data : json) : M unit :=
  fun s =>
    if writable (world s) then
      (Returns tt,
       with_world (fun w => {| cache := Present (Some data); writable := writable w;
                               clock := clock w; ticks := ticks w;
                               network := network w; requests := requests w;
                               stdout := stdout w |}) s)
    else (Raises OSError, s).

(** [requests.get(url, timeout=10)] *)
Definition requests_get (url : string) : M (Z * option json) :=
  fun s =>
    let s' :=
      with_world (fun w => {| cache := cache w; writable := writable w;
                              clock := clock w; ticks := ticks w;
                              network := network w; requests := url :: requests w;
                              stdout := stdout w |}) s in
    match network (world s) url with
    | Unreachable => (Raises RequestException, s')
    | Response status_code body => (Returns (status_code, body), s')
    end.

(** [response.raise_for_status()]: [HTTPError] on a 4xx or 5xx status. *)
Definition raise_for_status (response : Z * option json) : M unit :=
  if ((400 <=? fst response) && (fst response <? 600))%Z
  then raise RequestException else ret tt.

(** [response.json()] *)
Definition response_json (response : Z * option json) : M json :=
  match snd response with
  | Some data => ret data
  | None => raise JSONDecodeError
  end.

Section WithLibrary.

Context {lib : Library}.

(** [datetime.fromisoformat(v)] on a value read from JSON. *)
Definition parse_timestamp (v : json) : outcome datetime :=
  match v with
  | JString s => fromisoformat s
  | _ => Raises TypeError
  end.

(** The body of [_load_from_cache] under [try]: [Some b] when it returns
    [b], [None] when it falls through to the code after the [try]. *)
Definition load_body : M (option bool) :=
  (data <- load_json ;;
   stamp <- lift (subscript data "timestamp") ;;
   cache_time <- lift (parse_timestamp stamp) ;;
   t <- now ;;
   age <- lift (datetime_sub t cache_time) ;;
   if (age <? hours CACHE_DURATION_HOURS)%Z then
     cached <- lift (subscript data "rates") ;;
     set_rates cached ;;
     set_last_update cache_time ;;
     ret (Some true)
   else ret None)%io.

Definition _load_from_cache : M bool :=
  (found <- exists_cache ;;
   if negb found then ret false
   else
     r <- try load_body (fun _ => true)
            (fun e => print "Ошибка при загрузке кэша: " e ;; ret None) ;;
     match r with
     | Some b => ret b
     | None => ret false
     end)%io.

Definition _save_to_cache : M unit :=
  try (t <- now ;;
       c <- get_self ;;
       let data := JObject [ ("timestamp", JString (isoformat t));
                             ("base", JString (base_currency c));
                             ("rates", rates c) ] in
       dump_json data)%io
      (fun _ => true)
      (fun e => print "Ошибка при сохранении в кэш: " e).

(** The body of the [try] of [fetch_rates]. *)
Definition fetch_body : M bool :=
  (c <- get_self ;;
   response <- requests_get (api_url c) ;;
   raise_for_status response ;;
   data <- response_json response ;;
   status <- lift (subscript data "result") ;;
   if equals_str status "success" then
     fetched <- lift (subscript data "conversion_rates") ;;
     set_rates fetched ;;
     t <- now ;;
     set_last_update t ;;
     _save_to_cache ;;
     ret true
   else ret false)%io.

(** [except requests.exceptions.RequestException] and
    [except json.JSONDecodeError]. *)
Definition fetch_catches (e : exn) : bool :=
  match e with
  | RequestException | JSONDecodeError => true
  | _ => false
  end.

Definition fetch_rates : M bool :=
  (loaded <- _load_from_cache ;;
   if loaded then ret true
   else try fetch_body fetch_catches (fun _ => ret false))%io.

Definition not_loaded_message : string :=
  "Курсы валют не загружены. Сначала вызовите fetch_rates()".

Definition unknown_currency_message (available : list string) : string :=
  "Неизвестная валюта. Доступные: " ++ String.concat ", " available ++ "...".

(** The three branches of [convert]: the result, and the local [rate]
    ([None] would be a branch that leaves it unbound). *)
Definition through_base (c : converter) (from_currency to_currency : string)
  (amount : float) : outcome (float * option float) :=
  (if from_currency =? base_currency c then
     rate <- subscript (rates c) to_currency ;;
     rate <- operand rate ;;
     let result := amount * rate in
     Returns (result, Some rate)
   else if to_currency =? base_currency c then
     r <- subscript (rates c) from_currency ;;
     r <- operand r ;;
     rate <- truediv 1 r ;;
     let result := amount * rate in
     Returns (result, Some rate)
   else
     r <- subscript (rates c) from_currency ;;
     r <- operand r ;;
     amount_in_base <- truediv amount r ;;
     r' <- subscript (rates c) to_currency ;;
     r' <- operand r' ;;
     let result := amount_in_base * r' in
     rate <- truediv result amount ;;
     Returns (result, Some rate))%py.

(** [now] is the reading of [datetime.now()] taken for the timestamp.  The
    last [match] is [rate if 'rate' in locals() else self.rates[to_currency]];
    [through_base] shows that every branch binds [rate]. *)
Definition convert (c : converter) (now : datetime)
  (from_currency to_currency : string) (amount : float)
  : outcome ConversionResult :=
  (if negb (truthy (rates c)) then Raises (ValueError not_loaded_message)
   else
     let from_currency := upper from_currency in
     let to_currency := upper to_currency in
     present_from <- contains from_currency (rates c) ;;
     missing <- (if negb present_from then Returns true
                 else present_to <- contains to_currency (rates c) ;;
                      Returns (negb present_to)) ;;
     if missing then
       ks <- keys (rates c) ;;
       let available := firstn 20 ks in
       Raises (ValueError (unknown_currency_message available))
     else
       computed <- through_base c from_currency to_currency amount ;;
       let '(result, rate) := computed in
       rate <- match rate with
               | Some rate => Returns rate
               | None => r <- subscript (rates c) to_currency ;; operand r
               end ;;
       Returns {| amount := amount; from_unit := from_currency;
                  to_unit := to_currency; result := result; timestamp := now;
                  rate := Some rate |})%py.

(** [get_available_currencies] *)
Definition get_available_currencies (c : converter) : outcome (list string) :=
  keys (rates c).

End WithLibrary.

End CurrencyConverter.

(** ** The window

    [ConverterGUI] keeps the two converters and the history, and its
    handlers read and write widgets.  A widget is known by the name of its
    attribute; what matters of it is the text it shows and, for a combobox,
    the values it offers.  Message boxes and the callbacks handed to the
    main loop are logged.  The handlers run in a state monad over the
    window; the function a background thread runs is modelled as run to its
    end. *)

(** [d[k] = v]: the value of an existing key is replaced in place, a new
    key goes to the end. *)
Fixpoint dict_set {A : Type} (d : dict A) (k : string) (v : A) : dict A :=
  match d with
  | [] => [(k, v)]
  | (k', v') :: rest =>
      if k' =? k then (k, v) :: rest else (k', v') :: dict_set rest k v
  end.

(** [s.replace(a, b)] for single ASCII characters [a] and [b]. *)
Fixpoint replace_char (a b : ascii) (s : string) : string :=
  match s with
  | EmptyString => EmptyString
  | String ch rest =>
      String (if Ascii.eqb ch a then b else ch) (replace_char a b rest)
  end.

(** More functions of the Python library: [float(s)] (the value, or the
    message of the [ValueError]), [format(value, spec)] on floats, integers
    and strings, [datetime.strftime] and [str(exception)]. *)
Class Formatting : Type := {
  float_of_str : string -> float + string;
  format_float : float -> string -> string;
  format_int : Z -> string -> string;
  format_str : string -> string -> string;
  strftime : datetime -> string -> string;
  str_of_exn : exn -> string
}.

(** [str(e)]: the message a [ValueError] was raised with, the library's
    text for the other exceptions. *)
Definition str {fmt : Formatting} (e : exn) : string :=
  match e with
  | ValueError message => message
  | _ => str_of_exn e
  end.

(** [except ValueError]: [json.JSONDecodeError] is a subclass. *)
Definition is_ValueError (e : exn) : bool :=
  match e with
  | ValueError _ | JSONDecodeError => true
  | _ => false
  end.

(** [bool(rate)] on an [Optional[float]]. *)
Definition rate_truthy (rate : option float) : bool :=
  match rate with
  | Some r => negb (r =? 0)%float
  | None => false
  end.

Module ConverterGUI.

Local Open Scope float_scope.
Local Open Scope string_scope.

(** A message box that was shown. *)
Inductive dialog : Type :=
| showerror (title message : string).

(** A callback handed to [root.after(0, ...)]: a status line to show (its
    text is computed when the callback runs), or [update_currency_list]. *)
Inductive callback : Type :=
| status_loaded
| status_load_failed
| status_updated
| status_update_failed
| update_currency_list.

(** The application: the currency converter with the world around it, the
    history, the text shown by each label, entry and combobox (by attribute
    name), the values offered by each combobox, the chunks inserted into
    the history text, the message boxes shown (newest first) and the
    callbacks queued for the main loop (oldest first). *)
Record gui : Type := mkGui {
  currency_converter : CurrencyConverter.state;
  history : list ConversionResult;
  texts : dict string;
  choices : dict (list string);
  history_text : list string;
  dialogs : list dialog;
  queue : list callback
}.

Definition G (A : Type) : Type := gui -> outcome A * gui.

Definition ret {A : Type} (a : A) : G A := fun g => (Returns a, g).

Definition lift {A : Type} (o : outcome A) : G A := fun g => (o, g).

Definition gbind {A B : Type} (m : G A) (k : A -> G B) : G B :=
  fun g =>
    match m g with
    | (Returns a, g') => k a g'
    | (Raises e, g') => (Raises e, g')
    end.

Declare Scope gui_scope.
Delimit Scope gui_scope with gui.
Notation "x <- m ;; k" := (gbind m (fun x => k))
  (at level 61, m at next level, right associativity) : gui_scope.
Notation "m ;; k" := (gbind m (fun _ => k))
  (at level 61, right associativity) : gui_scope.

(** [try: body except Exception as e: handler e] *)
Definition try {A : Type} (body : G A) (handler : exn -> G A) : G A :=
  fun g =>
    match body g with
    | (Raises e, g') => handler e g'
    | (Returns a, g') => (Returns a, g')
    end.

(** A method of [self.currency_converter]. *)
Definition on_converter {A : Type} (m : CurrencyConverter.M A) : G A :=
  fun g =>
    let (o, s) := m (currency_converter g) in
    (o, {| currency_converter := s; history := history g; texts := texts g;
           choices := choices g; history_text := history_text g;
           dialogs := dialogs g; queue := queue g |}).

(** The text a widget shows; a widget never written shows nothing. *)
Definition text_of (g : gui) (widget : string) : string :=
  match dict_get (texts g) widget with
  | Some text => text
  | None => ""
  end.

(** [widget.get()] *)
Definition get (widget : string) : G string :=
  fun g => (Returns (text_of g widget), g).

(** [widget.set(text)], [widget.config(text=text)] *)
Definition set (widget text : string) : G unit :=
  fun g =>
    (Returns tt,
     {| currency_converter := currency_converter g; history := history g;
        texts := dict_set (texts g) widget text; choices := choices g;
        history_text := history_text g; dialogs := dialogs g;
        queue := queue g |}).

(** [widget['values'] = values] *)
Definition set_values (widget : string) (values : list string) : G unit :=
  fun g =>
    (Returns tt,
     {| currency_converter := currency_converter g; history := history g;
        texts := texts g; choices := dict_set (choices g) widget values;
        history_text := history_text g; dialogs := dialogs g;
        queue := queue g |}).

Definition get_history : G (list ConversionResult) :=
  fun g => (Returns (history g), g).

Definition set_history (h : list ConversionResult) : G unit :=
  fun g =>
    (Returns tt,
     {| currency_converter := currency_converter g; history := h;
        texts := texts g; choices := choices g;
        history_text := history_text g; dialogs := dialogs g;
        queue := queue g |}).

(** [self.history_text.delete(1.0, tk.END)] and
    [self.history_text.insert(tk.END, line)] *)
Definition set_history_text (chunks : list string) : G unit :=
  fun g =>
    (Returns tt,
     {| currency_converter := currency_converter g; history := history g;
        texts := texts g; choices := choices g;
        history_text := chunks; dialogs := dialogs g; queue := queue g |}).

Definition insert_end (line : string) : G unit :=
  fun g =>
    (Returns tt,
     {| currency_converter := currency_converter g; history := history g;
        texts := texts g; choices := choices g;
        history_text := history_text g ++ [line]; dialogs := dialogs g;
        queue := queue g |}).

(** [messagebox.showerror(title, message)] *)
Definition show (d : dialog) : G unit :=
  fun g =>
    (Returns tt,
     {| currency_converter := currency_converter g; history := history g;
        texts := texts g; choices := choices g;
        history_text := history_text g; dialogs := d :: dialogs g;
        queue := queue g |}).

(** [self.root.after(0, callback)] *)
Definition after (c : callback) : G unit :=
  fun g =>
    (Returns tt,
     {| currency_converter := currency_converter g; history := history g;
        texts := texts g; choices := choices g;
        history_text := history_text g; dialogs := dialogs g;
        queue := queue g ++ [c] |}).

Section Handlers.

Context {lib : Library} {fmt : Formatting}.

(** [setup_demo_mode] *)
Definition demo_rates : json :=
  JObject
    [ ("USD", JNumber 0.011); ("EUR", JNumber 0.010); ("GBP", JNumber 0.0085);
      ("JPY", JNumber 1.65); ("CNY", JNumber 0.079); ("RUB", JNumber 1.0);
      ("CAD", JNumber 0.015); ("AUD", JNumber 0.016); ("CHF", JNumber 0.0095);
      ("INR", JNumber 0.92); ("BRL", JNumber 0.055); ("MXN", JNumber 0.18);
      ("UAH", JNumber 0.42); ("KZT", JNumber 5.15); ("BYN", JNumber 0.035) ].

Definition setup_demo_mode : G unit :=
  (on_converter (CurrencyConverter.set_rates demo_rates) ;;
   t <- on_converter CurrencyConverter.now ;;
   on_converter (CurrencyConverter.set_last_update t))%gui.

(** The function [load] of [load_rates_in_background], which a thread runs:
    [Raises e] is the thread ending with the exception [e]. *)
Definition load_rates_in_background : G unit :=
  (success <- on_converter CurrencyConverter.fetch_rates ;;
   if success then after status_loaded
   else after status_load_failed ;; setup_demo_mode)%gui.

(** [update_rates], the function [load] of its thread run to its end. *)
Definition update_rates : G unit :=
  (set "status_label" "Обновление курсов..." ;;
   success <- on_converter CurrencyConverter.fetch_rates ;;
   if success then after status_updated ;; after update_currency_list
   else after status_update_failed)%gui.

(** [self.currency_converter.convert(...)]: the clock is read when the
    result is built, so a call that raises leaves it alone. *)
Definition currency_convert (from_currency to_currency : string) (amount : float)
  : G ConversionResult :=
  on_converter
    (fun s =>
       let w := CurrencyConverter.world s in
       match CurrencyConverter.convert (CurrencyConverter.self s)
               (Naive (clock w (ticks w))) from_currency to_currency amount with
       | Returns r => (Returns r, snd (CurrencyConverter.now s))
       | Raises e => (Raises e, s)
       end).

(** [self.unit_converter.convert(...)] *)
Definition unit_convert (value : float) (from_unit to_unit : string)
  : G ConversionResult :=
  on_converter
    (fun s =>
       let w := CurrencyConverter.world s in
       match UnitConverter.convert (Naive (clock w (ticks w)))
               value from_unit to_unit with
       | Returns r => (Returns r, snd (CurrencyConverter.now s))
       | Raises e => (Raises e, s)
       end).

(** [float(text)] *)
Definition to_float (text : string) : G float :=
  match float_of_str text with
  | inl x => ret x
  | inr message => lift (Raises (ValueError message))
  end.

Definition newline : string := String "010"%char EmptyString.

(** One line of the history, as [update_history] builds it. *)
Definition history_line (i : Z) (conv : ConversionResult) : string :=
  let time_str := strftime (timestamp conv) "%d.%m.%Y %H:%M:%S" in
  let unit_line :=
    let amount_str := replace_char "," " " (format_float (amount conv) ",.6g") in
    let result_str := replace_char "," " " (format_float (result conv) ",.6g") in
    format_int i "3" ++ ". " ++ time_str ++ " | " ++ format_str amount_str ">12"
      ++ " " ++ format_str (from_unit conv) "5" ++ " → "
      ++ format_str result_str ">12" ++ " " ++ format_str (to_unit conv) "5"
      ++ newline in
  match rate conv with
  | Some r =>
      if rate_truthy (Some r) then
        let amount_str := replace_char "," " " (format_float (amount conv) ",.2f") in
        let result_str := replace_char "," " " (format_float (result conv) ",.2f") in
        format_int i "3" ++ ". " ++ time_str ++ " | " ++ format_str amount_str ">12"
          ++ " " ++ format_str (from_unit conv) "5" ++ " → "
          ++ format_str result_str ">12" ++ " " ++ format_str (to_unit conv) "5"
          ++ " | Курс: 1 " ++ from_unit conv ++ " = " ++ format_float r ".6f"
          ++ " " ++ to_unit conv ++ newline
      else unit_line
  | None => unit_line
  end.

(** The loop of [update_history] over [enumerate(reversed(history), 1)]. *)
Fixpoint insert_lines (i : Z) (convs : list ConversionResult) : G unit :=
  match convs with
  | [] => ret tt
  | conv :: rest =>
      (insert_end (history_line i conv) ;; insert_lines (i + 1) rest)%gui
  end.

Definition update_history : G unit :=
  (set_history_text [] ;;
   h <- get_history ;;
   match h with
   | [] => set "history_info" "Конвертации пока не производились"
   | _ :: _ =>
       set "history_info"
           ("Всего конвертаций: " ++ format_int (Z.of_nat (length h)) "") ;;
       insert_lines 1 (rev h)
   end)%gui.

(** [convert_currency]; the local [amount] is [entered] here and the local
    [result] is [conversion]. *)
Definition convert_currency : G unit :=
  try (text <- get "from_currency" ;;
       let from_curr := upper text in
       text <- get "to_currency" ;;
       let to_curr := upper text in
       text <- get "amount_var" ;;
       entered <- to_float text ;;
       conversion <- currency_convert from_curr to_curr entered ;;
       h <- get_history ;;
       set_history (h ++ [conversion]) ;;
       let formatted_amount :=
         replace_char "." "," (replace_char "," " "
                                 (format_float (amount conversion) ",.2f")) in
       let formatted_result :=
         replace_char "." "," (replace_char "," " "
                                 (format_float (result conversion) ",.2f")) in
       set "result_label"
           (formatted_amount ++ " " ++ from_unit conversion ++ " = "
              ++ formatted_result ++ " " ++ to_unit conversion) ;;
       match rate conversion with
       | Some r =>
           if rate_truthy (Some r) then
             let rate1 := "1 " ++ from_curr ++ " = " ++ format_float r ".6f"
                            ++ " " ++ to_curr in
             inverse <- lift (truediv 1 r) ;;
             let rate2 := "1 " ++ to_curr ++ " = " ++ format_float inverse ".6f"
                            ++ " " ++ from_curr in
             set "rate_label" (rate1 ++ " | " ++ rate2)
           else ret tt
       | None => ret tt
       end ;;
       update_history)%gui
      (fun e =>
         if is_ValueError e
         then show (showerror "Ошибка" ("Ошибка ввода: " ++ str e))
         else show (showerror "Ошибка" ("Ошибка конвертации: " ++ str e))).

(** [convert_units], with the same two local names. *)
Definition convert_units : G unit :=
  try (source <- get "from_unit" ;;
       target <- get "to_unit" ;;
       text <- get "unit_amount_var" ;;
       entered <- to_float text ;;
       conversion <- unit_convert entered source target ;;
       h <- get_history ;;
       set_history (h ++ [conversion]) ;;
       let magnitude := abs (result conversion) in
       let scientific :=
         ((10000 <=? magnitude) || ((0 <? magnitude) && (magnitude <? 0.001)))%float in
       let formatted_result :=
         if scientific then format_float (result conversion) ".4e"
         else replace_char "," " " (format_float (result conversion) ",.6g") in
       let formatted_amount :=
         if scientific then format_float (amount conversion) ".4e"
         else replace_char "," " " (format_float (amount conversion) ",.6g") in
       set "units_result_label"
           (formatted_amount ++ " " ++ from_unit conversion ++ " = "
              ++ formatted_result ++ " " ++ to_unit conversion) ;;
       update_history)%gui
      (fun e =>
         if is_ValueError e
         then show (showerror "Ошибка" ("Ошибка ввода: " ++ str e))
         else show (showerror "Ошибка" ("Ошибка конвертации: " ++ str e))).

Definition update_unit_names : G unit :=
  (source <- get "from_unit" ;;
   target <- get "to_unit" ;;
   set "from_unit_name" (UnitConverter.get_full_unit_name source) ;;
   set "to_unit_name" (UnitConverter.get_full_unit_name target))%gui.

Definition on_unit_type_change : G unit :=
  (unit_type <- get "unit_type_var" ;;
   let units :=
     match dict_get UnitConverter.get_available_units unit_type with
     | Some units => dict_keys units
     | None => []
     end in
   set_values "from_unit" units ;;
   set_values "to_unit" units ;;
   match units with
   | [] => ret tt
   | first :: others =>
       set "from_unit" first ;;
       match others with
       | second :: _ => set "to_unit" second
       | [] => set "to_unit" first
       end ;;
       update_unit_names
   end)%gui.

End Handlers.

End ConverterGUI.

(** ** What the code reads from the cache

    What [_load_from_cache] needs of the value [data] that [json.load]
    returned: [data['timestamp']] is a string that [fromisoformat] parses
    to a naive datetime (an aware one cannot be subtracted from
    [datetime.now()]), and [data['rates']] exists.  [data['base']] is never
    read, and [data['rates']] may hold any value. *)
Definition readable {lib : Library} (data cached : json) (fetched_at : Z) : Prop :=
  exists stamp,
    subscript data "timestamp" = Returns (JString stamp)
    /\ fromisoformat stamp = Returns (Naive fetched_at)
    /\ subscript data "rates" = Returns cached.

(** ** Words of the specification *)

Module Spec.

Local Open Scope float_scope.
Local Open Scope string_scope.

(** The three temperature units and their codes. *)
Inductive temperature_unit : Type := Celsius | Fahrenheit | Kelvin.

Definition code (u : temperature_unit) : string :=
  match u with
  | Celsius => "°C"
  | Fahrenheit => "°F"
  | Kelvin => "K"
  end.

(** Step 1: the value in Celsius. *)
Definition to_celsius (u : temperature_unit) (x : float) : float :=
  match u with
  | Celsius => x
  | Fahrenheit => (x - 32) * 5 / 9
  | Kelvin => x - 273.15
  end.

(** Step 2: the Celsius value in the target unit. *)
Definition from_celsius (v : temperature_unit) (c : float) : float :=
  match v with
  | Celsius => c
  | Fahrenheit => c * 9 / 5 + 32
  | Kelvin => c + 273.15
  end.

(** A unit belongs to a category of the static table. *)
Definition belongs (unit category : string) : Prop :=
  exists units,
    In (category, units) UnitConverter.CONVERSION_FACTORS
    /\ dict_in unit units = true.

Definition known (unit : string) : Prop := exists category, belongs unit category.

(** One string occurs inside another. *)
Definition names (message part : string) : Prop :=
  exists before after, message = before ++ part ++ after.

(** A rate of a snapshot: a strictly positive finite number. *)
Definition positive_rate (v : json) : bool :=
  match v with
  | JNumber x => (0 <? x)%float && isfinite x
  | _ => false
  end.

(** The cache record of the specification is well-formed: a structured
    record with the fields [timestamp] (an ISO 8601 timestamp, with or
    without an offset: a string the library reads as a datetime), [base] (a
    currency code) and [rates] (a mapping from currency codes to strictly
    positive finite numbers). *)
Definition well_formed {lib : Library} (data : json) (base : string)
  (cached : dict json) (fetched_at : datetime) : Prop :=
  exists members stamp,
    data = JObject members
    /\ dict_get members "timestamp" = Some (JString stamp)
    /\ fromisoformat stamp = Returns fetched_at
    /\ dict_get members "base" = Some (JString base)
    /\ dict_get members "rates" = Some (JObject cached)
    /\ forallb (fun entry => positive_rate (snd entry)) cached = true.

(** The instant a timestamp names, on a clock that reads UTC: an aware
    timestamp carries its offset from it. *)
Definition instant (t : datetime) : Z :=
  match t with
  | Naive us => us
  | Aware us utcoffset => (us - utcoffset)%Z
  end.

(** The snapshot of the specification: the cache file exists, is
    well-formed, and [now - fetched_at] is strictly inside the window. *)
Definition snapshot {lib : Library} (w : World) (base : string)
  (cached : dict json) (fetched_at : datetime) : Prop :=
  exists data,
    cache w = Present (Some data)
    /\ well_formed data base cached fetched_at
    /\ (clock w (ticks w) - instant fetched_at < hours CACHE_DURATION_HOURS)%Z.

(** The same for the record as the code reads it, whose timestamp is
    naive.  [now - fetched_at] is strictly inside the cache window, [now]
    being the next reading of the clock. *)
Definition fresh (w : World) (fetched_at : Z) : Prop :=
  (clock w (ticks w) - fetched_at < hours CACHE_DURATION_HOURS)%Z.

(** The cache file exists, holds a record the code can read, and is
    fresh. *)
Definition usable {lib : Library} (w : World) (cached : json) (fetched_at : Z) : Prop :=
  exists data,
    cache w = Present (Some data)
    /\ readable data cached fetched_at
    /\ fresh w fetched_at.

(** The converter after it adopted a snapshot. *)
Definition adopt (c : CurrencyConverter.converter) (cached : json) (fetched_at : Z)
  : CurrencyConverter.converter :=
  {| CurrencyConverter.api_key := CurrencyConverter.api_key c;
     CurrencyConverter.base_currency := CurrencyConverter.base_currency c;
     CurrencyConverter.rates := cached;
     CurrencyConverter.last_update := Some (Naive fetched_at);
     CurrencyConverter.api_url := CurrencyConverter.api_url c |}.

(** Two worlds differ at most in the readings taken from the clock and in
    what was printed. *)
Definition same_files_and_network (w w' : World) : Prop :=
  cache w' = cache w /\ writable w' = writable w /\ clock w' = clock w
  /\ network w' = network w /\ requests w' = requests w.

End Spec.

(** The [result] field of a conversion that returned. *)
Definition result_of (o : outcome ConversionResult) : option float :=
  match o with
  | Returns r => Some (result r)
  | Raises _ => None
  end.

(** ** Concrete data for examples *)

Module Examples.

Local Open Scope float_scope.
Local Open Scope string_scope.

(** [str.upper] on ASCII letters; other bytes are left as they are. *)
Definition ascii_upper (ch : ascii) : ascii :=
  let n := nat_of_ascii ch in
  if ((97 <=? n) && (n <=? 122))%nat then ascii_of_nat (n - 32) else ch.

Fixpoint str_upper (s : string) : string :=
  match s with
  | EmptyString => EmptyString
  | String ch rest => String (ascii_upper ch) (str_upper rest)
  end.

(** A few ISO timestamps, as microseconds since 2026-11-01T00:00:00. *)
Definition stamps : dict Z :=
  [ ("2026-11-02T09:00:00", hours 33);
    ("2026-11-02T11:00:00", hours 35);
    ("2026-11-03T10:00:00", hours 58) ]%Z.

Fixpoint stamp_of (table : dict Z) (us : Z) : string :=
  match table with
  | [] => ""
  | (stamp, us') :: rest => if (us' =? us)%Z then stamp else stamp_of rest us
  end.

(** A library that reads and writes the timestamps of [stamps]. *)
Definition library : Library :=
  {| upper := str_upper;
     fromisoformat := fun s =>
       match dict_get stamps s with
       | Some us => Returns (Naive us)
       | None => Raises (ValueError "Invalid isoformat string")
       end;
     isoformat := fun t =>
       match t with
       | Naive us => stamp_of stamps us
       | Aware us _ => stamp_of stamps us
       end |}.

(** The rate table of [setup_demo_mode]. *)
Definition demo_rates : dict json :=
  [ ("USD", JNumber 0.011); ("EUR", JNumber 0.010); ("GBP", JNumber 0.0085);
    ("JPY", JNumber 1.65); ("CNY", JNumber 0.079); ("RUB", JNumber 1.0);
    ("CAD", JNumber 0.015); ("AUD", JNumber 0.016); ("CHF", JNumber 0.0095);
    ("INR", JNumber 0.92); ("BRL", JNumber 0.055); ("MXN", JNumber 0.18);
    ("UAH", JNumber 0.42); ("KZT", JNumber 5.15); ("BYN", JNumber 0.035) ].

(** The converter of the application as it is constructed. *)
Definition blank : CurrencyConverter.converter :=
  CurrencyConverter.__init__ API_KEY BASE_CURRENCY.

(** The same converter in demo mode. *)
Definition demo : CurrencyConverter.converter :=
  {| CurrencyConverter.api_key := API_KEY;
     CurrencyConverter.base_currency := BASE_CURRENCY;
     CurrencyConverter.rates := JObject demo_rates;
     CurrencyConverter.last_update := Some (Naive (hours 58));
     CurrencyConverter.api_url := CurrencyConverter.api_url blank |}.

(** A cache record, as [_save_to_cache] writes it. *)
Definition cache_record (stamp base : string) : dict json :=
  [ ("timestamp", JString stamp); ("base", JString base);
    ("rates", JObject demo_rates) ].

(** A world whose clock reads 2026-11-03T10:00:00 and whose rate source
    answers every request with [answer]. *)
Definition world_with (file : file) (answer : reply) : World :=
  {| cache := file; writable := true; clock := fun _ => hours 58; ticks := 0;
     network := fun _ => answer; requests := []; stdout := [] |}.

(** A fresh converter beside a cache file that holds [record]; the rate
    source answers [answer]. *)
Definition beside (record : json) (answer : reply) : CurrencyConverter.state :=
  {| CurrencyConverter.self := blank;
     CurrencyConverter.world := world_with (Present (Some record)) answer |}.

(** A fresh converter with no cache file. *)
Definition uncached (answer : reply) : CurrencyConverter.state :=
  {| CurrencyConverter.self := blank;
     CurrencyConverter.world := world_with Absent answer |}.

(** The length units of the table. *)
Definition length_units : dict UnitConverter.factor :=
  match dict_get UnitConverter.CONVERSION_FACTORS "Длина" with
  | Some units => units
  | None => []
  end.

End Examples.

(** ** More concrete data *)

Module MoreExamples.

Local Open Scope string_scope.

(** A good answer of the rate source. *)
Definition payload : json :=
  JObject [ ("result", JString "success"); ("base_code", JString "RUB");
            ("conversion_rates", JObject Examples.demo_rates) ].

(** A fresh converter with no cache file, and a source that answers. *)
Definition answered : CurrencyConverter.state :=
  Examples.uncached (Response 200 (Some payload)).

(** The converter in demo mode, with no cache file and no network. *)
Definition offline : CurrencyConverter.state :=
  {| CurrencyConverter.self := Examples.demo;
     CurrencyConverter.world := Examples.world_with Absent Unreachable |}.

End MoreExamples.

(** ** Concrete data at the edges *)

Module EdgeExamples.

Local Open Scope float_scope.
Local Open Scope string_scope.

(** The library of the examples, which also reads one timestamp that
    carries an offset. *)
Definition library : Library :=
  {| upper := Examples.str_upper;
     fromisoformat := fun s =>
       if s =? "2026-11-02T11:00:00+00:00" then Returns (Aware (hours 35) 0)
       else fromisoformat (Library := Examples.library) s;
     isoformat := isoformat (Library := Examples.library) |}.

(** A cache record with a timestamp, no [base], and [null] for rates. *)
Definition bare : json :=
  JObject [ ("timestamp", JString "2026-11-02T11:00:00"); ("rates", JNull) ].

(** A complete cache record whose timestamp is in UTC. *)
Definition zoned : json :=
  JObject (Examples.cache_record "2026-11-02T11:00:00+00:00" "RUB").

(** The demo converter with two more currencies: one quoted at a rate so
    small that its reciprocal is not a finite float, one quoted at zero. *)
Definition extreme : CurrencyConverter.converter :=
  {| CurrencyConverter.api_key := API_KEY;
     CurrencyConverter.base_currency := BASE_CURRENCY;
     CurrencyConverter.rates :=
       JObject (Examples.demo_rates
                  ++ [ ("XAA", JNumber 5e-309); ("XBB", JNumber 0) ])%list;
     CurrencyConverter.last_update := Some (Naive (hours 58));
     CurrencyConverter.api_url := CurrencyConverter.api_url Examples.blank |}.

(** A converter whose table quotes the base currency itself at 2. *)
Definition doubled : CurrencyConverter.converter :=
  {| CurrencyConverter.api_key := API_KEY;
     CurrencyConverter.base_currency := BASE_CURRENCY;
     CurrencyConverter.rates := JObject [ ("RUB", JNumber 2); ("USD", JNumber 0.022) ];
     CurrencyConverter.last_update := Some (Naive (hours 58));
     CurrencyConverter.api_url := CurrencyConverter.api_url Examples.blank |}.

End EdgeExamples.

(** ** Concrete windows *)

Module GuiExamples.

Local Open Scope float_scope.
Local Open Scope string_scope.

(** A few numerals. *)
Definition numerals : dict float :=
  [ ("100", 100); ("5", 5); ("2.5", 2.5); ("0", 0) ].

(** A formatting library for the examples: [float] reads the numerals of
    [numerals], [str] of a [KeyError] is the quoted key, and every number
    and date is rendered as a placeholder. *)
Definition formatting : Formatting :=
  {| float_of_str := fun text =>
       match dict_get numerals text with
       | Some x => inl x
       | None => inr ("could not convert string to float: '" ++ text ++ "'")
       end;
     format_float := fun _ _ => "#";
     format_int := fun _ _ => "#";
     format_str := fun text _ => text;
     strftime := fun _ _ => "@";
     str_of_exn := fun e =>
       match e with
       | KeyError key => "'" ++ key ++ "'"
       | _ => ""
       end |}.

(** The window as it is built: no history, nothing queued, the given
    converter and the given texts in its entries. *)
Definition window (s : CurrencyConverter.state) (entries : dict string)
  : ConverterGUI.gui :=
  {| ConverterGUI.currency_converter := s;
     ConverterGUI.history := [];
     ConverterGUI.texts := entries;
     ConverterGUI.choices := [];
     ConverterGUI.history_text := [];
     ConverterGUI.dialogs := [];
     ConverterGUI.queue := [] |}.

(** A converter that knows a currency whose rate is zero. *)
Definition with_zero : CurrencyConverter.state :=
  {| CurrencyConverter.self :=
       {| CurrencyConverter.api_key := API_KEY;
          CurrencyConverter.base_currency := BASE_CURRENCY;
          CurrencyConverter.rates :=
            JObject [ ("RUB", JNumber 1); ("ZWL", JNumber 0) ];
          CurrencyConverter.last_update := None;
          CurrencyConverter.api_url := CurrencyConverter.api_url Examples.blank |};
     CurrencyConverter.world := Examples.world_with Absent Unreachable |}.

(** An answer of the rate source that announces success and carries no
    rates. *)
Definition hollow : json := JObject [ ("result", JString "success") ].

(** Five roubles are to be converted to the currency quoted at zero. *)
Definition roubles : ConverterGUI.gui :=
  window with_zero
    [ ("from_currency", "rub"); ("to_currency", "zwl"); ("amount_var", "5") ].

(** What the converter returns for them. *)
Definition nothing : ConversionResult :=
  {| amount := 5; from_unit := "RUB"; to_unit := "ZWL"; result := 0;
     timestamp := Naive (hours 58); rate := Some 0 |}.

(** The category of lengths is chosen, with an amount entered. *)
Definition lengths : ConverterGUI.gui :=
  window MoreExamples.offline
    [ ("unit_type_var", "Длина"); ("unit_amount_var", "2.5") ].

(** The window at the start, with no cache file: the rate source is out
    of reach, or it gives the hollow answer. *)
Definition unreachable : ConverterGUI.gui :=
  window (Examples.uncached Unreachable) [ ("amount_var", "100") ].

Definition misled : ConverterGUI.gui :=
  window (Examples.uncached (Response 200 (Some hollow)))
    [ ("amount_var", "100") ].

End GuiExamples.

(** ** Definitions used in the proofs *)

(** The world after one more reading of the clock. *)
Definition tick (w : World) : World :=
  {| cache := cache w; writable := writable w; clock := clock w;
     ticks := S (ticks w); network := network w; requests := requests w;
     stdout := stdout w |}.

(** The world with another cache file. *)
Definition with_cache (f : file) (w : World) : World :=
  {| cache := f; writable := writable w; clock := clock w;
     ticks := ticks w; network := network w; requests := requests w;
     stdout := stdout w |}.

(** [m] followed by [k] binary zeros: [m * 2 ^ k]. *)
Definition shifted (m : positive) (k : nat) : positive := Nat.iter k xO m.

(** The float [1.0], as sign, mantissa and exponent. *)
Definition SFone : spec_float := S754_finite false 4503599627370496 (-52).

(** The checks run over the factor table: every unit is found in its own
    category, categories have non-empty names, and outside temperature
    every value is a non-zero scale factor. *)
Definition placed (category : string) (units : dict UnitConverter.factor) : bool :=
  forallb (fun entry =>
             UnitConverter.type_eqb (UnitConverter.get_unit_type (fst entry))
                                    (Some category))
          units.

Definition scaled (units : dict UnitConverter.factor) : bool :=
  forallb (fun entry => match snd entry with
                        | UnitConverter.Scale f => negb (f =? 0)%float
                        | UnitConverter.Marker _ => false
                        end) units.

Definition table_ok : bool :=
  forallb (fun item =>
             negb (fst item =? "")
             && placed (fst item) (snd item)
             && ((fst item =? "Температура") || scaled (snd item)))
          UnitConverter.CONVERSION_FACTORS.

(** The record [_save_to_cache] writes for a converter at time [t]. *)
Definition saved_record {lib : Library} (c : CurrencyConverter.converter) (t : Z)
  : json :=
  JObject [ ("timestamp", JString (isoformat (Naive t)));
            ("base", JString (CurrencyConverter.base_currency c));
            ("rates", CurrencyConverter.rates c) ].

(** The fields of the converter that are set at construction. *)
Definition same_identity (c c' : CurrencyConverter.converter) : Prop :=
  CurrencyConverter.api_key c' = CurrencyConverter.api_key c
  /\ CurrencyConverter.base_currency c' = CurrencyConverter.base_currency c
  /\ CurrencyConverter.api_url c' = CurrencyConverter.api_url c.

(** One of the three temperature codes. *)
Definition is_code (s : string) : bool :=
  (s =? "°C") || (s =? "°F") || (s =? "K").

(** More checks run over the tables: every unit of the factor table has a
    display name and every display name belongs to a unit of the table;
    zero times a factor and zero over a factor are zero. *)
Definition names_cover : bool :=
  forallb (fun item =>
             forallb (fun entry => dict_in (fst entry) UnitConverter.UNIT_NAMES)
                     (snd item))
          UnitConverter.CONVERSION_FACTORS
  && forallb (fun entry =>
                match UnitConverter.get_unit_type (fst entry) with
                | Some _ => true
                | None => false
                end)
             UnitConverter.UNIT_NAMES.

Definition zero_ok : bool :=
  forallb (fun item =>
             forallb (fun entry =>
                        match snd entry with
                        | UnitConverter.Scale f =>
                            PrimFloat.Leibniz.eqb (0 * f) 0
                            && PrimFloat.Leibniz.eqb (0 / f) 0
                        | UnitConverter.Marker _ => true
                        end)%float
                     (snd item))
          UnitConverter.CONVERSION_FACTORS.

(** The lines [update_history] inserts for [convs], numbered from [i]. *)
Fixpoint numbered {fmt : Formatting} (i : Z) (convs : list ConversionResult)
  : list string :=
  match convs with
  | [] => []
  | conv :: rest => ConverterGUI.history_line i conv :: numbered (i + 1) rest
  end.

(** The dialog of the two [except] clauses of the handlers. *)
Definition error_dialog {fmt : Formatting} (e : exn) : ConverterGUI.dialog :=
  ConverterGUI.showerror "Ошибка"
    ((if is_ValueError e then "Ошибка ввода: " else "Ошибка конвертации: ")
       ++ str e).

(** The state after a conversion went through: one more reading of the
    clock. *)
Definition ticked (s : CurrencyConverter.state) : CurrencyConverter.state :=
  {| CurrencyConverter.self := CurrencyConverter.self s;
     CurrencyConverter.world := tick (CurrencyConverter.world s) |}.

(** A conversion with its rate taken away. *)
Definition without_rate (r : ConversionResult) : ConversionResult :=
  {| amount := amount r; from_unit := from_unit r; to_unit := to_unit r;
     result := result r; timestamp := timestamp r; rate := None |}.

(** The text of [history_info] for a history of [n] conversions. *)
Definition history_count {fmt : Formatting} (n : nat) : string :=
  match n with
  | O => "Конвертации пока не производились"
  | S _ => "Всего конвертаций: " ++ format_int (Z.of_nat n) ""
  end.

(** Two more checks run over the tables: every category offers at least
    two units, and every demo rate is a number other than zero. *)
Definition two_units : bool :=
  forallb (fun item => match snd item with
                       | _ :: _ :: _ => true
                       | _ => false
                       end)
          UnitConverter.CONVERSION_FACTORS.

Definition demo_ok : bool :=
  match ConverterGUI.demo_rates with
  | JObject members =>
      forallb (fun entry => match snd entry with
                            | JNumber r => negb (r =? 0)%float
                            | _ => false
                            end) members
  | _ => false
  end.

(** The codes of the demo table. *)
Definition demo_codes : list string :=
  match ConverterGUI.demo_rates with
  | JObject members => dict_keys members
  | _ => []
  end.

(** The converter with other rates and another time of update. *)
Definition with_rates (c : CurrencyConverter.converter) (v : json) (t : datetime)
  : CurrencyConverter.converter :=
  {| CurrencyConverter.api_key := CurrencyConverter.api_key c;
     CurrencyConverter.base_currency := CurrencyConverter.base_currency c;
     CurrencyConverter.rates := v;
     CurrencyConverter.last_update := Some t;
     CurrencyConverter.api_url := CurrencyConverter.api_url c |}.

(** The window around another converter, and with one more callback. *)
Definition around (g : ConverterGUI.gui) (s : CurrencyConverter.state)
  (callbacks : list ConverterGUI.callback) : ConverterGUI.gui :=
  {| ConverterGUI.currency_converter := s;
     ConverterGUI.history := ConverterGUI.history g;
     ConverterGUI.texts := ConverterGUI.texts g;
     ConverterGUI.choices := ConverterGUI.choices g;
     ConverterGUI.history_text := ConverterGUI.history_text g;
     ConverterGUI.dialogs := ConverterGUI.dialogs g;
     ConverterGUI.queue := (ConverterGUI.queue g ++ callbacks)%list |}.

(** * Properties *)

(** ** Strings and dictionaries *)

Lemma append_assoc (a b c : string) : (a ++ b) ++ c = a ++ (b ++ c).
Proof. induction a as [|ch a IH]; simpl; [reflexivity|now rewrite IH]. Qed.

Lemma dict_get_In {A : Type} (d : dict A) (k : string) (v : A) :
  dict_get d k = Some v -> In (k, v) d.
Proof.
  induction d as [|[k' v'] rest IH]; simpl; [discriminate|].
  destruct (String.eqb_spec k' k) as [->|_].
  - intros [= ->]. now left.
  - intros H. right. now apply IH.
Qed.

Lemma dict_in_get {A : Type} (d : dict A) (k : string) :
  dict_in k d = true -> exists v, dict_get d k = Some v.
Proof.
  unfold dict_in. destruct (dict_get d k) as [v|]; [|discriminate].
  intros _. now exists v.
Qed.

Lemma dict_get_in {A : Type} (d : dict A) (k : string) (v : A) :
  dict_get d k = Some v -> dict_in k d = true.
Proof. unfold dict_in. now intros ->. Qed.

Lemma dict_in_keys {A : Type} (d : dict A) (k : string) :
  dict_in k d = true -> In k (dict_keys d).
Proof.
  intros H. destruct (dict_in_get d k H) as [v Hv].
  apply dict_get_In in Hv. unfold dict_keys.
  change k with (fst (k, v)). now apply in_map.
Qed.

Lemma dict_getitem_get {A : Type} (d : dict A) (k : string) (v : A) :
  dict_getitem d k = Returns v <-> dict_get d k = Some v.
Proof.
  unfold dict_getitem. destruct (dict_get d k); split; congruence.
Qed.

(** ** Multiplying and dividing a float by one *)

Module FloatFacts.

Local Open Scope Z_scope.

Lemma iter_pos_nat {A : Type} (f : A -> A) (p : positive) (x : A) :
  SpecFloat.iter_pos f p x = Nat.iter (Pos.to_nat p) f x.
Proof.
  revert x. induction p as [p IH|p IH|]; intros x; cbn [SpecFloat.iter_pos].
  - rewrite !IH, Pos2Nat.inj_xI.
    replace (S (2 * Pos.to_nat p))%nat
      with (Pos.to_nat p + S (Pos.to_nat p))%nat by lia.
    now rewrite Nat.iter_add, Nat.iter_succ_r.
  - rewrite !IH, Pos2Nat.inj_xO.
    replace (2 * Pos.to_nat p)%nat with (Pos.to_nat p + Pos.to_nat p)%nat by lia.
    now rewrite Nat.iter_add.
  - reflexivity.
Qed.

Lemma digits_shifted (m : positive) (k : nat) :
  Zpos (digits2_pos (shifted m k)) = Zpos (digits2_pos m) + Z.of_nat k.
Proof.
  induction k as [|k IH]; [simpl; lia|].
  change (shifted m (S k)) with (xO (shifted m k)). cbn [digits2_pos].
  rewrite Pos2Z.inj_succ, IH. lia.
Qed.

Lemma shifted_pow (m : positive) (k : nat) :
  Zpos (shifted m k) = Zpos m * 2 ^ Z.of_nat k.
Proof.
  induction k as [|k IH]; [simpl; lia|].
  change (shifted m (S k)) with (xO (shifted m k)).
  rewrite Pos2Z.inj_xO, IH, Nat2Z.inj_succ, Z.pow_succ_r by lia. lia.
Qed.

(** Shifting out the [k] zeros is exact. *)
Lemma shr_shifted (m : positive) (k : nat) :
  Nat.iter k shr_1
    {| shr_m := Zpos (shifted m k); shr_r := false; shr_s := false |}
  = {| shr_m := Zpos m; shr_r := false; shr_s := false |}.
Proof.
  induction k as [|k IH]; [reflexivity|].
  rewrite Nat.iter_succ_r. exact IH.
Qed.

(** Rounding [m * 2^k] at exponent [e - k] gives back the float [(m, e)]. *)
Lemma round_exact (prec emax : Z) (s : bool) (m : positive) (e : Z) (k : nat) :
  bounded prec emax m e = true ->
  binary_round_aux prec emax s (Zpos (shifted m k)) (e - Z.of_nat k) loc_Exact
  = S754_finite s m e.
Proof.
  intros Hb. unfold bounded in Hb. apply andb_prop in Hb as [Hc He].
  unfold canonical_mantissa in Hc. apply Z.eqb_eq in Hc.
  unfold binary_round_aux, shr_fexp. cbn [Zdigits2 shr_record_of_loc].
  rewrite digits_shifted.
  replace (Z.pos (digits2_pos m) + Z.of_nat k + (e - Z.of_nat k))
    with (Z.pos (digits2_pos m) + e) by lia.
  rewrite Hc.
  replace (e - (e - Z.of_nat k)) with (Z.of_nat k) by lia.
  assert (Hshr :
            shr {| shr_m := Z.pos (shifted m k); shr_r := false; shr_s := false |}
                (e - Z.of_nat k) (Z.of_nat k)
            = ({| shr_m := Zpos m; shr_r := false; shr_s := false |}, e)).
  { destruct k as [|k].
    - simpl. f_equal. lia.
    - change (Z.of_nat (S k)) with (Zpos (Pos.of_succ_nat k)). unfold shr.
      rewrite iter_pos_nat, SuccNat2Pos.id_succ, shr_shifted. f_equal. lia. }
  rewrite Hshr.
  cbn [shr_m loc_of_shr_record round_nearest_even Zdigits2 shr_record_of_loc].
  rewrite Hc, Z.sub_diag. cbn [shr shr_m]. now rewrite He.
Qed.

Lemma div_eucl_shifted (m : positive) (k : nat) :
  Z.div_eucl (Zpos (shifted m (k + 52))) 4503599627370496
  = (Zpos (shifted m k), 0).
Proof.
  assert (H : Zpos (shifted m (k + 52)) = Zpos (shifted m k) * 4503599627370496).
  { rewrite !shifted_pow, Nat2Z.inj_add, Z.pow_add_r by lia.
    change (2 ^ Z.of_nat 52) with 4503599627370496. lia. }
  pose proof (Z.div_mul (Zpos (shifted m k)) 4503599627370496) as Hq.
  pose proof (Z.mod_mul (Zpos (shifted m k)) 4503599627370496) as Hr.
  rewrite <- H in Hq, Hr. unfold Z.div, Z.modulo in Hq, Hr.
  destruct (Z.div_eucl (Zpos (shifted m (k + 52))) 4503599627370496) as [q r].
  rewrite Hq, Hr by discriminate. reflexivity.
Qed.

Lemma one_spec : Prim2SF 1 = SFone.
Proof. vm_compute. reflexivity. Qed.

Lemma SF64mul_one (x : spec_float) :
  valid_binary x = true -> SF64mul x SFone = x.
Proof.
  destruct x as [s|s| |s m e]; intros Hv; cbn [SF64mul SFmul SFone];
    try (now rewrite xorb_false_r); try reflexivity.
  unfold SF64mul, SFone, SFmul. rewrite xorb_false_r, Pos.mul_comm.
  change (Pos.mul 4503599627370496 m) with (shifted m 52).
  change (e + -52) with (e - Z.of_nat 52).
  now apply round_exact.
Qed.

Lemma SF64div_one (x : spec_float) :
  valid_binary x = true -> SF64div x SFone = x.
Proof.
  destruct x as [s|s| |s m e]; intros Hv; cbn [SF64div SFdiv SFone];
    try (now rewrite xorb_false_r); try reflexivity.
  unfold SF64div, SFone, SFdiv, SFdiv_core_binary. rewrite xorb_false_r.
  cbn [valid_binary] in Hv. pose proof Hv as Hb.
  unfold bounded in Hb. apply andb_prop in Hb as [Hc _].
  unfold canonical_mantissa in Hc. apply Z.eqb_eq in Hc.
  cbn [Zdigits2]. change (Z.pos (digits2_pos 4503599627370496)) with 53.
  set (d := Z.pos (digits2_pos m)) in *.
  assert (Hj : Z.min (fexp prec emax (d + e - (53 + -52))) (e - -52)
               = e - Z.of_nat 0
               \/ Z.min (fexp prec emax (d + e - (53 + -52))) (e - -52)
                  = e - Z.of_nat 1).
  { unfold fexp, SpecFloat.emin, prec, emax in *. simpl Z.of_nat. lia. }
  destruct Hj as [-> | ->].
  - replace (e - -52 - (e - Z.of_nat 0)) with 52 by (simpl; lia).
    change (Z.shiftl (Z.pos m) 52) with (Zpos (shifted m (0 + 52))).
    rewrite div_eucl_shifted. now apply round_exact.
  - replace (e - -52 - (e - Z.of_nat 1)) with 53 by (simpl; lia).
    change (Z.shiftl (Z.pos m) 53) with (Zpos (shifted m (1 + 52))).
    rewrite div_eucl_shifted. now apply round_exact.
Qed.

Local Open Scope float_scope.

Lemma mul_one (x : float) : x * 1 = x.
Proof.
  apply Prim2SF_inj. rewrite mul_spec, one_spec.
  apply SF64mul_one, Prim2SF_valid.
Qed.

Lemma div_one (x : float) : x / 1 = x.
Proof.
  apply Prim2SF_inj. rewrite div_spec, one_spec.
  apply SF64div_one, Prim2SF_valid.
Qed.

End FloatFacts.

(** ** The factor table *)

Module TableFacts.

Import UnitConverter.
Local Open Scope float_scope.
Local Open Scope string_scope.

Lemma scan_some (items : dict (dict factor)) (unit category : string) :
  scan_unit_type items unit = Some category ->
  exists units, In (category, units) items /\ dict_in unit units = true.
Proof.
  induction items as [|[c units] rest IH]; simpl; [discriminate|].
  destruct (dict_in unit units) eqn:E.
  - intros [= <-]. exists units. split; [now left|exact E].
  - intros H. destruct (IH H) as (units' & Hin & Hu).
    exists units'. split; [now right|exact Hu].
Qed.

Lemma scan_none (items : dict (dict factor)) (unit : string) :
  scan_unit_type items unit = None ->
  forall category units, In (category, units) items -> dict_in unit units = false.
Proof.
  induction items as [|[c units] rest IH]; simpl; [contradiction|].
  destruct (dict_in unit units) eqn:E; [discriminate|].
  intros H category units' [[= <- <-]|Hin]; [exact E|].
  now apply (IH H category).
Qed.

Lemma table_checked : table_ok = true.
Proof. vm_compute. reflexivity. Qed.

Lemma table_item (category : string) (units : dict factor) :
  In (category, units) CONVERSION_FACTORS ->
  category <> ""
  /\ placed category units = true
  /\ (category = "Температура" \/ scaled units = true).
Proof.
  intros Hin. pose proof table_checked as H. unfold table_ok in H.
  rewrite forallb_forall in H. specialize (H _ Hin). simpl in H.
  apply andb_prop in H as [H H3]. apply andb_prop in H as [H1 H2].
  repeat split.
  - intros ->. discriminate H1.
  - exact H2.
  - apply orb_prop in H3 as [H3|H3]; [left; now apply String.eqb_eq|now right].
Qed.

Lemma table_lookup (category : string) (units : dict factor) :
  In (category, units) CONVERSION_FACTORS ->
  dict_get CONVERSION_FACTORS category = Some units.
Proof.
  intros H. unfold CONVERSION_FACTORS in H.
  repeat (destruct H as [H|H]; [injection H as <- <-; reflexivity|]).
  destruct H.
Qed.

Lemma type_eqb_eq (a b : option string) : type_eqb a b = true <-> a = b.
Proof.
  destruct a as [x|], b as [y|]; simpl; split; try congruence.
  - intros H. apply String.eqb_eq in H. now subst.
  - intros [= ->]. apply String.eqb_refl.
Qed.

Lemma belongs_type (unit category : string) :
  Spec.belongs unit category <-> get_unit_type unit = Some category.
Proof.
  split.
  - intros (units & Hin & Hu).
    destruct (table_item _ _ Hin) as (_ & Hp & _).
    destruct (dict_in_get _ _ Hu) as [f Hf]. apply dict_get_In in Hf.
    unfold placed in Hp. rewrite forallb_forall in Hp.
    specialize (Hp _ Hf). now apply type_eqb_eq in Hp.
  - intros H. exact (scan_some _ _ _ H).
Qed.

Lemma unknown_type (unit : string) :
  ~ Spec.known unit <-> get_unit_type unit = None.
Proof.
  split.
  - intros H. destruct (get_unit_type unit) as [c|] eqn:E; [|reflexivity].
    exfalso. apply H. exists c. now apply belongs_type.
  - intros H [c Hc]. apply belongs_type in Hc. congruence.
Qed.

Lemma unknown_type_known (unit : string) :
  get_unit_type unit <> None -> Spec.known unit.
Proof.
  intros H. destruct (get_unit_type unit) as [c|] eqn:E; [|contradiction].
  exists c. now apply belongs_type.
Qed.

Lemma type_not_empty (unit category : string) :
  get_unit_type unit = Some category -> category <> "".
Proof.
  intros H. destruct (scan_some _ _ _ H) as (units & Hin & _).
  now destruct (table_item _ _ Hin).
Qed.

(** The linear branch of [convert], symbolically. *)
Lemma convert_linear (now : datetime) (x : float) (u v category : string)
  (units : dict factor) (fu fv : float) :
  get_unit_type u = Some category ->
  get_unit_type v = Some category ->
  category <> "" ->
  category <> "Температура" ->
  dict_get CONVERSION_FACTORS category = Some units ->
  dict_get units u = Some (Scale fu) ->
  dict_get units v = Some (Scale fv) ->
  (fv =? 0)%float = false ->
  convert now x u v =
  Returns {| amount := x; from_unit := u; to_unit := v;
             result := x * fu / fv; timestamp := now; rate := None |}.
Proof.
  intros Hu Hv Hne Htemp Hc Hfu Hfv Hnz.
  unfold convert. rewrite Hu, Hv. simpl.
  apply String.eqb_neq in Hne, Htemp. rewrite Hne, String.eqb_refl, Htemp. simpl.
  unfold dict_getitem. rewrite Hc. simpl. rewrite Hfu. simpl. rewrite Hfv. simpl.
  unfold truediv. rewrite Hnz. reflexivity.
Qed.

(** A unit of a linear category has a non-zero scale factor. *)
Lemma linear_factor (category : string) (units : dict factor) (u : string) :
  In (category, units) CONVERSION_FACTORS ->
  category <> "Температура" ->
  dict_in u units = true ->
  exists f, dict_get units u = Some (Scale f) /\ (f =? 0)%float = false.
Proof.
  intros Hin Htemp Hu.
  destruct (table_item _ _ Hin) as (_ & _ & [->|Hs]); [contradiction|].
  destruct (dict_in_get _ _ Hu) as [f Hf]. pose proof (dict_get_In _ _ _ Hf) as Hf'.
  unfold scaled in Hs. rewrite forallb_forall in Hs. specialize (Hs _ Hf').
  simpl in Hs. destruct f as [f|name]; [|discriminate].
  exists f. split; [exact Hf|]. now apply negb_true_iff in Hs.
Qed.

(** The temperature units are the three codes. *)
Lemma temperature_codes (u : string) :
  get_unit_type u = Some "Температура" -> exists t, u = Spec.code t.
Proof.
  intros H. destruct (scan_some _ _ _ H) as (units & Hin & Hu).
  apply table_lookup in Hin. vm_compute in Hin. injection Hin as <-.
  apply dict_in_keys in Hu. simpl in Hu.
  destruct Hu as [<-|[<-|[<-|[]]]];
    [now exists Spec.Celsius|now exists Spec.Fahrenheit|now exists Spec.Kelvin].
Qed.

Lemma convert_temperature (now : datetime) (x : float) (u v : Spec.temperature_unit) :
  convert now x (Spec.code u) (Spec.code v) =
  Returns {| amount := x; from_unit := Spec.code u; to_unit := Spec.code v;
             result := Spec.from_celsius v (Spec.to_celsius u x);
             timestamp := now; rate := None |}.
Proof. destruct u, v; reflexivity. Qed.

(** Two units of one category always convert. *)
Lemma convert_same_category (now : datetime) (x : float) (u v category : string) :
  get_unit_type u = Some category ->
  get_unit_type v = Some category ->
  exists r, convert now x u v = Returns r /\ rate r = None.
Proof.
  intros Hu Hv.
  destruct (String.eqb_spec category "Температура") as [->|Htemp].
  - destruct (temperature_codes _ Hu) as [tu ->].
    destruct (temperature_codes _ Hv) as [tv ->].
    rewrite convert_temperature. eexists. split; reflexivity.
  - destruct (scan_some _ _ _ Hu) as (units & Hin & Hdu).
    destruct (scan_some _ _ _ Hv) as (units' & Hin' & Hdv).
    pose proof (table_lookup _ _ Hin) as Hc.
    pose proof (table_lookup _ _ Hin') as Hc'.
    rewrite Hc in Hc'. injection Hc' as <-.
    destruct (linear_factor _ _ _ Hin Htemp Hdu) as (fu & Hfu & _).
    destruct (linear_factor _ _ _ Hin Htemp Hdv) as (fv & Hfv & Hnz).
    rewrite (convert_linear now x u v category units fu fv); auto.
    + eexists. split; reflexivity.
    + exact (type_not_empty _ _ Hu).
Qed.

(** The outcome of [convert] by the categories of its two units. *)
Lemma convert_cases (now : datetime) (x : float) (u v : string) :
  match get_unit_type u, get_unit_type v with
  | Some cu, Some cv =>
      if cu =? cv then exists r, convert now x u v = Returns r /\ rate r = None
      else convert now x u v =
           Raises (ValueError (incompatible_message u (Some cu) v (Some cv)))
  | _, _ => convert now x u v = Raises (ValueError (unknown_unit_message u v))
  end.
Proof.
  destruct (get_unit_type u) as [cu|] eqn:Hu.
  - destruct (get_unit_type v) as [cv|] eqn:Hv.
    + destruct (String.eqb_spec cu cv) as [->|Hne].
      * exact (convert_same_category now x u v cv Hu Hv).
      * unfold convert. rewrite Hu, Hv. simpl.
        pose proof (type_not_empty _ _ Hu) as Hcu.
        pose proof (type_not_empty _ _ Hv) as Hcv.
        apply String.eqb_neq in Hcu, Hcv, Hne. now rewrite Hcu, Hcv, Hne.
    + unfold convert. rewrite Hu, Hv. simpl. now rewrite orb_true_r.
  - unfold convert. now rewrite Hu.
Qed.

Lemma messages_differ (u v : string) (tu tv : option string) :
  unknown_unit_message u v <> incompatible_message u tu v tv.
Proof. unfold unknown_unit_message, incompatible_message. simpl. discriminate. Qed.

End TableFacts.

(** ** UnitConverter *)

Section UnitConverterProperties.

Import UnitConverter TableFacts.
Local Open Scope float_scope.
Local Open Scope string_scope.

(** C1. For temperature units [u], [v] among °C, °F and K and every value
    [x], [convert(x, u, v)] returns the two-step affine computation: [x]
    to Celsius, then Celsius to [v].  In particular 0 °C is 273.15 K, 32 °F
    is 0 °C and 100 °C is 212 °F. *)
Theorem C1_temperature_two_step :
  (forall (now : datetime) (x : float) (u v : Spec.temperature_unit),
      convert now x (Spec.code u) (Spec.code v) =
      Returns {| amount := x; from_unit := Spec.code u; to_unit := Spec.code v;
                 result := Spec.from_celsius v (Spec.to_celsius u x);
                 timestamp := now; rate := None |})
  /\ (forall now, result_of (convert now 0 "°C" "K") = Some 273.15)
  /\ (forall now, result_of (convert now 32 "°F" "°C") = Some 0)
  /\ (forall now, result_of (convert now 100 "°C" "°F") = Some 212).
Proof.
  split; [exact convert_temperature|].
  repeat split; intros now; vm_compute; reflexivity.
Qed.

(** C4. For every category of the table other than temperature, units [u]
    and [v] of that category and every value [x], [convert(x, u, v)]
    returns; its result is [x * factor[u] / factor[v]], its amount [x], its
    units [u] and [v]. *)
Theorem C4_linear_conversion (now : datetime) (x : float)
  (category : string) (units : dict factor) (u v : string) :
  In (category, units) CONVERSION_FACTORS ->
  category <> "Температура" ->
  dict_in u units = true ->
  dict_in v units = true ->
  exists fu fv,
    dict_get units u = Some (Scale fu)
    /\ dict_get units v = Some (Scale fv)
    /\ convert now x u v =
       Returns {| amount := x; from_unit := u; to_unit := v;
                  result := x * fu / fv; timestamp := now; rate := None |}.
Proof.
  intros Hin Htemp Hu Hv.
  destruct (linear_factor _ _ _ Hin Htemp Hu) as (fu & Hfu & _).
  destruct (linear_factor _ _ _ Hin Htemp Hv) as (fv & Hfv & Hnz).
  exists fu, fv. repeat split; trivial.
  apply (convert_linear now x u v category units fu fv); trivial.
  - apply belongs_type. now exists units.
  - apply belongs_type. now exists units.
  - now destruct (table_item _ _ Hin).
  - now apply table_lookup.
Qed.

(** C8. [convert(x, u, v)] fails as an unknown unit exactly when [u] or [v]
    belongs to no category of the table; when both belong to a category, it
    fails as incompatible exactly when the categories differ, with a
    message that names both; when they share the category it returns. *)
Theorem C8_unit_errors (now : datetime) (x : float) (u v : string) :
  (convert now x u v = Raises (ValueError (unknown_unit_message u v))
   <-> (~ Spec.known u \/ ~ Spec.known v))
  /\ (forall cu cv, Spec.belongs u cu -> Spec.belongs v cv ->
        (convert now x u v =
         Raises (ValueError (incompatible_message u (Some cu) v (Some cv)))
         <-> cu <> cv)
        /\ Spec.names (incompatible_message u (Some cu) v (Some cv)) cu
        /\ Spec.names (incompatible_message u (Some cu) v (Some cv)) cv)
  /\ (forall c, Spec.belongs u c -> Spec.belongs v c ->
        exists r, convert now x u v = Returns r)
  /\ convert now x "м" "кг" =
     Raises (ValueError (incompatible_message "м" (Some "Длина") "кг" (Some "Масса"))).
Proof.
  pose proof (convert_cases now x u v) as H.
  split; [|split; [|split]].
  - split.
    + intros E. destruct (get_unit_type u) as [cu|] eqn:Hu;
        [|left; now apply unknown_type].
      destruct (get_unit_type v) as [cv|] eqn:Hv;
        [|right; now apply unknown_type].
      exfalso. destruct (cu =? cv).
      * destruct H as (r & Hr & _). congruence.
      * apply (messages_differ u v (Some cu) (Some cv)). congruence.
    + intros [Hk|Hk]; apply unknown_type in Hk; rewrite Hk in H; trivial.
      now destruct (get_unit_type u).
  - intros cu cv Hcu Hcv. apply belongs_type in Hcu, Hcv.
    rewrite Hcu, Hcv in H. split; [split|split].
    + intros E Heq. subst cv. rewrite String.eqb_refl in H.
      destruct H as (r & Hr & _). congruence.
    + intros Hne. apply String.eqb_neq in Hne. now rewrite Hne in H.
    + exists ("Несовместимые единицы: " ++ u ++ " ("),
             (") и " ++ v ++ " (" ++ cv ++ ")").
      cbv [incompatible_message show]. now rewrite !append_assoc.
    + exists ("Несовместимые единицы: " ++ u ++ " (" ++ cu ++ ") и " ++ v ++ " ("),
             ")".
      cbv [incompatible_message show]. now rewrite !append_assoc.
  - intros c Hu Hv. apply belongs_type in Hu, Hv.
    rewrite Hu, Hv, String.eqb_refl in H. destruct H as (r & Hr & _).
    now exists r.
  - reflexivity.
Qed.

(** C5 (amended). [convert(x, u, u)] returns exactly [x] when [u] is the
    Celsius unit, which takes no arithmetic, and when [u] is the base unit
    of a linear category, whose factor is [1.0], for every [x].  For the
    other units the result is [x * f / f], or the round trip through
    Celsius, rounded at each step, and need not be [x]. *)
Theorem C5_identity_exact_units (now : datetime) (x : float) (u : string) :
  u = "°C"
  \/ (exists category units,
        In (category, units) CONVERSION_FACTORS
        /\ dict_get units u = Some (Scale 1)) ->
  convert now x u u =
  Returns {| amount := x; from_unit := u; to_unit := u; result := x;
             timestamp := now; rate := None |}.
Proof.
  intros [->|(category & units & Hin & Hu)]; [reflexivity|].
  assert (Htemp : category <> "Температура").
  { intros ->. apply table_lookup in Hin. vm_compute in Hin.
    injection Hin as <-. cbn [dict_get] in Hu.
    repeat match type of Hu with
           | (if ?b then _ else _) = _ => destruct b
           end; discriminate. }
  pose proof (dict_get_in _ _ _ Hu) as Hd.
  assert (Ht : get_unit_type u = Some category).
  { apply belongs_type. now exists units. }
  rewrite (convert_linear now x u u category units 1 1); trivial.
  - now rewrite FloatFacts.mul_one, FloatFacts.div_one.
  - now destruct (table_item _ _ Hin).
  - now apply table_lookup.
Qed.

End UnitConverterProperties.

(** ** CurrencyConverter.convert *)

Module CurrencyFacts.

Import CurrencyConverter.
Local Open Scope float_scope.
Local Open Scope string_scope.

Section WithLibrary.

Context {lib : Library}.

(** With both codes among the keys, [convert] is its three-way
    computation followed by the construction of the result. *)
Lemma convert_present (c : converter) (now : datetime)
  (from_currency to_currency : string) (amount : float)
  (members : dict json) (vf vt : json) :
  rates c = JObject members ->
  dict_get members (upper from_currency) = Some vf ->
  dict_get members (upper to_currency) = Some vt ->
  convert c now from_currency to_currency amount =
  bind (through_base c (upper from_currency) (upper to_currency) amount)
       (fun computed =>
          match snd computed with
          | Some rate =>
              Returns {| amount := amount; from_unit := upper from_currency;
                         to_unit := upper to_currency; result := fst computed;
                         timestamp := now; rate := Some rate |}
          | None =>
              bind (operand vt)
                   (fun rate =>
                      Returns {| amount := amount; from_unit := upper from_currency;
                                 to_unit := upper to_currency; result := fst computed;
                                 timestamp := now; rate := Some rate |})
          end).
Proof.
  intros Hr Hf Ht. unfold convert. rewrite Hr.
  assert (Hne : truthy (JObject members) = true).
  { destruct members; [discriminate Hf|reflexivity]. }
  rewrite Hne. cbn [negb contains bind].
  rewrite (dict_get_in _ _ _ Hf), (dict_get_in _ _ _ Ht). cbn [negb bind].
  destruct (through_base c (upper from_currency) (upper to_currency) amount)
    as [[result [rate|]]|e]; cbn [bind fst snd]; trivial.
  rewrite <- Hr. unfold subscript. rewrite Hr. unfold dict_getitem. rewrite Ht.
  reflexivity.
Qed.

(** Every branch of the three-way computation binds the local [rate]. *)
Lemma through_base_binds_rate (c : converter) (f t : string) (amount : float)
  (computed : float * option float) :
  through_base c f t amount = Returns computed -> snd computed <> None.
Proof.
  unfold through_base.
  destruct (f =? base_currency c); [|destruct (t =? base_currency c)];
    repeat match goal with
      | |- bind ?m _ = _ -> _ => destruct m; cbn [bind]; [|discriminate]
      end;
    intros [= <-]; discriminate.
Qed.

Section Branches.

Variables (c : converter) (members : dict json) (f t : string) (rf rt : float).
Hypothesis Hrates : rates c = JObject members.
Hypothesis Hfrom : dict_get members f = Some (JNumber rf).
Hypothesis Hto : dict_get members t = Some (JNumber rt).

Lemma lookup_from : subscript (rates c) f = Returns (JNumber rf).
Proof. rewrite Hrates. unfold subscript, dict_getitem. now rewrite Hfrom. Qed.

Lemma lookup_to : subscript (rates c) t = Returns (JNumber rt).
Proof. rewrite Hrates. unfold subscript, dict_getitem. now rewrite Hto. Qed.

Lemma from_base (amount : float) :
  f = base_currency c ->
  through_base c f t amount = Returns (amount * rt, Some rt).
Proof.
  intros Hb. unfold through_base.
  rewrite <- Hb, String.eqb_refl, lookup_to. reflexivity.
Qed.

Lemma to_base (amount : float) :
  f <> base_currency c -> t = base_currency c -> (rf =? 0)%float = false ->
  through_base c f t amount = Returns (amount * (1 / rf), Some (1 / rf)).
Proof.
  intros Hf Ht Hnz. unfold through_base.
  apply String.eqb_neq in Hf. rewrite Hf, <- Ht, String.eqb_refl, lookup_from.
  cbn [bind operand]. unfold truediv. rewrite Hnz. reflexivity.
Qed.

Lemma across (amount : float) :
  f <> base_currency c -> t <> base_currency c ->
  (rf =? 0)%float = false -> (amount =? 0)%float = false ->
  through_base c f t amount =
  Returns (amount / rf * rt, Some (amount / rf * rt / amount)).
Proof.
  intros Hf Ht Hnz Ha. unfold through_base.
  apply String.eqb_neq in Hf, Ht. rewrite Hf, Ht, lookup_from, lookup_to.
  cbn [bind operand]. unfold truediv. rewrite Hnz. cbn [bind]. rewrite Ha.
  reflexivity.
Qed.

Lemma across_zero (amount : float) :
  f <> base_currency c -> t <> base_currency c ->
  (rf =? 0)%float = false -> (amount =? 0)%float = true ->
  through_base c f t amount = Raises ZeroDivisionError.
Proof.
  intros Hf Ht Hnz Ha. unfold through_base.
  apply String.eqb_neq in Hf, Ht. rewrite Hf, Ht, lookup_from, lookup_to.
  cbn [bind operand]. unfold truediv. rewrite Hnz. cbn [bind]. rewrite Ha.
  reflexivity.
Qed.

End Branches.

End WithLibrary.

End CurrencyFacts.

Section CurrencyConverterProperties.

Import CurrencyConverter CurrencyFacts.
Local Open Scope float_scope.
Local Open Scope string_scope.

Context {lib : Library}.

(** C2 (amended). With both uppercased codes among the keys of [rates],
    the three cases are tried in order.  From the base currency, the
    result is [amount * rates[to]] and the rate [rates[to]].  Otherwise, to
    the base currency from a currency whose rate is not zero, the rate is
    [1 / rates[from]] and the result is the product [amount * rate] with
    that rounded reciprocal, not the quotient [amount / rates[from]].
    Otherwise, from a currency whose rate is not zero and for an amount
    that is not zero, the result is [(amount / rates[from]) * rates[to]]
    and the rate [result / amount]. *)
Theorem C2_three_way_policy (c : converter) (now : datetime)
  (from_currency to_currency : string) (amount : float)
  (members : dict json) (rf rt : float) :
  rates c = JObject members ->
  dict_get members (upper from_currency) = Some (JNumber rf) ->
  dict_get members (upper to_currency) = Some (JNumber rt) ->
  (upper from_currency = base_currency c ->
   convert c now from_currency to_currency amount =
   Returns {| amount := amount; from_unit := upper from_currency;
              to_unit := upper to_currency; result := amount * rt;
              timestamp := now; rate := Some rt |})
  /\ (upper from_currency <> base_currency c ->
      upper to_currency = base_currency c ->
      (rf =? 0)%float = false ->
      convert c now from_currency to_currency amount =
      Returns {| amount := amount; from_unit := upper from_currency;
                 to_unit := upper to_currency; result := amount * (1 / rf);
                 timestamp := now; rate := Some (1 / rf) |})
  /\ (upper from_currency <> base_currency c ->
      upper to_currency <> base_currency c ->
      (rf =? 0)%float = false ->
      (amount =? 0)%float = false ->
      convert c now from_currency to_currency amount =
      Returns {| amount := amount; from_unit := upper from_currency;
                 to_unit := upper to_currency; result := amount / rf * rt;
                 timestamp := now; rate := Some (amount / rf * rt / amount) |}).
Proof.
  intros Hr Hf Ht.
  pose proof (convert_present c now from_currency to_currency amount
                members _ _ Hr Hf Ht) as E.
  split; [|split].
  - intros Hb. rewrite E, (from_base c members _ _ rt Hr Ht amount Hb).
    reflexivity.
  - intros Hnb Hb Hnz.
    rewrite E, (to_base c members _ _ rf Hr Hf amount Hnb Hb Hnz). reflexivity.
  - intros Hnf Hnt Hnz Ha.
    rewrite E, (across c members _ _ rf rt Hr Hf Ht amount Hnf Hnt Hnz Ha).
    reflexivity.
Qed.

(** C3 (what the code does). Between two currencies other than the base,
    both among the keys of [rates], the conversion of a zero amount ([0.0]
    or [-0.0]) raises [ZeroDivisionError]: [rate = result / amount] divides
    by the amount before the result object is built, and the fallback to
    [rates[to]] is not reached. *)
Theorem C3_zero_amount_raises (c : converter) (now : datetime)
  (from_currency to_currency : string) (amount : float)
  (members : dict json) (rf rt : float) :
  rates c = JObject members ->
  dict_get members (upper from_currency) = Some (JNumber rf) ->
  dict_get members (upper to_currency) = Some (JNumber rt) ->
  upper from_currency <> base_currency c ->
  upper to_currency <> base_currency c ->
  (rf =? 0)%float = false ->
  (amount =? 0)%float = true ->
  convert c now from_currency to_currency amount = Raises ZeroDivisionError.
Proof.
  intros Hr Hf Ht Hnf Hnt Hnz Ha.
  rewrite (convert_present c now from_currency to_currency amount members
             _ _ Hr Hf Ht).
  now rewrite (across_zero c members _ _ rf rt Hr Hf Ht amount Hnf Hnt Hnz Ha).
Qed.

(** C9. A result returned by [CurrencyConverter.convert] has its rate
    populated; a result returned by [UnitConverter.convert], in any of the
    ten categories, has none. *)
Theorem C9_rate_presence (c : converter) (now : datetime)
  (from_currency to_currency : string) (amount : float)
  (value : float) (from_unit to_unit : string) (r : ConversionResult) :
  (convert c now from_currency to_currency amount = Returns r -> rate r <> None)
  /\ (UnitConverter.convert now value from_unit to_unit = Returns r ->
      rate r = None).
Proof.
  split.
  - unfold convert.
    repeat match goal with
      | |- (if ?b then _ else _) = _ -> _ => destruct b; [discriminate|]
      | |- bind ?m _ = _ -> _ => destruct m; cbn [bind]; [|discriminate]
      | |- (if ?b then _ else _) = _ -> _ => destruct b
      | |- (let '(_, _) := ?p in _) = _ -> _ => destruct p
      | |- match ?o with Some _ => _ | None => _ end = _ -> _ => destruct o
      end;
      try discriminate; intros [= <-]; discriminate.
  - intros E. pose proof (TableFacts.convert_cases now value from_unit to_unit) as H.
    destruct (UnitConverter.get_unit_type from_unit);
      [destruct (UnitConverter.get_unit_type to_unit);
       [destruct (_ =? _)|]|]; try congruence.
    destruct H as (r' & Hr' & Hrate). congruence.
Qed.

End CurrencyConverterProperties.

(** ** The rate cache and the remote fetch *)

Module CacheFacts.

Import CurrencyConverter.
Local Open Scope string_scope.

(** Runs the stateful code as far as its inputs are known. *)
Ltac run :=
  cbv beta iota zeta delta
    [_load_from_cache load_body fetch_rates fetch_body _save_to_cache
     mbind ret raise lift try get_self set_rates set_last_update now print
     exists_cache load_json dump_json requests_get raise_for_status
     response_json with_world self world negb fst snd
     cache writable clock ticks network requests stdout].

Ltac done := eexists; repeat split; reflexivity.

Ltac returned := intros [= <- <-]; reflexivity.

Section WithLibrary.

Context {lib : Library}.

Lemma load_usable (s : state) (cached : json) (t : Z) :
  Spec.usable (world s) cached t ->
  _load_from_cache s =
  (Returns true,
   {| self := Spec.adopt (self s) cached t; world := tick (world s) |}).
Proof.
  intros (data & Hc & (stamp & Hs & Hp & Hr) & Hf).
  destruct s as [c w]. cbn [world self] in *.
  destruct w as [file wr clk n net reqs out]. cbn [cache clock ticks] in *.
  unfold Spec.fresh in Hf. cbn [clock ticks] in Hf. apply Z.ltb_lt in Hf.
  subst file. run. rewrite Hs. unfold parse_timestamp. rewrite Hp. run.
  unfold datetime_sub. rewrite Hf, Hr. reflexivity.
Qed.

Lemma load_unusable (s : state) :
  (forall cached t, ~ Spec.usable (world s) cached t) ->
  exists s', _load_from_cache s = (Returns false, s')
             /\ self s' = self s
             /\ Spec.same_files_and_network (world s) (world s').
Proof.
  intros Hno.
  destruct s as [c w]. cbn [world self] in *.
  destruct w as [file wr clk n net reqs out].
  assert (Hno' : forall data cached t stamp,
             file = Present (Some data) ->
             subscript data "timestamp" = Returns (JString stamp) ->
             fromisoformat stamp = Returns (Naive t) ->
             (clk n - t <? hours CACHE_DURATION_HOURS)%Z = true ->
             subscript data "rates" = Returns cached -> False).
  { intros data cached t stamp Hc Hs Hp Hf Hr. apply (Hno cached t).
    exists data. repeat split; trivial.
    - now exists stamp.
    - unfold Spec.fresh. cbn [clock ticks]. now apply Z.ltb_lt. }
  clear Hno. unfold Spec.same_files_and_network.
  destruct file as [|[data|]]; run; try done.
  destruct (subscript data "timestamp") as [stamp|e] eqn:Hs; [|done].
  destruct stamp as [| | |stamp| |]; cbn [parse_timestamp]; try done.
  destruct (fromisoformat stamp) as [[t|t o]|e] eqn:Hp; run;
    cbn [datetime_sub]; try done.
  destruct (clk n - t <? hours CACHE_DURATION_HOURS)%Z eqn:Hf; [|done].
  destruct (subscript data "rates") as [cached|e] eqn:Hr; [|done].
  exfalso. exact (Hno' data cached t stamp eq_refl Hs Hp Hf Hr).
Qed.

Lemma usable_unique (w : World) (cached cached' : json) (t t' : Z) :
  Spec.usable w cached t -> Spec.usable w cached' t' ->
  cached = cached' /\ t = t'.
Proof.
  intros (data & Hc & (stamp & Hs & Hp & Hr) & _)
         (data' & Hc' & (stamp' & Hs' & Hp' & Hr') & _).
  rewrite Hc in Hc'. injection Hc' as <-.
  rewrite Hs in Hs'. injection Hs' as <-.
  rewrite Hp in Hp'. rewrite Hr in Hr'. split; congruence.
Qed.

Lemma usable_or_not (w : World) :
  (exists cached t, Spec.usable w cached t)
  \/ (forall cached t, ~ Spec.usable w cached t).
Proof.
  unfold Spec.usable, readable, Spec.fresh.
  destruct (cache w) as [|[data|]];
    try (right; intros cached t (data' & Hc & _); discriminate).
  destruct (subscript data "timestamp") as [stamp|e] eqn:Hs;
    [|right; intros cached t (data' & [= <-] & (stamp' & Hs' & _) & _);
      congruence].
  destruct (subscript data "rates") as [cached|e] eqn:Hr;
    [|right; intros cached t (data' & [= <-] & (stamp' & _ & _ & Hr') & _);
      congruence].
  destruct stamp as [| | |stamp| |];
    try (right; intros cached' t (data' & [= <-] & (stamp' & Hs' & _) & _);
         congruence).
  destruct (fromisoformat stamp) as [[t|t o]|e] eqn:Hp;
    try (right;
         intros cached' t' (data' & [= <-] & (stamp' & Hs' & Hp' & _) & _);
         congruence).
  destruct (Z.lt_ge_cases (clock w (ticks w) - t) (hours CACHE_DURATION_HOURS))
    as [Hf|Hf].
  - left. exists cached, t, data. repeat split; trivial. now exists stamp.
  - right. intros cached' t' (data' & [= <-] & (stamp' & Hs' & Hp' & _) & Hf').
    assert (t' = t) by congruence. subst t'. lia.
Qed.

(** The remote attempt contacts the source once, whatever comes back. *)
Lemma remote_contacts (s : state) (o : outcome bool) (s' : state) :
  try fetch_body fetch_catches (fun _ => ret false) s = (o, s') ->
  requests (world s') = api_url (self s) :: requests (world s).
Proof.
  destruct s as [c w]. destruct w as [file wr clk n net reqs out]. run.
  destruct (net (api_url c)) as [|status body]; run; [returned|].
  destruct ((400 <=? status) && (status <? 600))%Z; run; [returned|].
  destruct body as [data|]; run; [|returned].
  destruct (subscript data "result") as [status'|e]; run.
  - destruct (equals_str status' "success"); run; [|returned].
    destruct (subscript data "conversion_rates") as [fetched|e]; run.
    + destruct wr; run; returned.
    + destruct (fetch_catches e); returned.
  - destruct (fetch_catches e); returned.
Qed.

Lemma fetch_usable (s : state) (cached : json) (t : Z) :
  Spec.usable (world s) cached t ->
  fetch_rates s =
  (Returns true,
   {| self := Spec.adopt (self s) cached t; world := tick (world s) |}).
Proof.
  intros Hu. unfold fetch_rates, mbind. now rewrite (load_usable s cached t Hu).
Qed.

Lemma fetch_unusable (s : state) (o : outcome bool) (s' : state) :
  (forall cached t, ~ Spec.usable (world s) cached t) ->
  fetch_rates s = (o, s') ->
  requests (world s') = api_url (self s) :: requests (world s).
Proof.
  intros Hno.
  destruct (load_unusable s Hno) as (s1 & E & Hself & _ & _ & _ & _ & Hreq).
  unfold fetch_rates, mbind. rewrite E. intros H.
  apply remote_contacts in H. now rewrite H, Hself, Hreq.
Qed.

(** [v[k]] raises nothing that [fetch_rates] catches. *)
Lemma subscript_uncaught (v : json) (k : string) (e : exn) :
  subscript v k = Raises e -> fetch_catches e = false.
Proof.
  destruct v; cbn [subscript]; try (intros [= <-]; reflexivity).
  unfold dict_getitem. destruct (dict_get members k); [discriminate|].
  intros [= <-]. reflexivity.
Qed.

(** A payload that announces success and carries no [conversion_rates]
    also raises, before anything is assigned. *)
Lemma fetch_missing_rates_raises (s : state) (status : Z) (data : json)
  (e : exn) :
  (forall cached t, ~ Spec.usable (world s) cached t) ->
  network (world s) (api_url (self s)) = Response status (Some data) ->
  ((400 <=? status) && (status <? 600))%Z = false ->
  subscript data "result" = Returns (JString "success") ->
  subscript data "conversion_rates" = Raises e ->
  exists s', fetch_rates s = (Raises e, s') /\ self s' = self s.
Proof.
  intros Hno Hnet Hstatus Hres Hrates.
  destruct (load_unusable s Hno) as (s1 & E & Hself & _ & _ & _ & Hnet1 & _).
  unfold fetch_rates, mbind. rewrite E. rewrite <- Hself, <- Hnet1 in Hnet.
  rewrite <- Hself. clear E.
  destruct s1 as [c w]. destruct w as [file wr clk n net reqs out].
  cbn [self world network] in *. run. rewrite Hnet. run. rewrite Hstatus. run.
  rewrite Hres. run. cbn [equals_str]. rewrite String.eqb_refl.
  rewrite Hrates, (subscript_uncaught _ _ _ Hrates). done.
Qed.

(** The failures of the remote fetch that the code reports as [False]:
    no response, an error status, a body that is not JSON, a payload whose
    [result] is not [success]. *)
Lemma fetch_failure_reported (s : state) :
  (forall cached t, ~ Spec.usable (world s) cached t) ->
  match network (world s) (api_url (self s)) with
  | Unreachable => True
  | Response status body =>
      ((400 <=? status) && (status <? 600))%Z = true
      \/ body = None
      \/ exists data v, body = Some data
                        /\ subscript data "result" = Returns v
                        /\ equals_str v "success" = false
  end ->
  exists s', fetch_rates s = (Returns false, s') /\ self s' = self s.
Proof.
  intros Hno.
  destruct (load_unusable s Hno) as (s1 & E & Hself & _ & _ & _ & Hnet & _).
  unfold fetch_rates, mbind. rewrite E. rewrite <- Hself, <- Hnet. clear E.
  destruct s1 as [c w]. destruct w as [file wr clk n net reqs out].
  cbn [self world network]. run.
  destruct (net (api_url c)) as [|status body]; run; [intros _; done|].
  destruct ((400 <=? status) && (status <? 600))%Z; run; [intros _; done|].
  intros [H|[->|(data & v & -> & Hv & Hs)]]; [discriminate|run; done|].
  run. rewrite Hv. run. rewrite Hs. done.
Qed.

(** Two cache records that agree outside [base] are usable together. *)
Lemma usable_agree (w : World) (d1 d2 : dict json) (cached : json) (t : Z) :
  (forall k, k <> "base" -> dict_get d1 k = dict_get d2 k) ->
  Spec.usable (with_cache (Present (Some (JObject d1))) w) cached t ->
  Spec.usable (with_cache (Present (Some (JObject d2))) w) cached t.
Proof.
  intros Hagree (data & Hc & (stamp & Hs & Hp & Hr) & Hf).
  cbn [with_cache cache] in Hc. injection Hc as <-.
  exists (JObject d2). repeat split; trivial.
  exists stamp. cbn [subscript] in *. unfold dict_getitem in *.
  rewrite <- !Hagree by discriminate. now repeat split.
Qed.

(** A record that is well-formed in the words of the specification and
    carries a naive timestamp is one the code can read. *)
Lemma well_formed_readable (data : json) (base : string) (cached : dict json)
  (t : Z) :
  Spec.well_formed data base cached (Naive t) -> readable data (JObject cached) t.
Proof.
  intros (members & stamp & -> & Hs & Hp & _ & Hr & _).
  exists stamp. cbn [subscript]. unfold dict_getitem. now rewrite Hs, Hr.
Qed.

End WithLibrary.

End CacheFacts.

Section CacheProperties.

Import CurrencyConverter CacheFacts.
Local Open Scope string_scope.

Context {lib : Library}.

(** C6 (amended). [_load_from_cache] never raises; it returns [True],
    with the cached rates adopted and [last_update] set to the cached
    timestamp, exactly when the cache file exists, holds a record the code
    can read (a [timestamp] that parses to a naive datetime and a [rates]
    entry, whatever it holds; [base] is not looked at) and is younger than
    the 24-hour window, and otherwise leaves the converter as it was.
    [fetch_rates] contacts the remote source only in that second case: a
    readable snapshot aged 23 hours is adopted without a request, one aged
    25 hours is rejected and the source is contacted.  A record that is
    well-formed in the words of the specification is readable when its
    timestamp is naive, so such a record is adopted while it is fresh. *)
Theorem C6_cache_first :
  (forall s, exists b s', _load_from_cache s = (Returns b, s'))
  /\ (forall s s',
         _load_from_cache s = (Returns true, s')
         <-> exists cached t,
               Spec.usable (world s) cached t
               /\ s' = {| self := Spec.adopt (self s) cached t;
                          world := tick (world s) |})
  /\ (forall s s', _load_from_cache s = (Returns false, s') -> self s' = self s)
  /\ (forall s cached t,
         Spec.usable (world s) cached t ->
         exists s', fetch_rates s = (Returns true, s')
                    /\ self s' = Spec.adopt (self s) cached t
                    /\ requests (world s') = requests (world s))
  /\ (forall s o s',
         (forall cached t, ~ Spec.usable (world s) cached t) ->
         fetch_rates s = (o, s') ->
         requests (world s') = api_url (self s) :: requests (world s))
  /\ (forall s data cached t,
         cache (world s) = Present (Some data) ->
         readable data cached t ->
         ((clock (world s) (ticks (world s)) - t = hours 23)%Z ->
          exists s', fetch_rates s = (Returns true, s')
                     /\ self s' = Spec.adopt (self s) cached t
                     /\ requests (world s') = requests (world s))
         /\ ((clock (world s) (ticks (world s)) - t = hours 25)%Z ->
             (exists s1, _load_from_cache s = (Returns false, s1))
             /\ forall o s', fetch_rates s = (o, s') ->
                  requests (world s') = api_url (self s) :: requests (world s)))
  /\ (forall s base cached t,
         Spec.snapshot (world s) base cached (Naive t) ->
         exists s', fetch_rates s = (Returns true, s')
                    /\ self s' = Spec.adopt (self s) (JObject cached) t
                    /\ requests (world s') = requests (world s)).
Proof.
  assert (Hadopt : forall s cached t,
             Spec.usable (world s) cached t ->
             exists s', fetch_rates s = (Returns true, s')
                        /\ self s' = Spec.adopt (self s) cached t
                        /\ requests (world s') = requests (world s)).
  { intros s cached t Hu. rewrite (fetch_usable s cached t Hu).
    eexists. split; [reflexivity|]. split; reflexivity. }
  split; [|split; [|split; [|split; [|split; [|split]]]]].
  - intros s. destruct (usable_or_not (world s)) as [(cached & t & Hu)|Hno].
    + rewrite (load_usable s cached t Hu). now eexists; eexists.
    + destruct (load_unusable s Hno) as (s' & E & _). now exists false, s'.
  - intros s s'. split.
    + intros E. destruct (usable_or_not (world s)) as [(cached & t & Hu)|Hno].
      * exists cached, t. split; [exact Hu|].
        rewrite (load_usable s cached t Hu) in E. congruence.
      * destruct (load_unusable s Hno) as (s1 & E1 & _). congruence.
    + intros (cached & t & Hu & ->). now apply load_usable.
  - intros s s' E. destruct (usable_or_not (world s)) as [(cached & t & Hu)|Hno].
    + rewrite (load_usable s cached t Hu) in E. discriminate.
    + destruct (load_unusable s Hno) as (s1 & E1 & Hself & _). congruence.
  - exact Hadopt.
  - intros s o s' Hno. now apply fetch_unusable.
  - intros s data cached t Hc Hw. split; intros Hage.
    + apply Hadopt. exists data. repeat split; trivial.
      unfold Spec.fresh. rewrite Hage. reflexivity.
    + assert (Hno : forall cached' t', ~ Spec.usable (world s) cached' t').
      { intros cached' t' Hu.
        assert (Hu' : Spec.usable (world s) cached' t') by exact Hu.
        destruct Hu' as (data' & Hc' & Hw' & Hf).
        rewrite Hc in Hc'. injection Hc' as <-.
        destruct Hw as (stamp & Hs & Hp & _), Hw' as (stamp' & Hs' & Hp' & _).
        assert (t' = t) by congruence. subst t'.
        unfold Spec.fresh in Hf. rewrite Hage in Hf. discriminate Hf. }
      split.
      * destruct (load_unusable s Hno) as (s1 & E & _). now exists s1.
      * intros o s'. now apply fetch_unusable.
  - intros s base cached t (data & Hc & Hw & Hf). apply Hadopt.
    exists data. split; [exact Hc|]. split; [|exact Hf].
    exact (well_formed_readable data base cached t Hw).
Qed.

(** C7 (what the code does). When no cache is usable and the source
    answers with a success status and a JSON payload on which
    [data['result']] raises (no such key, or not an object), [fetch_rates]
    raises that exception to its caller instead of returning [False]; the
    converter is left as it was. *)
Theorem C7_unexpected_payload_raises (s : state) (status : Z) (data : json)
  (e : exn) :
  (forall cached t, ~ Spec.usable (world s) cached t) ->
  network (world s) (api_url (self s)) = Response status (Some data) ->
  ((400 <=? status) && (status <? 600))%Z = false ->
  subscript data "result" = Raises e ->
  exists s', fetch_rates s = (Raises e, s') /\ self s' = self s.
Proof.
  intros Hno Hnet Hstatus Hres.
  destruct (load_unusable s Hno) as (s1 & E & Hself & _ & _ & _ & Hnet1 & _).
  unfold fetch_rates, mbind. rewrite E. rewrite <- Hself, <- Hnet1 in Hnet.
  rewrite <- Hself. clear E.
  destruct s1 as [c w]. destruct w as [file wr clk n net reqs out].
  cbn [self world network] in *. run. rewrite Hnet. run. rewrite Hstatus. run.
  rewrite Hres, (subscript_uncaught _ _ _ Hres). done.
Qed.

(** C10. Loading never reads the [base] field: for two cache records that
    differ at most there, [_load_from_cache] gives the same boolean and the
    same converter, and when one of them is well-formed and fresh the other
    is adopted as it is, whatever base currency it names. *)
Theorem C10_base_ignored (s : state) (d1 d2 : dict json) :
  (forall k, k <> "base" -> dict_get d1 k = dict_get d2 k) ->
  let s1 := {| self := self s;
               world := with_cache (Present (Some (JObject d1))) (world s) |} in
  let s2 := {| self := self s;
               world := with_cache (Present (Some (JObject d2))) (world s) |} in
  fst (_load_from_cache s1) = fst (_load_from_cache s2)
  /\ self (snd (_load_from_cache s1)) = self (snd (_load_from_cache s2))
  /\ (forall cached t,
         Spec.usable (world s1) cached t ->
         _load_from_cache s2 =
         (Returns true,
          {| self := Spec.adopt (self s) cached t; world := tick (world s2) |})).
Proof.
  intros Hagree s1 s2.
  assert (H12 : forall cached t,
             Spec.usable (world s1) cached t -> Spec.usable (world s2) cached t).
  { intros cached t. apply usable_agree. exact Hagree. }
  assert (H21 : forall cached t,
             Spec.usable (world s2) cached t -> Spec.usable (world s1) cached t).
  { intros cached t. apply usable_agree. intros k Hk. symmetry. now apply Hagree. }
  assert (Hlast : forall cached t,
             Spec.usable (world s1) cached t ->
             _load_from_cache s2 =
             (Returns true,
              {| self := Spec.adopt (self s) cached t; world := tick (world s2) |})).
  { intros cached t Hu.
    exact (load_usable s2 cached t (H12 cached t Hu)). }
  assert (Hboth : fst (_load_from_cache s1) = fst (_load_from_cache s2)
                  /\ self (snd (_load_from_cache s1))
                     = self (snd (_load_from_cache s2))).
  { destruct (usable_or_not (world s1)) as [(cached & t & Hu)|Hno].
    - rewrite (load_usable s1 cached t Hu), (Hlast cached t Hu).
      split; reflexivity.
    - assert (Hno2 : forall cached t, ~ Spec.usable (world s2) cached t).
      { intros cached t Hu. exact (Hno cached t (H21 cached t Hu)). }
      destruct (load_unusable s1 Hno) as (s1' & E1 & Hself1 & _).
      destruct (load_unusable s2 Hno2) as (s2' & E2 & Hself2 & _).
      rewrite E1, E2. cbn [fst snd]. split; [reflexivity|].
      now rewrite Hself1, Hself2. }
  destruct Hboth as [Hfst Hself]. split; [exact Hfst|]. split; [exact Hself|].
  exact Hlast.
Qed.

End CacheProperties.

(** ** The theorems at concrete inputs *)

Section Instances.

Import CurrencyConverter.
Local Open Scope float_scope.
Local Open Scope string_scope.

Lemma C4_linear_conversion_witness :
  exists fu fv,
    dict_get Examples.length_units "км" = Some (UnitConverter.Scale fu)
    /\ dict_get Examples.length_units "миля" = Some (UnitConverter.Scale fv)
    /\ UnitConverter.convert (Naive 0) 5 "км" "миля" =
       Returns {| amount := 5; from_unit := "км"; to_unit := "миля";
                  result := 5 * fu / fv; timestamp := Naive 0; rate := None |}.
Proof.
  apply (C4_linear_conversion (Naive 0) 5 "Длина" Examples.length_units
           "км" "миля");
    [left; reflexivity|discriminate|reflexivity|reflexivity].
Defined.

Lemma C5_identity_exact_units_witness :
  UnitConverter.convert (Naive 0) 2.5 "м" "м" =
  Returns {| amount := 2.5; from_unit := "м"; to_unit := "м"; result := 2.5;
             timestamp := Naive 0; rate := None |}.
Proof.
  apply C5_identity_exact_units. right.
  exists "Длина", Examples.length_units. split; [left; reflexivity|reflexivity].
Defined.

(** C5 as stated fails: three inches come back as 2.9999999999999996
    inches, and 0.1 K as 0.10000000000002274 K. *)
Lemma C5_identity_counterexample :
  Spec.known "дюйм" /\ Spec.known "K"
  /\ isfinite 3 = true /\ isfinite 0.1 = true
  /\ (exists r, UnitConverter.convert (Naive 0) 3 "дюйм" "дюйм" = Returns r
                /\ result r = 2.9999999999999996
                /\ (result r =? 3)%float = false)
  /\ (exists r, UnitConverter.convert (Naive 0) 0.1 "K" "K" = Returns r
                /\ result r = 0.10000000000002274
                /\ (result r =? 0.1)%float = false).
Proof.
  split; [|split; [|split; [|split; [|split]]]].
  - apply TableFacts.unknown_type_known. vm_compute. discriminate.
  - apply TableFacts.unknown_type_known. vm_compute. discriminate.
  - vm_compute. reflexivity.
  - vm_compute. reflexivity.
  - eexists. split; [vm_compute; reflexivity|]. split; vm_compute; reflexivity.
  - eexists. split; [vm_compute; reflexivity|]. split; vm_compute; reflexivity.
Qed.

Lemma C2_three_way_policy_witness :
  convert (lib := Examples.library) Examples.demo (Naive 0) "rub" "usd" 100 =
  Returns {| amount := 100; from_unit := "RUB"; to_unit := "USD";
             result := 100 * 0.011; timestamp := Naive 0; rate := Some 0.011 |}
  /\ convert (lib := Examples.library) Examples.demo (Naive 0) "usd" "rub" 100 =
     Returns {| amount := 100; from_unit := "USD"; to_unit := "RUB";
                result := 100 * (1 / 0.011); timestamp := Naive 0;
                rate := Some (1 / 0.011) |}
  /\ convert (lib := Examples.library) Examples.demo (Naive 0) "usd" "eur" 100 =
     Returns {| amount := 100; from_unit := "USD"; to_unit := "EUR";
                result := 100 / 0.011 * 0.010; timestamp := Naive 0;
                rate := Some (100 / 0.011 * 0.010 / 100) |}.
Proof.
  split; [|split].
  - apply (proj1 (C2_three_way_policy (lib := Examples.library) Examples.demo
                    (Naive 0) "rub" "usd" 100 Examples.demo_rates 1.0 0.011
                    eq_refl eq_refl eq_refl)).
    reflexivity.
  - apply (proj1 (proj2 (C2_three_way_policy (lib := Examples.library)
                           Examples.demo (Naive 0) "usd" "rub" 100
                           Examples.demo_rates 0.011 1.0
                           eq_refl eq_refl eq_refl)));
      [discriminate|reflexivity|reflexivity].
  - apply (proj2 (proj2 (C2_three_way_policy (lib := Examples.library)
                           Examples.demo (Naive 0) "usd" "eur" 100
                           Examples.demo_rates 0.011 0.010
                           eq_refl eq_refl eq_refl)));
      [discriminate|discriminate|reflexivity|reflexivity].
Defined.

(** C2 as stated fails, at four inputs.  On the way to the base currency
    the result is the product with the rounded reciprocal and not the
    quotient: half a unit of a currency quoted at [5e-309] is converted to
    infinity, because [1 / 5e-309] is no finite float, while the quotient
    [0.5 / 5e-309] is the finite [1e308].  The cases are tried in order:
    with the base currency quoted at 2, ten units of the base in the base
    are 20 by the first case, not [10 / 2] by the second.  A source quoted
    at zero raises [ZeroDivisionError], and so does a zero amount between
    two currencies other than the base, where the fallback to [rates[to]]
    is never reached. *)
Lemma C2_policy_counterexample :
  (subscript (rates EdgeExamples.extreme) "XAA" = Returns (JNumber 5e-309)
   /\ 0.5 / 5e-309 = 1e308
   /\ isfinite (0.5 / 5e-309) = true
   /\ exists r,
        convert (lib := Examples.library) EdgeExamples.extreme (Naive 0)
          "XAA" "RUB" 0.5 = Returns r
        /\ result r = infinity
        /\ rate r = Some infinity)
  /\ (convert (lib := Examples.library) EdgeExamples.doubled (Naive 0)
        "RUB" "RUB" 10
      = Returns {| amount := 10; from_unit := "RUB"; to_unit := "RUB";
                   result := 20; timestamp := Naive 0; rate := Some 2 |}
      /\ 10 / 2 = 5)
  /\ convert (lib := Examples.library) EdgeExamples.extreme (Naive 0)
       "XBB" "RUB" 1 = Raises ZeroDivisionError
  /\ convert (lib := Examples.library) Examples.demo (Naive 0) "USD" "EUR" 0
     = Raises ZeroDivisionError.
Proof.
  split; [|split; [|split]].
  - split; [reflexivity|]. split; [vm_compute; reflexivity|].
    split; [vm_compute; reflexivity|].
    eexists. split; [vm_compute; reflexivity|]. split; reflexivity.
  - split; vm_compute; reflexivity.
  - vm_compute. reflexivity.
  - vm_compute. reflexivity.
Qed.

Lemma C3_zero_amount_raises_witness :
  convert (lib := Examples.library) Examples.demo (Naive 0) "USD" "EUR" 0
  = Raises ZeroDivisionError.
Proof.
  apply (C3_zero_amount_raises (lib := Examples.library) Examples.demo (Naive 0)
           "USD" "EUR" 0 Examples.demo_rates 0.011 0.010);
    [reflexivity|reflexivity|reflexivity|discriminate|discriminate
    |reflexivity|reflexivity].
Defined.

Lemma C9_rate_presence_witness :
  (exists r, convert (lib := Examples.library) Examples.demo (Naive 0)
               "usd" "eur" 100 = Returns r
             /\ rate r <> None)
  /\ (exists r, UnitConverter.convert (Naive 0) 100 "°C" "°F" = Returns r
                /\ rate r = None).
Proof.
  split; eexists; (split; [reflexivity|]).
  - apply (proj1 (C9_rate_presence (lib := Examples.library) Examples.demo
                    (Naive 0) "usd" "eur" 100 100 "°C" "°F" _)).
    reflexivity.
  - apply (proj2 (C9_rate_presence (lib := Examples.library) Examples.demo
                    (Naive 0) "usd" "eur" 100 100 "°C" "°F" _)).
    reflexivity.
Defined.

Lemma C7_unexpected_payload_raises_witness :
  exists s',
    fetch_rates (lib := Examples.library)
      (Examples.uncached (Response 200 (Some (JObject []))))
    = (Raises (KeyError "result"), s')
    /\ self s' = Examples.blank.
Proof.
  apply (C7_unexpected_payload_raises (lib := Examples.library)
           (Examples.uncached (Response 200 (Some (JObject []))))
           200 (JObject []) (KeyError "result"));
    [|reflexivity|reflexivity|reflexivity].
  intros cached t (data & Hc & _). discriminate Hc.
Defined.

Lemma C10_base_ignored_witness :
  let usd := Examples.beside
               (JObject (Examples.cache_record "2026-11-02T11:00:00" "USD"))
               Unreachable in
  let rub := Examples.beside
               (JObject (Examples.cache_record "2026-11-02T11:00:00" "RUB"))
               Unreachable in
  fst (_load_from_cache (lib := Examples.library) usd)
  = fst (_load_from_cache (lib := Examples.library) rub)
  /\ self (snd (_load_from_cache (lib := Examples.library) usd))
     = self (snd (_load_from_cache (lib := Examples.library) rub))
  /\ (forall cached t,
         Spec.usable (lib := Examples.library) (world usd) cached t ->
         _load_from_cache (lib := Examples.library) rub =
         (Returns true,
          {| self := Spec.adopt Examples.blank cached t;
             world := tick (world rub) |})).
Proof.
  apply (C10_base_ignored (lib := Examples.library)
           (Examples.uncached Unreachable)
           (Examples.cache_record "2026-11-02T11:00:00" "USD")
           (Examples.cache_record "2026-11-02T11:00:00" "RUB")).
  intros k Hk. cbn [Examples.cache_record dict_get].
  destruct ("timestamp" =? k); [reflexivity|].
  destruct (String.eqb_spec "base" k) as [E|_]; [|reflexivity].
  now elim Hk.
Defined.

(** C6 as stated fails in both directions.  A cache record with a
    timestamp 23 hours old, no [base] and [null] under [rates] is not
    well-formed, yet [_load_from_cache] returns [True] and the converter
    now has [None] for rates; [fetch_rates] reports success and contacts
    nobody.  A complete record with positive rates, stamped 23 hours ago
    with an offset (here UTC), is well-formed and inside the window, yet
    [_load_from_cache] returns [False]: the aware timestamp cannot be
    subtracted from [datetime.now()], the [TypeError] is caught and
    printed, and [fetch_rates] contacts the source. *)
Lemma C6_well_formed_counterexample :
  ((forall base cached t,
       ~ Spec.well_formed (lib := Examples.library) EdgeExamples.bare base cached t)
   /\ exists s',
        _load_from_cache (lib := Examples.library)
          (Examples.beside EdgeExamples.bare Unreachable) = (Returns true, s')
        /\ rates (self s') = JNull
        /\ last_update (self s') = Some (Naive (hours 35))
        /\ fetch_rates (lib := Examples.library)
             (Examples.beside EdgeExamples.bare Unreachable) = (Returns true, s')
        /\ requests (world s') = [])
  /\ (Spec.snapshot (lib := EdgeExamples.library)
        (world (Examples.beside EdgeExamples.zoned Unreachable))
        "RUB" Examples.demo_rates (Aware (hours 35) 0)
      /\ exists s' s'',
           _load_from_cache (lib := EdgeExamples.library)
             (Examples.beside EdgeExamples.zoned Unreachable) = (Returns false, s')
           /\ self s' = Examples.blank
           /\ stdout (world s') = [("Ошибка при загрузке кэша: ", TypeError)]
           /\ fetch_rates (lib := EdgeExamples.library)
                (Examples.beside EdgeExamples.zoned Unreachable) = (Returns false, s'')
           /\ requests (world s'') = [api_url Examples.blank]).
Proof.
  split; [split|split].
  - intros base cached t (members & stamp & E & _ & _ & Hb & _).
    injection E as <-. discriminate Hb.
  - eexists. split; [vm_compute; reflexivity|].
    split; [reflexivity|]. split; [reflexivity|].
    split; [vm_compute; reflexivity|reflexivity].
  - exists EdgeExamples.zoned. split; [reflexivity|]. split.
    + exists (Examples.cache_record "2026-11-02T11:00:00+00:00" "RUB"),
        "2026-11-02T11:00:00+00:00".
      repeat split; vm_compute; reflexivity.
    + vm_compute. reflexivity.
  - eexists. eexists. split; [vm_compute; reflexivity|].
    split; [reflexivity|]. split; [reflexivity|].
    split; [vm_compute; reflexivity|reflexivity].
Qed.

Lemma C6_cache_first_witness :
  (exists s',
      fetch_rates (lib := Examples.library)
        (Examples.beside
           (JObject (Examples.cache_record "2026-11-02T11:00:00" "RUB"))
           Unreachable)
      = (Returns true, s')
      /\ self s' = Spec.adopt Examples.blank (JObject Examples.demo_rates) (hours 35)
      /\ requests (world s') = [])
  /\ (forall o s',
         fetch_rates (lib := Examples.library)
           (Examples.beside
              (JObject (Examples.cache_record "2026-11-02T09:00:00" "RUB"))
              (Response 200 (Some (JObject [("result", JString "error")]))))
         = (o, s') ->
         requests (world s') = [api_url Examples.blank]).
Proof.
  pose proof (C6_cache_first (lib := Examples.library))
    as (_ & _ & _ & _ & _ & H & _).
  split.
  - apply (H (Examples.beside
                (JObject (Examples.cache_record "2026-11-02T11:00:00" "RUB"))
                Unreachable)
             (JObject (Examples.cache_record "2026-11-02T11:00:00" "RUB"))
             (JObject Examples.demo_rates) (hours 35));
      [reflexivity| |reflexivity].
    exists "2026-11-02T11:00:00". repeat split; reflexivity.
  - apply (H (Examples.beside
                (JObject (Examples.cache_record "2026-11-02T09:00:00" "RUB"))
                (Response 200 (Some (JObject [("result", JString "error")]))))
             (JObject (Examples.cache_record "2026-11-02T09:00:00" "RUB"))
             (JObject Examples.demo_rates) (hours 33));
      [reflexivity| |reflexivity].
    exists "2026-11-02T09:00:00". repeat split; reflexivity.
Defined.

End Instances.

(** * Further properties *)

(** ** Negating a float before multiplying or dividing *)

Module MoreFloatFacts.
Local Open Scope Z_scope.

Lemma round_opp (prec emax : Z) (s : bool) (m e : Z) (l : location) :
  binary_round_aux prec emax (negb s) m e l
  = SFopp (binary_round_aux prec emax s m e l).
Proof.
  unfold binary_round_aux.
  destruct (shr_fexp prec emax m e l) as [mrs' e'].
  destruct (shr_fexp prec emax _ e' loc_Exact) as [mrs'' e''].
  destruct (shr_m mrs'') as [|p|p]; cbn [SFopp]; try reflexivity.
  now destruct (e'' <=? emax - prec).
Qed.

Lemma SFmul_opp (x y : spec_float) : SF64mul (SFopp x) y = SFopp (SF64mul x y).
Proof.
  unfold SF64mul.
  destruct x as [sx|sx| |sx mx ex], y as [sy|sy| |sy my ey];
    cbn [SFmul SFopp]; rewrite <- ?negb_xorb_l; try reflexivity.
  apply round_opp.
Qed.

Lemma SFdiv_opp (x y : spec_float) : SF64div (SFopp x) y = SFopp (SF64div x y).
Proof.
  unfold SF64div.
  destruct x as [sx|sx| |sx mx ex], y as [sy|sy| |sy my ey];
    cbn [SFdiv SFopp]; rewrite <- ?negb_xorb_l; try reflexivity.
  destruct (SFdiv_core_binary prec emax (Z.pos mx) ex (Z.pos my) ey) as [[mz ez] lz].
  apply round_opp.
Qed.

Local Open Scope float_scope.

Lemma mul_opp (x y : float) : (- x) * y = - (x * y).
Proof.
  apply Prim2SF_inj. now rewrite mul_spec, !opp_spec, mul_spec, SFmul_opp.
Qed.

Lemma div_opp (x y : float) : (- x) / y = - (x / y).
Proof.
  apply Prim2SF_inj. now rewrite div_spec, !opp_spec, div_spec, SFdiv_opp.
Qed.

End MoreFloatFacts.

(** ** More of UnitConverter *)

Section MoreUnitConverter.

Import UnitConverter TableFacts.
Local Open Scope float_scope.
Local Open Scope string_scope.

Lemma names_checked : names_cover = true.
Proof. vm_compute. reflexivity. Qed.

Lemma zero_checked : zero_ok = true.
Proof. vm_compute. reflexivity. Qed.

Lemma is_code_spec (s : string) :
  is_code s = true <-> exists u, s = Spec.code u.
Proof.
  unfold is_code. split.
  - intros H. apply orb_prop in H as [H|H]; [apply orb_prop in H as [H|H]|];
      apply String.eqb_eq in H; subst;
      [now exists Spec.Celsius|now exists Spec.Fahrenheit|now exists Spec.Kelvin].
  - intros [[] ->]; reflexivity.
Qed.

Lemma scale_not_temperature (category : string) (units : dict factor)
  (u : string) (f : float) :
  In (category, units) CONVERSION_FACTORS ->
  dict_get units u = Some (Scale f) ->
  category <> "Температура".
Proof.
  intros Hin Hu ->. apply table_lookup in Hin. vm_compute in Hin.
  injection Hin as <-. cbn [dict_get] in Hu.
  repeat match type of Hu with
         | (if ?b then _ else _) = _ => destruct b
         end; discriminate.
Qed.

Lemma linear_result (now : datetime) (x : float)
  (category : string) (units : dict factor) (u v : string) :
  In (category, units) CONVERSION_FACTORS ->
  category <> "Температура" ->
  dict_in u units = true ->
  dict_in v units = true ->
  exists fu fv,
    dict_get units u = Some (Scale fu)
    /\ dict_get units v = Some (Scale fv)
    /\ convert now x u v =
       Returns {| amount := x; from_unit := u; to_unit := v;
                  result := x * fu / fv; timestamp := now; rate := None |}.
Proof.
  intros Hin Htemp Hu Hv.
  destruct (linear_factor _ _ _ Hin Htemp Hu) as (fu & Hfu & _).
  destruct (linear_factor _ _ _ Hin Htemp Hv) as (fv & Hfv & Hnz).
  exists fu, fv. repeat split; trivial.
  apply (convert_linear now x u v category units fu fv); trivial.
  - apply belongs_type. now exists units.
  - apply belongs_type. now exists units.
  - now destruct (table_item _ _ Hin).
  - now apply table_lookup.
Qed.

(** X1. The display names cover the factor table and nothing else: a code
    has an entry in [UNIT_NAMES] exactly when it is a unit of some
    category.  So [get_full_unit_name] answers from the name table for
    every unit of the table and gives any other code back unchanged. *)
Theorem every_unit_has_a_name (unit_code : string) :
  (Spec.known unit_code <-> dict_in unit_code UNIT_NAMES = true)
  /\ (Spec.known unit_code ->
      exists name, dict_get UNIT_NAMES unit_code = Some name
                   /\ get_full_unit_name unit_code = name)
  /\ (~ Spec.known unit_code -> get_full_unit_name unit_code = unit_code).
Proof.
  pose proof names_checked as H. unfold names_cover in H.
  apply andb_prop in H as [Hcov Horph].
  rewrite forallb_forall in Hcov, Horph.
  assert (Hto : Spec.known unit_code -> dict_in unit_code UNIT_NAMES = true).
  { intros (category & units & Hin & Hu).
    specialize (Hcov _ Hin). cbn [snd] in Hcov. rewrite forallb_forall in Hcov.
    destruct (dict_in_get _ _ Hu) as [f Hf]. apply dict_get_In in Hf.
    exact (Hcov _ Hf). }
  assert (Hfrom : dict_in unit_code UNIT_NAMES = true -> Spec.known unit_code).
  { intros Hn. destruct (dict_in_get _ _ Hn) as [name Hname].
    apply dict_get_In in Hname. specialize (Horph _ Hname). cbn [fst] in Horph.
    apply unknown_type_known. now destruct (get_unit_type unit_code). }
  split; [split; assumption|]. split.
  - intros Hk. destruct (dict_in_get _ _ (Hto Hk)) as [name Hname].
    exists name. split; [exact Hname|]. unfold get_full_unit_name. now rewrite Hname.
  - intros Hk. unfold get_full_unit_name.
    destruct (dict_get UNIT_NAMES unit_code) as [name|] eqn:E; [|reflexivity].
    exfalso. apply Hk, Hfrom. now apply (dict_get_in _ _ name).
Qed.

(** X2. No unit code occurs in two categories, so [get_unit_type] does not
    depend on the order of the table: it returns the one category that
    holds the unit, and [None] exactly for the codes of no category. *)
Theorem unit_category_unique (unit : string) :
  (forall c1 c2, Spec.belongs unit c1 -> Spec.belongs unit c2 -> c1 = c2)
  /\ (forall c, get_unit_type unit = Some c <-> Spec.belongs unit c)
  /\ (get_unit_type unit = None <-> ~ Spec.known unit).
Proof.
  split; [|split].
  - intros c1 c2 H1 H2. apply belongs_type in H1, H2. congruence.
  - intros c. symmetry. apply belongs_type.
  - symmetry. apply unknown_type.
Qed.

(** X3. Called on its own, [_convert_temperature] raises its
    [ValueError] for a source code that is not one of the three, whatever
    the target, and for such a target once the source is accepted.
    Through [convert] that error is never seen: a [ValueError] of
    [convert] carries the unknown-unit or the incompatible-units
    message. *)
Theorem temperature_errors (value : float) (from_unit to_unit : string) :
  (is_code from_unit = false ->
   _convert_temperature value from_unit to_unit =
   Raises (ValueError ("Неизвестная единица температуры: " ++ from_unit)))
  /\ (is_code from_unit = true -> is_code to_unit = false ->
      _convert_temperature value from_unit to_unit =
      Raises (ValueError ("Неизвестная единица температуры: " ++ to_unit)))
  /\ (forall now r, convert now value from_unit to_unit = Raises (ValueError r) ->
        r = unknown_unit_message from_unit to_unit
        \/ r = incompatible_message from_unit (get_unit_type from_unit)
                 to_unit (get_unit_type to_unit)).
Proof.
  split; [|split].
  - unfold is_code, _convert_temperature. intros H.
    apply orb_false_iff in H as [H H3]. apply orb_false_iff in H as [H1 H2].
    now rewrite H1, H2, H3.
  - intros Hf Ht. apply is_code_spec in Hf as [u ->].
    unfold is_code in Ht.
    apply orb_false_iff in Ht as [H H3]. apply orb_false_iff in H as [H1 H2].
    unfold _convert_temperature. rewrite H1, H2, H3.
    destruct u; reflexivity.
  - intros now r E. pose proof (convert_cases now value from_unit to_unit) as H.
    destruct (get_unit_type from_unit) as [cu|];
      [destruct (get_unit_type to_unit) as [cv|]; [destruct (cu =? cv)|]|].
    + destruct H as (r' & Hr & _). congruence.
    + right. congruence.
    + left. congruence.
    + left. congruence.
Qed.

(** X4. The factor of a unit is its size in base units, exactly: towards
    the base unit of its category (the unit of factor [1.0]) [convert]
    returns the single product [x * factor[u]], and from the base unit the
    single quotient [x / factor[u]], with no further rounding. *)
Theorem base_unit_conversions (now : datetime) (x : float)
  (category : string) (units : dict factor) (u base : string) :
  In (category, units) CONVERSION_FACTORS ->
  dict_get units base = Some (Scale 1) ->
  dict_in u units = true ->
  exists f,
    dict_get units u = Some (Scale f)
    /\ result_of (convert now x u base) = Some (x * f)
    /\ result_of (convert now x base u) = Some (x / f).
Proof.
  intros Hin Hbase Hu.
  pose proof (scale_not_temperature _ _ _ _ Hin Hbase) as Htemp.
  pose proof (dict_get_in _ _ _ Hbase) as Hb.
  destruct (linear_result now x category units u base Hin Htemp Hu Hb)
    as (f & one & Hf & Hone & E1).
  destruct (linear_result now x category units base u Hin Htemp Hb Hu)
    as (one' & f' & Hone' & Hf' & E2).
  assert (one = 1) by congruence. assert (one' = 1) by congruence.
  assert (f' = f) by congruence. subst.
  exists f. split; [exact Hf|]. rewrite E1, E2. cbn [result_of result].
  now rewrite FloatFacts.div_one, FloatFacts.mul_one.
Qed.

(** X5. In every category other than temperature, zero of any unit is
    zero of any other unit. *)
Theorem zero_converts_to_zero (now : datetime)
  (category : string) (units : dict factor) (u v : string) :
  In (category, units) CONVERSION_FACTORS ->
  category <> "Температура" ->
  dict_in u units = true ->
  dict_in v units = true ->
  result_of (convert now 0 u v) = Some 0.
Proof.
  intros Hin Htemp Hu Hv.
  destruct (linear_result now 0 category units u v Hin Htemp Hu Hv)
    as (fu & fv & Hfu & Hfv & E).
  rewrite E. cbn [result_of result].
  pose proof zero_checked as H. unfold zero_ok in H.
  rewrite forallb_forall in H. specialize (H _ Hin). cbn [snd] in H.
  rewrite forallb_forall in H.
  pose proof (H _ (dict_get_In _ _ _ Hfu)) as H1.
  pose proof (H _ (dict_get_In _ _ _ Hfv)) as H2.
  cbn [snd] in H1, H2.
  apply andb_prop in H1 as [H1 _]. apply andb_prop in H2 as [_ H2].
  apply FloatAxioms.Leibniz.eqb_spec in H1, H2. now rewrite H1, H2.
Qed.

(** X6. In every category other than temperature the conversion is odd:
    the result for [-x] is the negated result for [x], bit for bit, for
    every float [x]. *)
Theorem conversion_sign_symmetry (now : datetime) (x : float)
  (category : string) (units : dict factor) (u v : string) :
  In (category, units) CONVERSION_FACTORS ->
  category <> "Температура" ->
  dict_in u units = true ->
  dict_in v units = true ->
  result_of (convert now (- x) u v)
  = option_map PrimFloat.opp (result_of (convert now x u v)).
Proof.
  intros Hin Htemp Hu Hv.
  destruct (linear_result now x category units u v Hin Htemp Hu Hv)
    as (fu & fv & Hfu & Hfv & E).
  destruct (linear_result now (- x) category units u v Hin Htemp Hu Hv)
    as (fu' & fv' & Hfu' & Hfv' & E').
  assert (fu' = fu) by congruence. assert (fv' = fv) by congruence. subst.
  rewrite E, E'. cbn [result_of result option_map].
  now rewrite MoreFloatFacts.mul_opp, MoreFloatFacts.div_opp.
Qed.

End MoreUnitConverter.

(** ** More of CurrencyConverter.convert *)

Module MoreCurrencyFacts.
Import CurrencyConverter CurrencyFacts.
Local Open Scope float_scope.
Local Open Scope string_scope.

Section WithLibrary.
Context {lib : Library}.

(** The three-way computation raises no [ValueError]. *)
Lemma through_base_raises (c : converter) (f t : string) (amount : float) (e : exn) :
  through_base c f t amount = Raises e ->
  e = TypeError \/ e = ZeroDivisionError \/ exists k, e = KeyError k.
Proof.
  assert (Hsub : forall v k e', subscript v k = Raises e' ->
                   e' = TypeError \/ e' = ZeroDivisionError \/ exists k', e' = KeyError k').
  { intros v k e'. destruct v; cbn [subscript]; try (intros [= <-]; now left).
    unfold dict_getitem. destruct (dict_get members k); [discriminate|].
    intros [= <-]. right. right. now exists k. }
  assert (Hop : forall v e', operand v = Raises e' ->
                   e' = TypeError \/ e' = ZeroDivisionError \/ exists k', e' = KeyError k').
  { intros v e'. destruct v; cbn [operand]; try discriminate; intros [= <-]; now left. }
  assert (Hdiv : forall a b e', truediv a b = Raises e' ->
                   e' = TypeError \/ e' = ZeroDivisionError \/ exists k', e' = KeyError k').
  { intros a b e'. unfold truediv. destruct (b =? 0)%float; [|discriminate].
    intros [= <-]. right. now left. }
  unfold through_base.
  destruct (f =? base_currency c); [|destruct (t =? base_currency c)];
    repeat match goal with
      | |- bind ?m _ = _ -> _ =>
          let E := fresh "E" in
          destruct m eqn:E; cbn [bind];
          [|intros [= <-]; first [eapply Hsub; eassumption
                                 |eapply Hop; eassumption
                                 |eapply Hdiv; eassumption]]
      end; discriminate.
Qed.

Lemma messages_apart (available : list string) :
  not_loaded_message <> unknown_currency_message available.
Proof. unfold not_loaded_message, unknown_currency_message. simpl. discriminate. Qed.

End WithLibrary.
End MoreCurrencyFacts.

Section MoreCurrencyConverter.
Import CurrencyConverter CurrencyFacts MoreCurrencyFacts.
Local Open Scope float_scope.
Local Open Scope string_scope.
Context {lib : Library}.

Lemma keys_dict_in {A : Type} (d : dict A) (k : string) :
  In k (dict_keys d) <-> dict_in k d = true.
Proof.
  split; [|apply dict_in_keys].
  unfold dict_in. induction d as [|[k' v] rest IH]; cbn [dict_keys map In dict_get fst].
  - contradiction.
  - destruct (String.eqb_spec k' k) as [_|Hne]; [reflexivity|].
    intros [E|Hin]; [contradiction|]. now apply IH.
Qed.

(** [convert] on a dictionary of rates: the two guards, then the
    three-way computation. *)
Lemma convert_guards (c : converter) (now : datetime)
  (from_currency to_currency : string) (amount : float) (members : dict json) :
  rates c = JObject members ->
  convert c now from_currency to_currency amount =
  match members with
  | [] => Raises (ValueError not_loaded_message)
  | _ :: _ =>
      if dict_in (upper from_currency) members
         && dict_in (upper to_currency) members
      then
        bind (through_base c (upper from_currency) (upper to_currency) amount)
             (fun computed =>
                bind match snd computed with
                     | Some rate => Returns rate
                     | None => bind (subscript (rates c) (upper to_currency)) operand
                     end
                     (fun rate =>
                        Returns {| amount := amount;
                                   from_unit := upper from_currency;
                                   to_unit := upper to_currency;
                                   result := fst computed; timestamp := now;
                                   rate := Some rate |}))
      else Raises (ValueError (unknown_currency_message
                                 (firstn 20 (dict_keys members))))
  end.
Proof.
  intros Hr. unfold convert. rewrite Hr.
  destruct members as [|entry rest]; [reflexivity|].
  cbn [truthy negb contains bind keys].
  destruct (dict_in (upper from_currency) (entry :: rest)); cbn [negb bind andb];
    [|reflexivity].
  destruct (dict_in (upper to_currency) (entry :: rest)); cbn [negb bind];
    [|reflexivity].
  rewrite <- Hr.
  destruct (through_base c (upper from_currency) (upper to_currency) amount)
    as [[result rate]|e]; reflexivity.
Qed.

(** X7. With a dictionary of rates, [get_available_currencies] lists its
    keys, and the two guards of [convert] are its only [ValueError]s: the
    not-loaded message exactly when the dictionary is empty, the
    unknown-currency message (which lists the first twenty keys) exactly
    when it is not empty and an uppercased code is not among the keys. *)
Theorem currency_errors (c : converter) (now : datetime)
  (from_currency to_currency : string) (amount : float) (members : dict json) :
  rates c = JObject members ->
  get_available_currencies c = Returns (dict_keys members)
  /\ (convert c now from_currency to_currency amount
      = Raises (ValueError not_loaded_message) <-> members = [])
  /\ (convert c now from_currency to_currency amount
      = Raises (ValueError (unknown_currency_message
                              (firstn 20 (dict_keys members))))
      <-> members <> []
          /\ (~ In (upper from_currency) (dict_keys members)
              \/ ~ In (upper to_currency) (dict_keys members)))
  /\ (forall msg, convert c now from_currency to_currency amount
                  = Raises (ValueError msg) ->
        msg = not_loaded_message
        \/ msg = unknown_currency_message (firstn 20 (dict_keys members))).
Proof.
  intros Hr.
  pose proof (convert_guards c now from_currency to_currency amount members Hr) as E.
  assert (Hno : forall msg,
             bind (through_base c (upper from_currency) (upper to_currency) amount)
               (fun computed =>
                  bind match snd computed with
                       | Some rate => Returns rate
                       | None => bind (subscript (rates c) (upper to_currency)) operand
                       end
                       (fun rate =>
                          Returns {| amount := amount;
                                     from_unit := upper from_currency;
                                     to_unit := upper to_currency;
                                     result := fst computed; timestamp := now;
                                     rate := Some rate |}))
             <> Raises (ValueError msg)).
  { intros msg.
    destruct (through_base c (upper from_currency) (upper to_currency) amount)
      as [computed|e] eqn:Et; cbn [bind].
    - pose proof (through_base_binds_rate _ _ _ _ _ Et) as Hb.
      destruct (snd computed); [discriminate|contradiction].
    - apply through_base_raises in Et as [->|[->|[k ->]]]; discriminate. }
  split; [unfold get_available_currencies; now rewrite Hr|].
  destruct members as [|entry rest].
  - split; [split; [reflexivity|intros _; exact E]|].
    split.
    + split; [|intros [H _]; now elim H].
      intros E'. exfalso. apply (messages_apart (firstn 20 (@dict_keys json []))).
      congruence.
    + intros msg E'. rewrite E in E'. injection E' as <-. now left.
  - destruct (dict_in (upper from_currency) (entry :: rest)) eqn:Hf;
      [destruct (dict_in (upper to_currency) (entry :: rest)) eqn:Ht|];
      cbn [andb] in E.
    + split; [split; [intros E'; now elim (Hno not_loaded_message); rewrite <- E
                     |discriminate]|].
      split.
      * split.
        -- intros E'. exfalso. eapply Hno. rewrite <- E. exact E'.
        -- intros [_ [H|H]]; elim H; now apply keys_dict_in.
      * intros msg E'. exfalso. eapply Hno. rewrite <- E. exact E'.
    + split; [split; [|discriminate]|].
      * intros E'. exfalso.
        apply (messages_apart (firstn 20 (dict_keys (entry :: rest)))). congruence.
      * split.
        -- split; [|intros _; exact E].
           intros _. split; [discriminate|]. right. intros H.
           apply keys_dict_in in H. congruence.
        -- intros msg E'. right. congruence.
    + split; [split; [|discriminate]|].
      * intros E'. exfalso.
        apply (messages_apart (firstn 20 (dict_keys (entry :: rest)))). congruence.
      * split.
        -- split; [|intros _; exact E].
           intros _. split; [discriminate|]. left. intros H.
           apply keys_dict_in in H. congruence.
        -- intros msg E'. right. congruence.
Qed.

(** X8. With numeric rates for both codes, [convert] returns exactly when
    the source is the base currency, or its rate is not zero and either the
    target is the base currency or the amount is not zero; in every other
    case it raises [ZeroDivisionError]. *)
Theorem currency_success_criterion (c : converter) (now : datetime)
  (from_currency to_currency : string) (amount : float)
  (members : dict json) (rf rt : float) :
  rates c = JObject members ->
  dict_get members (upper from_currency) = Some (JNumber rf) ->
  dict_get members (upper to_currency) = Some (JNumber rt) ->
  if (upper from_currency =? base_currency c)
     || (negb (rf =? 0)%float
         && ((upper to_currency =? base_currency c) || negb (amount =? 0)%float))
  then exists r, convert c now from_currency to_currency amount = Returns r
  else convert c now from_currency to_currency amount = Raises ZeroDivisionError.
Proof.
  intros Hr Hf Ht.
  rewrite (convert_present c now from_currency to_currency amount members
             _ _ Hr Hf Ht).
  destruct (String.eqb_spec (upper from_currency) (base_currency c)) as [Hb|Hnb];
    cbn [orb].
  - rewrite (from_base c members _ _ rt Hr Ht amount Hb). cbn [bind snd].
    now eexists.
  - destruct (rf =? 0)%float eqn:Hz; cbn [negb andb].
    + unfold through_base. apply String.eqb_neq in Hnb. rewrite Hnb.
      rewrite (lookup_from c members _ rf Hr Hf). cbn [bind operand].
      unfold truediv. rewrite Hz.
      now destruct (upper to_currency =? base_currency c).
    + destruct (String.eqb_spec (upper to_currency) (base_currency c)) as [Htb|Hntb];
        cbn [orb].
      * rewrite (to_base c members _ _ rf Hr Hf amount Hnb Htb Hz).
        cbn [bind snd]. now eexists.
      * destruct (amount =? 0)%float eqn:Ha; cbn [negb].
        -- now rewrite (across_zero c members _ _ rf rt Hr Hf Ht amount
                          Hnb Hntb Hz Ha).
        -- rewrite (across c members _ _ rf rt Hr Hf Ht amount Hnb Hntb Hz Ha).
           cbn [bind snd]. now eexists.
Qed.

(** X9. From the base currency to a currency whose rate is [1.0] (to
    itself, when the table maps the base to [1.0]) the amount comes back
    unchanged, for every float, with the rate [1.0]. *)
Theorem unit_rate_identity (c : converter) (now : datetime)
  (from_currency to_currency : string) (amount : float) (members : dict json) :
  rates c = JObject members ->
  upper from_currency = base_currency c ->
  In (upper from_currency) (dict_keys members) ->
  dict_get members (upper to_currency) = Some (JNumber 1) ->
  convert c now from_currency to_currency amount =
  Returns {| amount := amount; from_unit := upper from_currency;
             to_unit := upper to_currency; result := amount;
             timestamp := now; rate := Some 1 |}.
Proof.
  intros Hr Hb Hin Ht. apply keys_dict_in in Hin.
  destruct (dict_in_get _ _ Hin) as [vf Hf].
  rewrite (convert_present c now from_currency to_currency amount members
             _ _ Hr Hf Ht).
  rewrite (from_base c members _ _ 1 Hr Ht amount Hb). cbn [bind snd fst].
  now rewrite FloatFacts.mul_one.
Qed.

End MoreCurrencyConverter.

(** ** More of the rate cache and the remote fetch *)

Module MoreCacheFacts.
Import CurrencyConverter CacheFacts.
Local Open Scope string_scope.

Section WithLibrary.
Context {lib : Library}.

Lemma save_outcome (s : state) :
  let t := clock (world s) (ticks (world s)) in
  exists s', _save_to_cache s = (Returns tt, s')
             /\ self s' = self s
             /\ ticks (world s') = S (ticks (world s))
             /\ clock (world s') = clock (world s)
             /\ network (world s') = network (world s)
             /\ requests (world s') = requests (world s)
             /\ writable (world s') = writable (world s)
             /\ (if writable (world s)
                 then cache (world s') = Present (Some (saved_record (self s) t))
                      /\ stdout (world s') = stdout (world s)
                 else cache (world s') = cache (world s)
                      /\ stdout (world s')
                         = ("Ошибка при сохранении в кэш: ", OSError) :: stdout (world s)).
Proof.
  destruct s as [c w]. destruct w as [file wr clk n net reqs out].
  cbn [world self clock ticks]. run. destruct wr; run; eexists; repeat split; reflexivity.
Qed.

Lemma load_unusable_ticks (s : state) :
  (forall cached t, ~ Spec.usable (world s) cached t) ->
  exists s', _load_from_cache s = (Returns false, s')
             /\ self s' = self s
             /\ Spec.same_files_and_network (world s) (world s')
             /\ (ticks (world s') = ticks (world s)
                 \/ ticks (world s') = S (ticks (world s))).
Proof.
  intros Hno.
  destruct s as [c w]. cbn [world self] in *.
  destruct w as [file wr clk n net reqs out].
  assert (Hno' : forall data cached t stamp,
             file = Present (Some data) ->
             subscript data "timestamp" = Returns (JString stamp) ->
             fromisoformat stamp = Returns (Naive t) ->
             (clk n - t <? hours CACHE_DURATION_HOURS)%Z = true ->
             subscript data "rates" = Returns cached -> False).
  { intros data cached t stamp Hc Hs Hp Hf Hr. apply (Hno cached t).
    exists data. repeat split; trivial.
    - now exists stamp.
    - unfold Spec.fresh. cbn [clock ticks]. now apply Z.ltb_lt. }
  clear Hno. unfold Spec.same_files_and_network.
  assert (L : forall P Q : Prop, P -> P \/ Q) by tauto.
  assert (R : forall P Q : Prop, Q -> P \/ Q) by tauto.
  destruct file as [|[data|]]; run;
    try (eexists; repeat split; first [apply L; reflexivity|apply R; reflexivity|reflexivity]).
  destruct (subscript data "timestamp") as [stamp|e] eqn:Hs;
    [|eexists; repeat split; first [apply L; reflexivity|reflexivity]].
  destruct stamp as [| | |stamp| |]; cbn [parse_timestamp];
    try (eexists; repeat split; first [apply L; reflexivity|reflexivity]).
  destruct (fromisoformat stamp) as [[t|t o]|e] eqn:Hp; run;
    cbn [datetime_sub];
    try (eexists; repeat split; first [apply L; reflexivity|apply R; reflexivity|reflexivity]).
  destruct (clk n - t <? hours CACHE_DURATION_HOURS)%Z eqn:Hf;
    [|eexists; repeat split; first [apply R; reflexivity|reflexivity]].
  destruct (subscript data "rates") as [cached|e] eqn:Hr;
    [|eexists; repeat split; first [apply R; reflexivity|reflexivity]].
  exfalso. exact (Hno' data cached t stamp eq_refl Hs Hp Hf Hr).
Qed.

Lemma subscript_raises (v : json) (k : string) (e : exn) :
  subscript v k = Raises e -> e = TypeError \/ e = KeyError k.
Proof.
  destruct v; cbn [subscript]; try (intros [= <-]; now left).
  unfold dict_getitem. destruct (dict_get members k); [discriminate|].
  intros [= <-]. now right.
Qed.

(** The remote attempt on a good answer. *)
Lemma remote_success (s : state) (status : Z) (data v fetched : json) :
  network (world s) (api_url (self s)) = Response status (Some data) ->
  ((400 <=? status) && (status <? 600))%Z = false ->
  subscript data "result" = Returns v ->
  equals_str v "success" = true ->
  subscript data "conversion_rates" = Returns fetched ->
  let n := ticks (world s) in
  exists s',
    try fetch_body fetch_catches (fun _ => ret false) s = (Returns true, s')
    /\ self s' = Spec.adopt (self s) fetched (clock (world s) n)
    /\ requests (world s') = api_url (self s) :: requests (world s)
    /\ ticks (world s') = S (S n)
    /\ clock (world s') = clock (world s)
    /\ network (world s') = network (world s)
    /\ writable (world s') = writable (world s)
    /\ (if writable (world s)
        then cache (world s')
             = Present (Some (saved_record (Spec.adopt (self s) fetched
                                              (clock (world s) n))
                                           (clock (world s) (S n))))
             /\ stdout (world s') = stdout (world s)
        else cache (world s') = cache (world s)
             /\ stdout (world s')
                = ("Ошибка при сохранении в кэш: ", OSError) :: stdout (world s)).
Proof.
  destruct s as [c w]. destruct w as [file wr clk n net reqs out].
  cbn [world self network ticks clock writable cache requests stdout].
  intros Hnet Hstatus Hres Hsucc Hrates. run.
  rewrite Hnet. run. rewrite Hstatus. run. rewrite Hres. run. rewrite Hsucc.
  rewrite Hrates. run.
  destruct wr; run; eexists; repeat split; reflexivity.
Qed.

(** The remote attempt, whatever comes back. *)
Lemma remote_cases (s : state) (o : outcome bool) (s' : state) :
  try fetch_body fetch_catches (fun _ => ret false) s = (o, s') ->
  same_identity (self s) (self s')
  /\ ((o = Returns false /\ self s' = self s)
      \/ (exists e, o = Raises e /\ self s' = self s
                    /\ (e = TypeError \/ e = KeyError "result"
                        \/ e = KeyError "conversion_rates"))
      \/ (o = Returns true
          /\ exists fetched,
               self s' = Spec.adopt (self s) fetched
                           (clock (world s) (ticks (world s))))).
Proof.
  unfold same_identity.
  destruct s as [c w]. destruct w as [file wr clk n net reqs out]. run.
  destruct (net (api_url c)) as [|status body]; run;
    [intros [= <- <-]; split; [now repeat split|left; now split]|].
  destruct ((400 <=? status) && (status <? 600))%Z; run;
    [intros [= <- <-]; split; [now repeat split|left; now split]|].
  destruct body as [data|]; run;
    [|intros [= <- <-]; split; [now repeat split|left; now split]].
  destruct (subscript data "result") as [status'|e] eqn:Hres; run.
  - destruct (equals_str status' "success"); run;
      [|intros [= <- <-]; split; [now repeat split|left; now split]].
    destruct (subscript data "conversion_rates") as [fetched|e] eqn:Hrates; run.
    + destruct wr; run; intros [= <- <-]; (split; [now repeat split|]);
        right; right; (split; [reflexivity|]); exists fetched; reflexivity.
    + rewrite (subscript_uncaught _ _ _ Hrates). intros [= <- <-].
      split; [now repeat split|]. right. left. exists e.
      split; [reflexivity|]. split; [reflexivity|].
      apply subscript_raises in Hrates as [->| ->]; tauto.
  - rewrite (subscript_uncaught _ _ _ Hres). intros [= <- <-].
    split; [now repeat split|]. right. left. exists e.
    split; [reflexivity|]. split; [reflexivity|].
    apply subscript_raises in Hres as [->| ->]; tauto.
Qed.

End WithLibrary.
End MoreCacheFacts.

Section MoreCacheProperties.
Import CurrencyConverter CacheFacts MoreCacheFacts.
Local Open Scope string_scope.
Context {lib : Library}.

Lemma fetch_success_state (s : state) (status : Z) (data v fetched : json) :
  (forall cached t, ~ Spec.usable (world s) cached t) ->
  network (world s) (api_url (self s)) = Response status (Some data) ->
  ((400 <=? status) && (status <? 600))%Z = false ->
  subscript data "result" = Returns v ->
  equals_str v "success" = true ->
  subscript data "conversion_rates" = Returns fetched ->
  exists s' n,
    fetch_rates s = (Returns true, s')
    /\ (n = ticks (world s) \/ n = S (ticks (world s)))
    /\ self s' = Spec.adopt (self s) fetched (clock (world s) n)
    /\ requests (world s') = api_url (self s) :: requests (world s)
    /\ ticks (world s') = S (S n)
    /\ clock (world s') = clock (world s)
    /\ (if writable (world s)
        then cache (world s')
             = Present (Some (saved_record (Spec.adopt (self s) fetched
                                              (clock (world s) n))
                                           (clock (world s) (S n))))
        else cache (world s') = cache (world s)).
Proof.
  intros Hno Hnet Hstatus Hres Hsucc Hrates.
  destruct (load_unusable_ticks s Hno)
    as (s1 & E & Hself & (Hc & Hw & Hclk & Hn & Hreq) & Hticks).
  rewrite <- Hself, <- Hn in Hnet.
  destruct (remote_success s1 status data v fetched Hnet Hstatus Hres Hsucc Hrates)
    as (s' & E' & Hs' & Hreq' & Ht' & Hclk' & _ & _ & Hcache).
  exists s', (ticks (world s1)).
  unfold fetch_rates, mbind. rewrite E. split; [exact E'|].
  split; [exact Hticks|]. rewrite Hself, Hclk, Hreq in *.
  split; [exact Hs'|]. split; [exact Hreq'|]. split; [exact Ht'|].
  split; [exact Hclk'|].
  rewrite Hw in Hcache. destruct (writable (world s)).
  - now destruct Hcache.
  - destruct Hcache as [Hcache _]. now rewrite Hcache.
Qed.


(** X11. Whatever the cache and the source hold, [fetch_rates] never
    changes the key, the base currency or the URL of the converter; it
    changes rates and [last_update] only when it returns [True]; and the
    only exceptions it lets out are [TypeError] and [KeyError] on [result]
    or [conversion_rates]. *)
Theorem fetch_atomic (s : state) (o : outcome bool) (s' : state) :
  fetch_rates s = (o, s') ->
  same_identity (self s) (self s')
  /\ (o = Returns true \/ self s' = self s)
  /\ (forall e, o = Raises e ->
        e = TypeError \/ e = KeyError "result" \/ e = KeyError "conversion_rates").
Proof.
  intros E. destruct (usable_or_not (world s)) as [(cached & t & Hu)|Hno].
  - rewrite (fetch_usable s cached t Hu) in E. injection E as <- <-.
    split; [now repeat split|]. split; [now left|discriminate].
  - destruct (load_unusable s Hno) as (s1 & E1 & Hself & _).
    unfold fetch_rates, mbind in E. rewrite E1 in E.
    apply remote_cases in E as [Hid H]. rewrite Hself in *.
    split; [exact Hid|].
    destruct H as [[-> Hs]|[(e & -> & Hs & He)|[-> _]]].
    + split; [now right|discriminate].
    + split; [now right|]. now intros e' [= <-].
    + split; [now left|discriminate].
Qed.

(** X12. What [_save_to_cache] writes, [_load_from_cache] reads back: when
    the file can be written, the library reads its own timestamp format and
    the next reading of the clock is less than 24 hours later, any
    converter that loads the cache adopts exactly the saved rates, with the
    time of saving as [last_update].  Saving itself returns and leaves the
    converter as it was. *)
Theorem save_load_round_trip (s : state) (c2 : converter) :
  let t := clock (world s) (ticks (world s)) in
  writable (world s) = true ->
  fromisoformat (isoformat (Naive t)) = Returns (Naive t) ->
  (clock (world s) (S (ticks (world s))) - t < hours CACHE_DURATION_HOURS)%Z ->
  exists s1,
    _save_to_cache s = (Returns tt, s1)
    /\ self s1 = self s
    /\ _load_from_cache {| self := c2; world := world s1 |}
       = (Returns true,
          {| self := Spec.adopt c2 (rates (self s)) t; world := tick (world s1) |}).
Proof.
  intros t Hw Hiso Hfresh.
  destruct (save_outcome s) as (s1 & E & Hself & Hticks & Hclk & _ & _ & _ & Hcache).
  rewrite Hw in Hcache. destruct Hcache as [Hcache _].
  exists s1. split; [exact E|]. split; [exact Hself|].
  apply (load_usable {| self := c2; world := world s1 |}). cbn [world].
  exists (saved_record (self s) t). split; [exact Hcache|]. split.
  - exists (isoformat (Naive t)). repeat split; trivial.
  - unfold Spec.fresh. now rewrite Hclk, Hticks.
Qed.

(** X13. After a successful fetch a second [fetch_rates] is served by the
    cache and contacts nobody, provided the cache could be written, the
    library reads its own timestamps and successive readings of the clock
    are less than 24 hours apart.  The rates stay the fetched ones, while
    [last_update] moves from the time of the fetch to the time the cache
    was written. *)
Theorem second_fetch_uses_cache (s : state) (status : Z)
  (data v fetched : json) :
  (forall cached t, ~ Spec.usable (world s) cached t) ->
  network (world s) (api_url (self s)) = Response status (Some data) ->
  ((400 <=? status) && (status <? 600))%Z = false ->
  subscript data "result" = Returns v ->
  equals_str v "success" = true ->
  subscript data "conversion_rates" = Returns fetched ->
  writable (world s) = true ->
  (forall k, fromisoformat (isoformat (Naive (clock (world s) k)))
             = Returns (Naive (clock (world s) k))) ->
  (forall k, (clock (world s) (S k) - clock (world s) k
              < hours CACHE_DURATION_HOURS)%Z) ->
  exists s' s'' n,
    fetch_rates s = (Returns true, s')
    /\ fetch_rates s' = (Returns true, s'')
    /\ requests (world s'') = requests (world s')
    /\ requests (world s') = api_url (self s) :: requests (world s)
    /\ rates (self s'') = fetched
    /\ last_update (self s') = Some (Naive (clock (world s) n))
    /\ last_update (self s'') = Some (Naive (clock (world s) (S n))).
Proof.
  intros Hno Hnet Hstatus Hres Hsucc Hrates Hw Hiso Hfresh.
  destruct (fetch_success_state s status data v fetched
              Hno Hnet Hstatus Hres Hsucc Hrates)
    as (s' & n & E & Hn & Hs & Hreq & Hticks & Hclk & Hcache).
  rewrite Hw in Hcache.
  assert (Hu : Spec.usable (world s') fetched (clock (world s) (S n))).
  { eexists. split; [exact Hcache|]. split.
    - exists (isoformat (Naive (clock (world s) (S n)))).
      split; [reflexivity|]. split; [apply Hiso|reflexivity].
    - unfold Spec.fresh. rewrite Hclk, Hticks. apply Hfresh. }
  exists s', {| self := Spec.adopt (self s') fetched (clock (world s) (S n));
                world := tick (world s') |}, n.
  split; [exact E|]. split; [exact (fetch_usable s' _ _ Hu)|].
  rewrite Hs. repeat split; trivial.
Qed.

End MoreCacheProperties.


(** ** The further properties at concrete inputs *)

Section MoreInstances.

Import CurrencyConverter.
Local Open Scope float_scope.
Local Open Scope string_scope.

Lemma base_unit_conversions_witness :
  exists f,
    dict_get Examples.length_units "км" = Some (UnitConverter.Scale f)
    /\ result_of (UnitConverter.convert (Naive 0) 5 "км" "м") = Some (5 * f)
    /\ result_of (UnitConverter.convert (Naive 0) 5 "м" "км") = Some (5 / f).
Proof.
  apply (base_unit_conversions (Naive 0) 5 "Длина" Examples.length_units
           "км" "м");
    [left; reflexivity|reflexivity|reflexivity].
Defined.

Lemma zero_converts_to_zero_witness :
  result_of (UnitConverter.convert (Naive 0) 0 "фут" "миля") = Some 0.
Proof.
  apply (zero_converts_to_zero (Naive 0) "Длина" Examples.length_units
           "фут" "миля");
    [left; reflexivity|discriminate|reflexivity|reflexivity].
Defined.

Lemma conversion_sign_symmetry_witness :
  result_of (UnitConverter.convert (Naive 0) (- 3) "дюйм" "фут")
  = option_map PrimFloat.opp
      (result_of (UnitConverter.convert (Naive 0) 3 "дюйм" "фут")).
Proof.
  apply (conversion_sign_symmetry (Naive 0) 3 "Длина" Examples.length_units
           "дюйм" "фут");
    [left; reflexivity|discriminate|reflexivity|reflexivity].
Defined.

Lemma currency_errors_witness :
  convert (lib := Examples.library) Examples.demo (Naive 0) "usd" "xau" 100
  = Raises (ValueError
              (unknown_currency_message
                 (firstn 20 (dict_keys Examples.demo_rates)))).
Proof.
  apply (proj1 (proj2 (proj2
           (currency_errors (lib := Examples.library) Examples.demo (Naive 0)
              "usd" "xau" 100 Examples.demo_rates eq_refl)))).
  split; [discriminate|]. right. cbn.
  intros H. repeat (destruct H as [H|H]; [discriminate H|]). exact H.
Defined.

Lemma currency_success_criterion_witness :
  (exists r, convert (lib := Examples.library) Examples.demo (Naive 0)
               "usd" "eur" 100 = Returns r)
  /\ convert (lib := Examples.library) Examples.demo (Naive 0) "usd" "eur" 0
     = Raises ZeroDivisionError.
Proof.
  split.
  - exact (currency_success_criterion (lib := Examples.library) Examples.demo
             (Naive 0) "usd" "eur" 100 Examples.demo_rates 0.011 0.010
             eq_refl eq_refl eq_refl).
  - exact (currency_success_criterion (lib := Examples.library) Examples.demo
             (Naive 0) "usd" "eur" 0 Examples.demo_rates 0.011 0.010
             eq_refl eq_refl eq_refl).
Defined.

Lemma unit_rate_identity_witness :
  convert (lib := Examples.library) Examples.demo (Naive 0) "rub" "rub" 0.1
  = Returns {| amount := 0.1; from_unit := "RUB"; to_unit := "RUB";
               result := 0.1; timestamp := Naive 0; rate := Some 1 |}.
Proof.
  apply (unit_rate_identity (lib := Examples.library) Examples.demo (Naive 0)
           "rub" "rub" 0.1 Examples.demo_rates);
    [reflexivity|reflexivity| |reflexivity].
  cbn. tauto.
Defined.


Lemma fetch_atomic_witness :
  let s := Examples.uncached Unreachable in
  let o := fst (fetch_rates (lib := Examples.library) s) in
  let s' := snd (fetch_rates (lib := Examples.library) s) in
  same_identity (self s) (self s')
  /\ (o = Returns true \/ self s' = self s)
  /\ (forall e, o = Raises e ->
        e = TypeError \/ e = KeyError "result"
        \/ e = KeyError "conversion_rates").
Proof.
  apply (fetch_atomic (lib := Examples.library) (Examples.uncached Unreachable)).
  reflexivity.
Defined.

Lemma save_load_round_trip_witness :
  exists s1,
    _save_to_cache (lib := Examples.library) MoreExamples.offline
    = (Returns tt, s1)
    /\ self s1 = Examples.demo
    /\ _load_from_cache (lib := Examples.library)
         {| self := Examples.blank; world := world s1 |}
       = (Returns true,
          {| self := Spec.adopt Examples.blank (JObject Examples.demo_rates)
                       (hours 58);
             world := tick (world s1) |}).
Proof.
  apply (save_load_round_trip (lib := Examples.library) MoreExamples.offline
           Examples.blank);
    reflexivity.
Defined.

Lemma second_fetch_uses_cache_witness :
  exists s' s'' (n : nat),
    fetch_rates (lib := Examples.library) MoreExamples.answered
    = (Returns true, s')
    /\ fetch_rates (lib := Examples.library) s' = (Returns true, s'')
    /\ requests (world s'') = requests (world s')
    /\ requests (world s') = [api_url Examples.blank]
    /\ rates (self s'') = JObject Examples.demo_rates
    /\ last_update (self s') = Some (Naive (hours 58))
    /\ last_update (self s'') = Some (Naive (hours 58)).
Proof.
  apply (second_fetch_uses_cache (lib := Examples.library) MoreExamples.answered
           200 MoreExamples.payload (JString "success")
           (JObject Examples.demo_rates));
    [|reflexivity|reflexivity|reflexivity|reflexivity|reflexivity|reflexivity
     |intros k; reflexivity|intros k; reflexivity].
  intros cached t (data & Hc & _). discriminate Hc.
Defined.

End MoreInstances.


(** * The window *)

(** ** Writing into dictionaries *)

Lemma dict_get_set {A : Type} (d : dict A) (k : string) (v : A) :
  dict_get (dict_set d k v) k = Some v.
Proof.
  induction d as [|[k' v'] rest IH]; cbn [dict_set dict_get].
  - now rewrite String.eqb_refl.
  - destruct (String.eqb_spec k' k) as [->|Hne]; cbn [dict_get].
    + now rewrite String.eqb_refl.
    + apply String.eqb_neq in Hne. now rewrite Hne.
Qed.

Lemma dict_get_set_other {A : Type} (d : dict A) (k k' : string) (v : A) :
  k <> k' -> dict_get (dict_set d k v) k' = dict_get d k'.
Proof.
  intros Hne. induction d as [|[k0 v0] rest IH]; cbn [dict_set dict_get].
  - apply String.eqb_neq in Hne. now rewrite Hne.
  - destruct (String.eqb_spec k0 k) as [->|Hk]; cbn [dict_get].
    + apply String.eqb_neq in Hne. now rewrite Hne.
    + destruct (k0 =? k'); [reflexivity|exact IH].
Qed.

Lemma dict_set_twice {A : Type} (d : dict A) (k : string) (v v' : A) :
  dict_set (dict_set d k v) k v' = dict_set d k v'.
Proof.
  induction d as [|[k0 v0] rest IH]; cbn [dict_set].
  - now rewrite String.eqb_refl.
  - destruct (String.eqb_spec k0 k) as [->|Hk]; cbn [dict_set].
    + now rewrite String.eqb_refl.
    + apply String.eqb_neq in Hk. now rewrite Hk, IH.
Qed.

(** ** The handlers, step by step *)

Module GuiFacts.
Import ConverterGUI.
Local Open Scope string_scope.

(** Runs a handler as far as its inputs are known. *)
Ltac grun :=
  cbv beta iota zeta delta
    [gbind ret lift try on_converter get set set_values get_history
     set_history set_history_text insert_end show after
     currency_converter history texts choices history_text dialogs queue].

Section WithLibrary.
Context {lib : Library} {fmt : Formatting}.

Lemma insert_lines_spec (i : Z) (convs : list ConversionResult) (g : gui) :
  insert_lines i convs g =
  (Returns tt,
   {| currency_converter := currency_converter g; history := history g;
      texts := texts g; choices := choices g;
      history_text := (history_text g ++ numbered i convs)%list;
      dialogs := dialogs g; queue := queue g |}).
Proof.
  revert i g. induction convs as [|conv rest IH]; intros i g;
    cbn [insert_lines numbered].
  - unfold ret. rewrite app_nil_r. now destruct g.
  - unfold gbind, insert_end. rewrite IH. cbn [currency_converter history texts
      choices history_text dialogs queue]. now rewrite <- app_assoc.
Qed.

Lemma update_history_spec (g : gui) :
  update_history g =
  (Returns tt,
   {| currency_converter := currency_converter g; history := history g;
      texts := dict_set (texts g) "history_info"
                 (history_count (length (history g)));
      choices := choices g;
      history_text := numbered 1 (rev (history g));
      dialogs := dialogs g; queue := queue g |}).
Proof.
  destruct g as [cc h t ch ht d q]. unfold update_history. grun.
  destruct h as [|conv rest]; [reflexivity|].
  grun. rewrite insert_lines_spec. reflexivity.
Qed.

Lemma numbered_length (i : Z) (convs : list ConversionResult) :
  length (numbered i convs) = length convs.
Proof.
  revert i. induction convs as [|conv rest IH]; intros i; cbn; [reflexivity|].
  now rewrite IH.
Qed.

Lemma numbered_nth (i : Z) (convs : list ConversionResult) (k : nat) :
  nth_error (numbered i convs) k
  = option_map (history_line (i + Z.of_nat k)) (nth_error convs k).
Proof.
  revert i k. induction convs as [|conv rest IH]; intros i k.
  - now destruct k.
  - destruct k as [|k]; cbn [numbered nth_error option_map].
    + now rewrite Z.add_0_r.
    + rewrite IH. replace (i + 1 + Z.of_nat k)%Z with (i + Z.of_nat (S k))%Z by lia.
      reflexivity.
Qed.

(** [update_history] once a conversion was appended. *)
Lemma update_history_appended (s : CurrencyConverter.state)
  (h : list ConversionResult) (r : ConversionResult) (t : dict string)
  (ch : dict (list string)) (ht : list string) (d : list dialog)
  (q : list callback) :
  update_history
    {| currency_converter := s; history := (h ++ [r])%list; texts := t;
       choices := ch; history_text := ht; dialogs := d; queue := q |}
  = (Returns tt,
     {| currency_converter := s; history := (h ++ [r])%list;
        texts := dict_set t "history_info" (history_count (S (length h)));
        choices := ch;
        history_text := history_line 1 r :: numbered 2 (rev h);
        dialogs := d; queue := q |}).
Proof.
  rewrite update_history_spec.
  cbn [currency_converter history texts choices history_text dialogs queue].
  rewrite rev_unit, length_app. cbn [length numbered]. now rewrite Nat.add_1_r.
Qed.

(** [convert_currency] when the amount is a number and the converter
    returns: the window afterwards, [labels] being the texts with the result
    and, for a rate that is not zero, the rate written. *)
Lemma convert_currency_returns (g : gui) (entered : float) (r : ConversionResult) :
  let s := currency_converter g in
  let w := CurrencyConverter.world s in
  float_of_str (text_of g "amount_var") = inl entered ->
  CurrencyConverter.convert (CurrencyConverter.self s) (Naive (clock w (ticks w)))
    (upper (text_of g "from_currency")) (upper (text_of g "to_currency")) entered
  = Returns r ->
  exists labels,
    convert_currency g
    = (Returns tt,
       {| currency_converter := ticked s; history := (history g ++ [r])%list;
          texts := dict_set labels "history_info"
                     (history_count (S (length (history g))));
          choices := choices g;
          history_text := history_line 1 r :: numbered 2 (rev (history g));
          dialogs := dialogs g; queue := queue g |})
    /\ (rate_truthy (rate r) = false ->
        dict_get labels "rate_label" = dict_get (texts g) "rate_label").
Proof.
  destruct g as [cc h t ch ht d q]. cbn [currency_converter history texts
    choices dialogs queue]. intros Hf Hc.
  unfold convert_currency. grun. unfold to_float. rewrite Hf. grun.
  unfold currency_convert. grun. rewrite Hc. grun. change (snd (CurrencyConverter.now cc)) with (ticked cc).
  destruct (rate r) as [x|] eqn:Hr.
  - unfold rate_truthy. destruct (x =? 0)%float eqn:Hx; cbn [negb].
    + grun. rewrite update_history_appended. eexists. split; [reflexivity|].
      intros _. now rewrite dict_get_set_other by discriminate.
    + unfold truediv. rewrite Hx. grun. rewrite update_history_appended.
      eexists. split; [reflexivity|discriminate].
  - grun. rewrite update_history_appended. eexists. split; [reflexivity|].
    intros _. now rewrite dict_get_set_other by discriminate.
Qed.

(** [convert_units] when the amount is a number and the converter returns. *)
Lemma convert_units_returns (g : gui) (entered : float) (r : ConversionResult) :
  let s := currency_converter g in
  let w := CurrencyConverter.world s in
  float_of_str (text_of g "unit_amount_var") = inl entered ->
  UnitConverter.convert (Naive (clock w (ticks w))) entered
    (text_of g "from_unit") (text_of g "to_unit") = Returns r ->
  exists labels,
    convert_units g
    = (Returns tt,
       {| currency_converter := ticked s; history := (history g ++ [r])%list;
          texts := dict_set labels "history_info"
                     (history_count (S (length (history g))));
          choices := choices g;
          history_text := history_line 1 r :: numbered 2 (rev (history g));
          dialogs := dialogs g; queue := queue g |}).
Proof.
  destruct g as [cc h t ch ht d q]. cbn [currency_converter history texts
    choices dialogs queue]. intros Hf Hc.
  unfold convert_units. grun. unfold to_float. rewrite Hf. grun.
  unfold unit_convert. grun. rewrite Hc. grun. change (snd (CurrencyConverter.now cc)) with (ticked cc).
  rewrite update_history_appended. eexists. reflexivity.
Qed.

(** The exceptions of [UnitConverter.convert] are [ValueError]s. *)
Lemma unit_errors_are_value_errors (now : datetime) (x : float) (u v : string)
  (e : exn) :
  UnitConverter.convert now x u v = Raises e -> exists message, e = ValueError message.
Proof.
  intros H. pose proof (TableFacts.convert_cases now x u v) as C.
  destruct (UnitConverter.get_unit_type u) as [cu|];
    [destruct (UnitConverter.get_unit_type v) as [cv|]|].
  - destruct (cu =? cv).
    + destruct C as (r & E & _). congruence.
    + rewrite C in H. injection H as <-. now eexists.
  - rewrite C in H. injection H as <-. now eexists.
  - rewrite C in H. injection H as <-. now eexists.
Qed.

(** The two units [on_unit_type_change] selects. *)
Lemma two_units_checked : two_units = true.
Proof. vm_compute. reflexivity. Qed.

Lemma first_two_units (category : string) (units : dict UnitConverter.factor) :
  dict_get UnitConverter.CONVERSION_FACTORS category = Some units ->
  exists first second rest,
    dict_keys units = first :: second :: rest
    /\ UnitConverter.get_unit_type first = Some category
    /\ UnitConverter.get_unit_type second = Some category.
Proof.
  intros H. apply dict_get_In in H.
  pose proof two_units_checked as T. unfold two_units in T.
  rewrite forallb_forall in T. specialize (T _ H). cbn [snd] in T.
  destruct (TableFacts.table_item _ _ H) as (_ & Hp & _).
  unfold placed in Hp. rewrite forallb_forall in Hp.
  destruct units as [|[first f1] [|[second f2] rest]]; try discriminate.
  exists first, second, (dict_keys rest). split; [reflexivity|]. split.
  - apply TableFacts.type_eqb_eq. apply (Hp (first, f1)). now left.
  - apply TableFacts.type_eqb_eq. apply (Hp (second, f2)). right. now left.
Qed.

(** [fetch_rates], whatever the cache and the source hold: it returns
    [True], or it leaves the converter as it was. *)
Lemma fetch_outcomes (s : CurrencyConverter.state) (o : outcome bool)
  (s' : CurrencyConverter.state) :
  CurrencyConverter.fetch_rates s = (o, s') ->
  o = Returns true \/ CurrencyConverter.self s' = CurrencyConverter.self s.
Proof.
  intros E. destruct (CacheFacts.usable_or_not (CurrencyConverter.world s))
    as [(cached & t & Hu)|Hno].
  - rewrite (CacheFacts.fetch_usable s cached t Hu) in E. injection E as <- <-.
    now left.
  - destruct (CacheFacts.load_unusable s Hno) as (s1 & E1 & Hself & _).
    unfold CurrencyConverter.fetch_rates, CurrencyConverter.mbind in E.
    rewrite E1 in E. apply MoreCacheFacts.remote_cases in E as [_ H].
    rewrite Hself in *.
    destruct H as [[-> Hs]|[(e & -> & Hs & He)|[-> _]]]; auto.
Qed.

Lemma demo_checked : demo_ok = true.
Proof. vm_compute. reflexivity. Qed.

(** A code of the demo table has a rate that is a number other than zero. *)
Lemma demo_rate (code : string) :
  In code demo_codes ->
  exists members r,
    demo_rates = JObject members
    /\ dict_get members code = Some (JNumber r) /\ (r =? 0)%float = false.
Proof.
  intros Hin. pose proof demo_checked as D. unfold demo_ok in D.
  unfold demo_codes in Hin. destruct demo_rates as [| | | | |members];
    try discriminate.
  exists members. apply keys_dict_in in Hin.
  destruct (dict_in_get _ _ Hin) as [v Hv]. pose proof (dict_get_In _ _ _ Hv) as Hv'.
  rewrite forallb_forall in D. specialize (D _ Hv'). cbn [snd] in D.
  destruct v as [| |r| | |]; try discriminate.
  exists r. repeat split; trivial. now apply negb_true_iff in D.
Qed.

(** With numeric rates for both codes, the rate of the source not zero
    and an amount that is not zero, [convert] returns. *)
Lemma convert_numeric (c : CurrencyConverter.converter) (now : datetime)
  (from_currency to_currency : string) (amount : float)
  (members : dict json) (rf rt : float) :
  CurrencyConverter.rates c = JObject members ->
  dict_get members (upper from_currency) = Some (JNumber rf) ->
  dict_get members (upper to_currency) = Some (JNumber rt) ->
  (rf =? 0)%float = false ->
  (amount =? 0)%float = false ->
  exists r, CurrencyConverter.convert c now from_currency to_currency amount
            = Returns r.
Proof.
  intros Hr Hf Ht Hz Ha.
  rewrite (CurrencyFacts.convert_present c now from_currency to_currency amount
             members _ _ Hr Hf Ht).
  destruct (String.eqb_spec (upper from_currency) (CurrencyConverter.base_currency c))
    as [Hb|Hnb].
  - rewrite (CurrencyFacts.from_base c members _ _ rt Hr Ht amount Hb).
    cbn [bind snd]. now eexists.
  - destruct (String.eqb_spec (upper to_currency) (CurrencyConverter.base_currency c))
      as [Htb|Hntb].
    + rewrite (CurrencyFacts.to_base c members _ _ rf Hr Hf amount Hnb Htb Hz).
      cbn [bind snd]. now eexists.
    + rewrite (CurrencyFacts.across c members _ _ rf rt Hr Hf Ht amount
                 Hnb Hntb Hz Ha).
      cbn [bind snd]. now eexists.
Qed.

End WithLibrary.
End GuiFacts.

(** ** The handlers *)

Section GuiProperties.
Import ConverterGUI GuiFacts.
Local Open Scope string_scope.
Context {lib : Library} {fmt : Formatting}.

(** X14. [convert_currency] never raises.  When the amount is not a number
    or the converter raises, the window is left as it was but for one error
    box, titled by the kind of the exception ([ValueError] is an input
    error, everything else a conversion error).  When the converter returns,
    the result is appended to the history, the history display is rebuilt
    with the new conversion as its first line, the counter shows the new
    length, the clock was read once, and no box is shown. *)
Theorem convert_currency_contract (g : gui) :
  let s := currency_converter g in
  let w := CurrencyConverter.world s in
  match float_of_str (text_of g "amount_var") with
  | inr message => convert_currency g = show (error_dialog (ValueError message)) g
  | inl entered =>
      match CurrencyConverter.convert (CurrencyConverter.self s)
              (Naive (clock w (ticks w)))
              (upper (text_of g "from_currency"))
              (upper (text_of g "to_currency")) entered with
      | Raises e => convert_currency g = show (error_dialog e) g
      | Returns r =>
          exists g',
            convert_currency g = (Returns tt, g')
            /\ history g' = (history g ++ [r])%list
            /\ history_text g' = history_line 1 r :: numbered 2 (rev (history g))
            /\ text_of g' "history_info" = history_count (S (length (history g)))
            /\ currency_converter g' = ticked s
            /\ dialogs g' = dialogs g
            /\ queue g' = queue g
      end
  end.
Proof.
  cbv zeta.
  destruct (float_of_str (text_of g "amount_var")) as [entered|message] eqn:Hf.
  - destruct (CurrencyConverter.convert _ _ _ _ _) as [r|e] eqn:Hc.
    + destruct (convert_currency_returns g entered r Hf Hc) as (labels & E & _).
      eexists. split; [exact E|]. repeat split.
      unfold text_of. cbn [texts]. now rewrite dict_get_set.
    + destruct g as [cc h t ch ht d q].
      cbn [currency_converter history texts choices dialogs queue] in *.
      unfold convert_currency, error_dialog. grun. unfold to_float. rewrite Hf.
      grun. unfold currency_convert. grun. rewrite Hc. grun.
      now destruct (is_ValueError e).
  - destruct g as [cc h t ch ht d q].
    unfold convert_currency, error_dialog. grun. unfold to_float. rewrite Hf.
    reflexivity.
Qed.

(** X15. [convert_units] never raises, and its second [except] clause is
    never taken: the unit converter raises [ValueError]s only, so every
    failure is reported as an input error.  On success the window changes
    as it does for a currency, and the result carries no rate. *)
Theorem convert_units_contract (g : gui) :
  let s := currency_converter g in
  let w := CurrencyConverter.world s in
  let input_error message :=
    show (showerror "Ошибка" ("Ошибка ввода: " ++ message)) g in
  match float_of_str (text_of g "unit_amount_var") with
  | inr message => convert_units g = input_error message
  | inl entered =>
      match UnitConverter.convert (Naive (clock w (ticks w))) entered
              (text_of g "from_unit") (text_of g "to_unit") with
      | Raises e =>
          exists message, e = ValueError message
                          /\ convert_units g = input_error message
      | Returns r =>
          exists g',
            convert_units g = (Returns tt, g')
            /\ rate r = None
            /\ history g' = (history g ++ [r])%list
            /\ history_text g' = history_line 1 r :: numbered 2 (rev (history g))
            /\ text_of g' "history_info" = history_count (S (length (history g)))
            /\ currency_converter g' = ticked s
            /\ dialogs g' = dialogs g
            /\ queue g' = queue g
      end
  end.
Proof.
  cbv zeta.
  destruct (float_of_str (text_of g "unit_amount_var")) as [entered|message] eqn:Hf.
  - destruct (UnitConverter.convert _ _ _ _) as [r|e] eqn:Hc.
    + destruct (convert_units_returns g entered r Hf Hc) as (labels & E).
      eexists. split; [exact E|]. split.
      { pose proof (TableFacts.convert_cases
                      (Naive (clock (CurrencyConverter.world (currency_converter g))
                                (ticks (CurrencyConverter.world (currency_converter g)))))
                      entered (text_of g "from_unit") (text_of g "to_unit")) as C.
        destruct (UnitConverter.get_unit_type (text_of g "from_unit"));
          [destruct (UnitConverter.get_unit_type (text_of g "to_unit"))|];
          [destruct (_ =? _)%string|..]; try congruence.
        destruct C as (r' & E' & Hr'). congruence. }
      repeat split.
      unfold text_of. cbn [texts]. now rewrite dict_get_set.
    + destruct (unit_errors_are_value_errors _ _ _ _ _ Hc) as [message ->].
      exists message. split; [reflexivity|].
      destruct g as [cc h t ch ht d q].
      cbn [currency_converter history texts choices dialogs queue] in *.
      unfold convert_units. grun. unfold to_float. rewrite Hf.
      grun. unfold unit_convert. grun. rewrite Hc. reflexivity.
  - destruct g as [cc h t ch ht d q].
    unfold convert_units. grun. unfold to_float. rewrite Hf.
    reflexivity.
Qed.

(** X16. [update_history] rebuilds the display from the history alone,
    newest first: whatever the display held, it ends with one line per
    conversion, the conversion at position [k] of the history (oldest
    first, from 0) is on line [n - k] of [n], numbered so, and running it
    again changes nothing.  It shows no box and leaves history and
    converter alone. *)
Theorem history_newest_first (g : gui) :
  exists g',
    update_history g = (Returns tt, g')
    /\ history g' = history g
    /\ currency_converter g' = currency_converter g
    /\ dialogs g' = dialogs g
    /\ length (history_text g') = length (history g)
    /\ (forall k conv,
          nth_error (history g) k = Some conv ->
          nth_error (history_text g') (length (history g) - S k)
          = Some (history_line (Z.of_nat (length (history g) - k)) conv))
    /\ update_history g' = (Returns tt, g').
Proof.
  rewrite update_history_spec. eexists. split; [reflexivity|].
  cbn [currency_converter history texts choices history_text dialogs queue].
  repeat split.
  - now rewrite numbered_length, length_rev.
  - intros k conv Hk.
    assert (Hlt : (k < length (history g))%nat).
    { apply nth_error_Some. congruence. }
    rewrite numbered_nth, nth_error_rev.
    assert (Hlt' : (length (history g) - S k <? length (history g))%nat = true).
    { apply Nat.ltb_lt. lia. }
    rewrite Hlt'.
    replace (length (history g) - S (length (history g) - S k))%nat with k by lia.
    rewrite Hk. cbn [option_map]. f_equal. f_equal. lia.
  - rewrite update_history_spec.
    cbn [currency_converter history texts choices history_text dialogs queue].
    now rewrite dict_set_twice.
Qed.

(** X17. The handlers test the rate for truth, not for presence: a
    currency conversion whose rate is zero (from the base currency to a
    currency quoted at zero, say) is appended to the history, but the rate
    label keeps what it showed before, and the history shows the conversion
    in the format of a unit conversion, without its rate. *)
Theorem zero_rate_shown_as_unit (g : gui) (entered x : float)
  (r : ConversionResult) :
  let s := currency_converter g in
  let w := CurrencyConverter.world s in
  float_of_str (text_of g "amount_var") = inl entered ->
  CurrencyConverter.convert (CurrencyConverter.self s) (Naive (clock w (ticks w)))
    (upper (text_of g "from_currency")) (upper (text_of g "to_currency")) entered
  = Returns r ->
  rate r = Some x ->
  (x =? 0)%float = true ->
  exists g',
    convert_currency g = (Returns tt, g')
    /\ history g' = (history g ++ [r])%list
    /\ text_of g' "rate_label" = text_of g "rate_label"
    /\ nth_error (history_text g') 0 = Some (history_line 1 (without_rate r)).
Proof.
  intros s w Hf Hc Hr Hx.
  destruct (convert_currency_returns g entered r Hf Hc) as (labels & E & Hl).
  eexists. split; [exact E|]. split; [reflexivity|]. split.
  - unfold text_of. cbn [texts].
    rewrite dict_get_set_other by discriminate. rewrite Hl; [reflexivity|].
    rewrite Hr. unfold rate_truthy. now rewrite Hx.
  - cbn [history_text nth_error]. f_equal. unfold history_line.
    rewrite Hr. unfold rate_truthy. rewrite Hx. reflexivity.
Qed.

(** X18. Choosing any category of the table makes the window ready to
    convert: [on_unit_type_change] offers the units of the category in both
    boxes, selects the first unit as source and the second as target (every
    category has two), shows their full names, and [convert_units] pressed
    next with a number in the amount entry converts between the two without
    an error box. *)
Theorem default_units_convert (g : gui) (units : dict UnitConverter.factor)
  (entered : float) :
  dict_get UnitConverter.get_available_units (text_of g "unit_type_var")
  = Some units ->
  float_of_str (text_of g "unit_amount_var") = inl entered ->
  exists g1 first second others r g2,
    on_unit_type_change g = (Returns tt, g1)
    /\ dict_keys units = first :: second :: others
    /\ dict_get (choices g1) "from_unit" = Some (dict_keys units)
    /\ dict_get (choices g1) "to_unit" = Some (dict_keys units)
    /\ text_of g1 "from_unit" = first
    /\ text_of g1 "to_unit" = second
    /\ text_of g1 "from_unit_name" = UnitConverter.get_full_unit_name first
    /\ text_of g1 "to_unit_name" = UnitConverter.get_full_unit_name second
    /\ convert_units g1 = (Returns tt, g2)
    /\ history g2 = (history g ++ [r])%list
    /\ from_unit r = first /\ to_unit r = second
    /\ dialogs g2 = dialogs g.
Proof.
  intros Hu Hf.
  destruct (first_two_units _ _ Hu) as (first & second & others & Hk & H1 & H2).
  destruct g as [cc h t ch ht d q].
  set (t1 := dict_set (dict_set (dict_set (dict_set t "from_unit" first)
                                   "to_unit" second)
                         "from_unit_name" (UnitConverter.get_full_unit_name first))
               "to_unit_name" (UnitConverter.get_full_unit_name second)).
  set (g1 := {| currency_converter := cc; history := h; texts := t1;
                choices := dict_set (dict_set ch "from_unit" (dict_keys units))
                             "to_unit" (dict_keys units);
                history_text := ht; dialogs := d; queue := q |}).
  assert (E1 : on_unit_type_change
                 {| currency_converter := cc; history := h; texts := t;
                    choices := ch; history_text := ht; dialogs := d; queue := q |}
               = (Returns tt, g1)).
  { unfold on_unit_type_change. grun. fold (text_of
      {| currency_converter := cc; history := h; texts := t;
         choices := ch; history_text := ht; dialogs := d; queue := q |}
      "unit_type_var").
    rewrite Hu, Hk. grun. unfold update_unit_names. grun.
    unfold text_of. cbn [texts].
    rewrite dict_get_set.
    rewrite (dict_get_set_other _ "to_unit" "from_unit") by discriminate.
    rewrite dict_get_set. unfold g1. rewrite Hk. reflexivity. }
  assert (Tfrom : text_of g1 "from_unit" = first).
  { unfold text_of, g1, t1. cbn [texts].
    rewrite !dict_get_set_other by discriminate. now rewrite dict_get_set. }
  assert (Tto : text_of g1 "to_unit" = second).
  { unfold text_of, g1, t1. cbn [texts].
    rewrite !dict_get_set_other by discriminate. now rewrite dict_get_set. }
  assert (Tamount : text_of g1 "unit_amount_var" = text_of
      {| currency_converter := cc; history := h; texts := t;
         choices := ch; history_text := ht; dialogs := d; queue := q |}
      "unit_amount_var").
  { unfold text_of, g1, t1. cbn [texts].
    now rewrite !dict_get_set_other by discriminate. }
  destruct (TableFacts.convert_same_category
              (Naive (clock (CurrencyConverter.world cc)
                        (ticks (CurrencyConverter.world cc))))
              entered first second _ H1 H2) as (r & Hc & _).
  assert (Hr : from_unit r = first /\ to_unit r = second).
  { unfold UnitConverter.convert in Hc.
    destruct (_ || _); [discriminate|]. destruct (negb _); [discriminate|].
    match type of Hc with
    | bind ?m _ = _ => destruct m; cbn [bind] in Hc; [|discriminate]
    end.
    injection Hc as <-. now split. }
  rewrite <- Tamount in Hf. rewrite <- Tfrom, <- Tto in Hc.
  destruct (convert_units_returns g1 entered r Hf Hc) as (labels & E2).
  exists g1, first, second, others, r. eexists.
  split; [exact E1|]. split; [exact Hk|].
  split; [unfold g1; cbn [choices];
          rewrite dict_get_set_other by discriminate; apply dict_get_set|].
  split; [unfold g1; cbn [choices]; apply dict_get_set|].
  split; [exact Tfrom|]. split; [exact Tto|].
  split; [unfold text_of, g1, t1; cbn [texts];
          rewrite dict_get_set_other by discriminate; now rewrite dict_get_set|].
  split; [unfold text_of, g1, t1; cbn [texts]; now rewrite dict_get_set|].
  split; [exact E2|].
  split; [reflexivity|]. split; [apply Hr|]. split; [apply Hr|reflexivity].
Qed.

(** X19. When [fetch_rates] returns [False], the background load puts the
    converter into demo mode: the fifteen demo rates replace whatever rates
    it held, [last_update] is the next reading of the clock, key, base
    currency and URL stay, the failure status is queued and nothing else of
    the window changes.  From then on every pair of demo currencies
    converts, in any spelling of the codes [upper] maps to them, for every
    amount other than zero. *)
Theorem demo_mode_after_failed_fetch (g : gui) (s' : CurrencyConverter.state) :
  CurrencyConverter.fetch_rates (currency_converter g) = (Returns false, s') ->
  let w' := CurrencyConverter.world s' in
  let c' := with_rates (CurrencyConverter.self (currency_converter g)) demo_rates
              (Naive (clock w' (ticks w'))) in
  load_rates_in_background g
  = (Returns tt,
     around g {| CurrencyConverter.self := c'; CurrencyConverter.world := tick w' |}
       [status_load_failed])
  /\ CurrencyConverter.get_available_currencies c' = Returns demo_codes
  /\ length demo_codes = 15%nat
  /\ (forall now from_currency to_currency amount,
        In (upper from_currency) demo_codes ->
        In (upper to_currency) demo_codes ->
        (amount =? 0)%float = false ->
        exists r, CurrencyConverter.convert c' now from_currency to_currency amount
                  = Returns r).
Proof.
  intros E w' c'.
  pose proof (fetch_outcomes _ _ _ E) as [H|Hself]; [discriminate|].
  split; [|split; [reflexivity|split; [reflexivity|]]].
  - destruct g as [cc h t ch ht d q]. cbn [currency_converter] in *.
    unfold load_rates_in_background. grun. rewrite E.
    unfold setup_demo_mode. grun. subst c' w'. rewrite <- Hself.
    destruct s' as [c1 w1]. reflexivity.
  - intros now from_currency to_currency amount Hfrom Hto Ha.
    destruct (demo_rate _ Hfrom) as (members & rf & Hm & Hf & Hz).
    destruct (demo_rate _ Hto) as (members' & rt & Hm' & Ht & _).
    rewrite Hm in Hm'. injection Hm' as <-.
    exact (convert_numeric c' now from_currency to_currency amount members
             rf rt Hm Hf Ht Hz Ha).
Qed.

(** X20. When [fetch_rates] raises, the background load ends with that
    exception before it queues a status or enters demo mode.  A converter
    that had no rates still has none, so [convert_currency] answers every
    amount that is a number with the input-error box that says the rates are
    not loaded. *)
Theorem no_demo_mode_after_exception (g : gui) (e : exn)
  (s' : CurrencyConverter.state) (entered : float) :
  CurrencyConverter.fetch_rates (currency_converter g) = (Raises e, s') ->
  CurrencyConverter.rates (CurrencyConverter.self (currency_converter g))
  = JObject [] ->
  float_of_str (text_of g "amount_var") = inl entered ->
  load_rates_in_background g = (Raises e, around g s' [])
  /\ CurrencyConverter.self s' = CurrencyConverter.self (currency_converter g)
  /\ convert_currency (around g s' [])
     = show (showerror "Ошибка"
               ("Ошибка ввода: " ++ CurrencyConverter.not_loaded_message))
         (around g s' []).
Proof.
  intros E Hr Hf.
  pose proof (fetch_outcomes _ _ _ E) as [H|Hself]; [discriminate|].
  destruct g as [cc h t ch ht d q]. cbn [currency_converter] in *.
  split; [|split; [exact Hself|]].
  - unfold load_rates_in_background. grun. rewrite E. unfold around.
    cbn [currency_converter history texts choices history_text dialogs queue].
    now rewrite app_nil_r.
  - unfold around. cbn [currency_converter history texts choices history_text
      dialogs queue]. rewrite app_nil_r.
    unfold text_of in Hf. cbn [texts] in Hf.
    unfold convert_currency. grun. unfold to_float, text_of. cbn [texts].
    rewrite Hf. grun. unfold currency_convert. grun.
    unfold CurrencyConverter.convert. rewrite Hself, Hr. reflexivity.
Qed.

(** X21. [update_rates] writes the progress text first and never shows a
    box or touches the history; what its thread queues is decided by
    [fetch_rates] alone.  When the fetch returns [True], the success status
    and the refresh of the currency list are queued, in this order.  When
    it returns [False], the failure status is queued and nothing else.
    When it raises, the thread ends with that exception and queues
    nothing, so the progress text stays.  In the last two cases the
    converter keeps the rates it had: unlike the first load, an update has
    no demo mode to fall back on. *)
Theorem update_rates_outcomes (g : gui) :
  exists o g',
    update_rates g = (o, g')
    /\ text_of g' "status_label" = "Обновление курсов..."
    /\ history g' = history g
    /\ history_text g' = history_text g
    /\ dialogs g' = dialogs g
    /\ match CurrencyConverter.fetch_rates (currency_converter g) with
       | (Returns true, s') =>
           o = Returns tt
           /\ currency_converter g' = s'
           /\ queue g' = (queue g ++ [status_updated; update_currency_list])%list
       | (Returns false, s') =>
           o = Returns tt
           /\ currency_converter g' = s'
           /\ queue g' = (queue g ++ [status_update_failed])%list
           /\ CurrencyConverter.self s'
              = CurrencyConverter.self (currency_converter g)
       | (Raises e, s') =>
           o = Raises e
           /\ currency_converter g' = s'
           /\ queue g' = queue g
           /\ CurrencyConverter.self s'
              = CurrencyConverter.self (currency_converter g)
       end.
Proof.
  destruct g as [cc h t ch ht d q]. unfold update_rates. grun.
  destruct (CurrencyConverter.fetch_rates cc) as [o s'] eqn:E.
  pose proof (fetch_outcomes _ _ _ E) as H.
  destruct o as [[|]|e]; grun.
  - eexists. eexists. split; [reflexivity|].
    cbn [history history_text dialogs queue currency_converter].
    split; [unfold text_of; cbn [texts]; now rewrite dict_get_set|].
    repeat (split; [reflexivity|]). now rewrite <- app_assoc.
  - destruct H as [H|H]; [discriminate|].
    eexists. eexists. split; [reflexivity|].
    cbn [history history_text dialogs queue currency_converter].
    split; [unfold text_of; cbn [texts]; now rewrite dict_get_set|].
    repeat (split; [reflexivity|]). exact H.
  - destruct H as [H|H]; [discriminate|].
    eexists. eexists. split; [reflexivity|].
    cbn [history history_text dialogs queue currency_converter].
    split; [unfold text_of; cbn [texts]; now rewrite dict_get_set|].
    repeat (split; [reflexivity|]). exact H.
Qed.

End GuiProperties.

(** ** The properties of the window at concrete inputs *)

Section GuiInstances.

Import ConverterGUI.
Local Open Scope float_scope.
Local Open Scope string_scope.

Lemma zero_rate_shown_as_unit_witness :
  exists g',
    convert_currency (lib := Examples.library) (fmt := GuiExamples.formatting)
      GuiExamples.roubles = (Returns tt, g')
    /\ history g' = [GuiExamples.nothing]
    /\ text_of g' "rate_label" = ""
    /\ nth_error (history_text g') 0
       = Some (history_line (fmt := GuiExamples.formatting) 1
                 (without_rate GuiExamples.nothing)).
Proof.
  apply (zero_rate_shown_as_unit (lib := Examples.library)
           (fmt := GuiExamples.formatting) GuiExamples.roubles 5 0
           GuiExamples.nothing);
    reflexivity.
Defined.

Lemma default_units_convert_witness :
  exists g1 first second others r g2,
    on_unit_type_change GuiExamples.lengths = (Returns tt, g1)
    /\ dict_keys Examples.length_units = first :: second :: others
    /\ dict_get (choices g1) "from_unit" = Some (dict_keys Examples.length_units)
    /\ dict_get (choices g1) "to_unit" = Some (dict_keys Examples.length_units)
    /\ text_of g1 "from_unit" = first
    /\ text_of g1 "to_unit" = second
    /\ text_of g1 "from_unit_name" = UnitConverter.get_full_unit_name first
    /\ text_of g1 "to_unit_name" = UnitConverter.get_full_unit_name second
    /\ convert_units (fmt := GuiExamples.formatting) g1 = (Returns tt, g2)
    /\ history g2 = [r]
    /\ from_unit r = first /\ to_unit r = second
    /\ dialogs g2 = [].
Proof.
  apply (default_units_convert (fmt := GuiExamples.formatting)
           GuiExamples.lengths Examples.length_units 2.5);
    reflexivity.
Defined.

Lemma demo_mode_after_failed_fetch_witness :
  let s' := snd (CurrencyConverter.fetch_rates (lib := Examples.library)
                   (Examples.uncached Unreachable)) in
  let c' := with_rates Examples.blank demo_rates (Naive (hours 58)) in
  load_rates_in_background (lib := Examples.library) GuiExamples.unreachable
  = (Returns tt,
     around GuiExamples.unreachable
       {| CurrencyConverter.self := c';
          CurrencyConverter.world := tick (CurrencyConverter.world s') |}
       [status_load_failed])
  /\ CurrencyConverter.get_available_currencies c' = Returns demo_codes
  /\ length demo_codes = 15%nat
  /\ (forall now from_currency to_currency amount,
        In (upper (Library := Examples.library) from_currency) demo_codes ->
        In (upper (Library := Examples.library) to_currency) demo_codes ->
        (amount =? 0)%float = false ->
        exists r, CurrencyConverter.convert (lib := Examples.library) c' now
                    from_currency to_currency amount
                  = Returns r).
Proof.
  intros s'.
  apply (demo_mode_after_failed_fetch (lib := Examples.library)
           GuiExamples.unreachable s').
  reflexivity.
Defined.

Lemma no_demo_mode_after_exception_witness :
  let s' := snd (CurrencyConverter.fetch_rates (lib := Examples.library)
                   (Examples.uncached (Response 200 (Some GuiExamples.hollow)))) in
  load_rates_in_background (lib := Examples.library) GuiExamples.misled
  = (Raises (KeyError "conversion_rates"), around GuiExamples.misled s' [])
  /\ CurrencyConverter.self s' = Examples.blank
  /\ convert_currency (lib := Examples.library) (fmt := GuiExamples.formatting)
       (around GuiExamples.misled s' [])
     = show (showerror "Ошибка"
               ("Ошибка ввода: " ++ CurrencyConverter.not_loaded_message))
         (around GuiExamples.misled s' []).
Proof.
  intros s'.
  apply (no_demo_mode_after_exception (lib := Examples.library)
           (fmt := GuiExamples.formatting) GuiExamples.misled
           (KeyError "conversion_rates") s' 100);
    reflexivity.
Defined.

End GuiInstances.
